(** * Session and key-store management layer of the Signal/Ollama chat

  A shallow embedding of the TypeScript sources
  [src/lib/signal/store.ts], [src/lib/signal/identities.ts],
  [src/lib/signal/session.ts], [src/lib/storage.ts] and the message
  loading / submission logic of [src/components/chat-view.tsx].

  Conventions.
  - A [Uint8Array] is a [list byte]; a JS [Map] or plain object used as a
    dictionary is a [gmap].
  - A JS string that the program measures, cuts or trims (the prompt
    input, the text of a message) is the list of its UTF-16 code units
    ([Text]).  A string that is only compared, concatenated and passed
    on (names, ids, paths, base64 text, error messages) is a [string],
    written with its ASCII literals.
  - Every mutable object is threaded explicitly: a method of a class
    whose instance state is [S] is a computation [M S A], which returns
    either a value or a thrown [JsError] together with the state reached.
  - [await] is sequencing: the layer is single threaded and every call in
    the sources is awaited before the next statement runs.
  - The protocol engine (@signalapp/libsignal-client) is not part of the
    repository.  Module [Libsignal] gives it an idealised, executable
    model (symbolic keys, key agreement, KEM, signatures, a counter
    ratchet) that keeps the call contracts the layer relies on. *)

From stdpp Require Import gmap strings list fin_maps pretty.
From Stdlib Require Import Strings.Byte Strings.Ascii Strings.String NArith ZArith Lia.

Local Open Scope string_scope.
Local Open Scope list_scope.

(* ===================================================================== *)
(** * JavaScript runtime model                                            *)
(* ===================================================================== *)

Module Js.

Abbreviation Uint8Array := (list byte).

(** A thrown [Error] object, identified by its message. *)
Inductive JsError := mkError (message : string).

Definition message (e : JsError) : string :=
  match e with mkError m => m end.

(** Completion of a call: normal return or exception. *)
Inductive Result (A : Type) :=
| Ok (a : A)
| Throw (e : JsError).
Arguments Ok {A} a.
Arguments Throw {A} e.

(** Computations over a mutable state [S]. An exception keeps the
    mutations performed before it was raised. *)
Definition M (S A : Type) : Type := S -> Result A * S.

Definition ret {S A} (a : A) : M S A := fun s => (Ok a, s).
Definition throw {S A} (e : JsError) : M S A := fun s => (Throw e, s).
Definition bind {S A B} (m : M S A) (k : A -> M S B) : M S B :=
  fun s => match m s with
           | (Ok a, s') => k a s'
           | (Throw e, s') => (Throw e, s')
           end.
Definition get {S} : M S S := fun s => (Ok s, s).
Definition put {S} (s : S) : M S unit := fun _ => (Ok tt, s).
Definition modify {S} (f : S -> S) : M S unit := fun s => (Ok tt, f s).

(** Run a method of a component [T] of the state [S]. *)
Definition zoom {S T A} (proj : S -> T) (upd : T -> S -> S) (m : M T A) : M S A :=
  fun s => let (r, t) := m (proj s) in (r, upd t s).

(** [try { m } catch (err) { h err }]. *)
Definition try_catch {S A} (m : M S A) (h : JsError -> M S A) : M S A :=
  fun s => match m s with
           | (Ok a, s') => (Ok a, s')
           | (Throw e, s') => h e s'
           end.

(** [for (const x of xs) { body x }]. *)
Fixpoint for_of {S A} (xs : list A) (body : A -> M S unit) : M S unit :=
  match xs with
  | [] => ret tt
  | x :: rest => bind (body x) (fun _ => for_of rest body)
  end.

(** [xs.map(f)] where [f] may throw. *)
Fixpoint map_result {A B} (f : A -> Result B) (xs : list A) : Result (list B) :=
  match xs with
  | [] => Ok []
  | x :: rest =>
      match f x with
      | Throw e => Throw e
      | Ok y => match map_result f rest with
                | Throw e => Throw e
                | Ok ys => Ok (y :: ys)
                end
      end
  end.

Definition lift {S A} (r : Result A) : M S A := fun s => (r, s).

Notation "x <- m ;; k" := (bind m (fun x => k))
  (at level 100, m at next level, right associativity).
Notation "m1 ;;; m2" := (bind m1 (fun _ => m2))
  (at level 100, right associativity).

(** A reference to an object of class state [T] inside the program
    state [G]: how to read the object and how to store it back. *)
Record Ref (G T : Type) := mkRef { rget : G -> T; rset : T -> G -> G }.
Arguments mkRef {G T} rget rset.
Arguments rget {G T} r g.
Arguments rset {G T} r t g.

(** Call a method on the object behind a reference. *)
Definition call {G T A} (r : Ref G T) (m : M T A) : M G A :=
  zoom (rget r) (rset r) m.

Definition self {T} : Ref T T := mkRef (fun t => t) (fun t _ => t).

(** The field [proj]/[upd] of the object behind [r]. *)
Definition field {G T U} (r : Ref G T) (proj : T -> U) (upd : U -> T -> T) : Ref G U :=
  mkRef (fun g => proj (rget r g)) (fun u g => rset r (upd u (rget r g)) g).

(** [map.forEach((value, key) => body)] and
    [Object.entries(o).forEach(([key, value]) => body)]; the entries are
    visited in the order of [map_to_list]. *)
Definition forEach {K V S} `{Countable K} (m : gmap K V) (body : V -> K -> M S unit)
  : M S unit :=
  for_of (map_to_list m) (fun kv => body (snd kv) (fst kv)).

(* ------------------------------------------------------------------- *)
(** ** Buffer: base64                                                   *)
(* ------------------------------------------------------------------- *)

Definition byte_of_N (n : N) : byte :=
  match Byte.of_N n with Some b => b | None => x00 end.

Definition base64_alphabet : list ascii :=
  list_ascii_of_string
    "ABCDEFGHIJKLMNOPQRSTUVWXYZabcdefghijklmnopqrstuvwxyz0123456789+/".

Definition base64_char (v : N) : ascii :=
  nth (N.to_nat v) base64_alphabet "="%char.

Fixpoint index_of (c : ascii) (l : list ascii) (i : N) : option N :=
  match l with
  | [] => None
  | d :: rest => if Ascii.eqb c d then Some i else index_of c rest (N.succ i)
  end.

(** Value of a character; the decoder also takes the URL-safe letters. *)
Definition base64_value (c : ascii) : option N :=
  if Ascii.eqb c "-" then Some 62%N
  else if Ascii.eqb c "_" then Some 63%N
  else index_of c base64_alphabet 0%N.

(** The four sextets of three bytes, and back. *)
Definition sextet0 (a : N) : N := (a / 4)%N.
Definition sextet1 (a b : N) : N := ((a mod 4) * 16 + b / 16)%N.
Definition sextet2 (b c : N) : N := ((b mod 16) * 4 + c / 64)%N.
Definition sextet3 (c : N) : N := (c mod 64)%N.

Definition octet0 (p q : N) : N := ((p * 4 + q / 16) mod 256)%N.
Definition octet1 (q r : N) : N := (((q mod 16) * 16 + r / 4) mod 256)%N.
Definition octet2 (r s : N) : N := (((r mod 4) * 64 + s) mod 256)%N.

(** [Buffer.from(bytes).toString('base64')]. *)
Fixpoint toBase64 (bs : Uint8Array) : string :=
  match bs with
  | [] => ""
  | [a] =>
      let a := Byte.to_N a in
      String (base64_char (sextet0 a))
        (String (base64_char (sextet1 a 0)) "==")
  | [a; b] =>
      let a := Byte.to_N a in
      let b := Byte.to_N b in
      String (base64_char (sextet0 a))
        (String (base64_char (sextet1 a b))
           (String (base64_char (sextet2 b 0)) "="))
  | a :: b :: c :: rest =>
      let a := Byte.to_N a in
      let b := Byte.to_N b in
      let c := Byte.to_N c in
      String (base64_char (sextet0 a))
        (String (base64_char (sextet1 a b))
           (String (base64_char (sextet2 b c))
              (String (base64_char (sextet3 c)) (toBase64 rest))))
  end.

(** The decoder skips characters outside the alphabet and stops at the
    first padding character. *)
Fixpoint sextets (s : string) : list N :=
  match s with
  | EmptyString => []
  | String c rest =>
      if Ascii.eqb c "=" then []
      else match base64_value c with
           | Some v => v :: sextets rest
           | None => sextets rest
           end
  end.

Fixpoint octets (vs : list N) : Uint8Array :=
  match vs with
  | p :: q :: r :: s :: rest =>
      byte_of_N (octet0 p q) :: byte_of_N (octet1 q r)
        :: byte_of_N (octet2 r s) :: octets rest
  | [p; q; r] => [byte_of_N (octet0 p q); byte_of_N (octet1 q r)]
  | [p; q] => [byte_of_N (octet0 p q)]
  | _ => []
  end.

(** [Buffer.from(text, 'base64')]. *)
Definition fromBase64 (s : string) : Uint8Array := octets (sextets s).

(* ------------------------------------------------------------------- *)
(** ** Strings                                                          *)
(* ------------------------------------------------------------------- *)

(** The UTF-16 code units of a JS string, numbers below [2^16]. *)
Definition Text : Type := list N.

(** A literal of ASCII characters as a JS string. *)
Definition text (s : string) : Text := map N_of_ascii (list_ascii_of_string s).
Coercion text : string >-> Text.

(** White space and line terminators of ECMAScript, which [trim]
    strips: TAB, LF, VT, FF, CR, SP, NBSP, U+1680, U+2000 to U+200A,
    U+2028, U+2029, U+202F, U+205F, U+3000 and U+FEFF. *)
Definition isWhiteSpace (u : N) : bool :=
  ((9 <=? u) && (u <=? 13) || (u =? 32) || (u =? 160) || (u =? 5760)
   || (8192 <=? u) && (u <=? 8202) || (u =? 8232) || (u =? 8233)
   || (u =? 8239) || (u =? 8287) || (u =? 12288) || (u =? 65279))%N.

Fixpoint trimStart (s : Text) : Text :=
  match s with
  | [] => []
  | u :: rest => if isWhiteSpace u then trimStart rest else s
  end.

Definition trimEnd (s : Text) : Text := rev (trimStart (rev s)).

(** [s.trim()]. *)
Definition trim (s : Text) : Text := trimEnd (trimStart s).

(** [!s] for a string [s]. *)
Definition isEmpty (s : Text) : bool :=
  match s with [] => true | _ :: _ => false end.

(** [s.slice(start, stop)] and [s.slice(start)] for indices that are not
    negative. *)
Definition slice (s : Text) (start stop : nat) : Text :=
  take (stop - start) (drop start s).

Definition sliceFrom (s : Text) (start : nat) : Text := drop start s.

(** [s.substr(start, length)] of a [string]. *)
Definition substr (s : string) (start length : nat) : string :=
  String.substring start length s.

(* ------------------------------------------------------------------- *)
(** ** TextEncoder and TextDecoder (UTF-8)                              *)
(* ------------------------------------------------------------------- *)

Definition isHighSurrogate (u : N) : bool := ((55296 <=? u) && (u <=? 56319))%N.
Definition isLowSurrogate (u : N) : bool := ((56320 <=? u) && (u <=? 57343))%N.

(** The UTF-8 bytes of a code point. *)
Definition utf8_bytes (cp : N) : Uint8Array :=
  if (cp <? 128)%N then [byte_of_N cp]
  else if (cp <? 2048)%N then
    [byte_of_N (192 + cp / 64); byte_of_N (128 + cp mod 64)]
  else if (cp <? 65536)%N then
    [byte_of_N (224 + cp / 4096); byte_of_N (128 + (cp / 64) mod 64);
     byte_of_N (128 + cp mod 64)]
  else
    [byte_of_N (240 + cp / 262144); byte_of_N (128 + (cp / 4096) mod 64);
     byte_of_N (128 + (cp / 64) mod 64); byte_of_N (128 + cp mod 64)].

(** [new TextEncoder().encode(s)]: a surrogate pair is one code point, a
    surrogate without its partner is replaced by U+FFFD. *)
Fixpoint TextEncoder_encode (s : Text) : Uint8Array :=
  match s with
  | [] => []
  | u :: rest =>
      if isHighSurrogate u then
        match rest with
        | v :: rest' =>
            if isLowSurrogate v then
              utf8_bytes (65536 + (u - 55296) * 1024 + (v - 56320))
                ++ TextEncoder_encode rest'
            else utf8_bytes 65533 ++ TextEncoder_encode rest
        | [] => utf8_bytes 65533
        end
      else if isLowSurrogate u then utf8_bytes 65533 ++ TextEncoder_encode rest
      else utf8_bytes (u mod 65536) ++ TextEncoder_encode rest
  end.

(** The code units of a code point. *)
Definition utf16_units (cp : N) : Text :=
  if (cp <? 65536)%N then [cp]
  else [(55296 + (cp - 65536) / 1024)%N; (56320 + (cp - 65536) mod 1024)%N].

(** State of the decoder inside a sequence: the code point so far, the
    continuation bytes still needed and the bounds of the next byte. *)
Record Utf8State := mkUtf8State {
  utf8_codePoint : N;
  utf8_needed : nat;
  utf8_lower : N;
  utf8_upper : N;
}.

(** A byte met outside a sequence: what is emitted, and the sequence it
    opens. *)
Definition utf8_lead (b : N) : Text * option Utf8State :=
  if (b <? 128)%N then ([b], None)
  else if ((194 <=? b) && (b <=? 223))%N then
    ([], Some (mkUtf8State (b - 192) 1 128 191))
  else if ((224 <=? b) && (b <=? 239))%N then
    ([], Some (mkUtf8State (b - 224) 2
                 (if (b =? 224)%N then 160 else 128)
                 (if (b =? 237)%N then 159 else 191)))
  else if ((240 <=? b) && (b <=? 244))%N then
    ([], Some (mkUtf8State (b - 240) 3
                 (if (b =? 240)%N then 144 else 128)
                 (if (b =? 244)%N then 143 else 191)))
  else ([65533%N], None).

(** The decoder of the Encoding Standard: an ill-formed sequence gives
    one U+FFFD and the byte that ended it is read again. *)
Fixpoint utf8_decode (state : option Utf8State) (bs : Uint8Array) : Text :=
  match bs with
  | [] => match state with Some _ => [65533%N] | None => [] end
  | byte :: rest =>
      let b := Byte.to_N byte in
      match state with
      | None =>
          let (out, state') := utf8_lead b in out ++ utf8_decode state' rest
      | Some st =>
          if ((utf8_lower st <=? b) && (b <=? utf8_upper st))%N then
            let cp := (utf8_codePoint st * 64 + (b - 128))%N in
            match utf8_needed st with
            | S (S n) => utf8_decode (Some (mkUtf8State cp (S n) 128 191)) rest
            | _ => utf16_units cp ++ utf8_decode None rest
            end
          else
            let (out, state') := utf8_lead b in
            65533%N :: out ++ utf8_decode state' rest
      end
  end.

(** [new TextDecoder().decode(bytes)]: a byte order mark at the start is
    dropped. *)
Definition TextDecoder_decode (bs : Uint8Array) : Text :=
  match bs with
  | xef :: xbb :: xbf :: rest => utf8_decode None rest
  | _ => utf8_decode None bs
  end.

(* ------------------------------------------------------------------- *)
(** ** Sources of non-determinism                                       *)
(* ------------------------------------------------------------------- *)

(** A source that is read sequentially. *)
Record Oracle (A : Type) := mkOracle { feed : nat -> A; cursor : nat }.
Arguments mkOracle {A} feed cursor.
Arguments feed {A} o n.
Arguments cursor {A} o.

Definition read {A} (o : Oracle A) : A * Oracle A :=
  (feed o (cursor o), mkOracle (feed o) (S (cursor o))).

Definition draw {A} (n : nat) (o : Oracle A) : list A * Oracle A :=
  (map (feed o) (seq (cursor o) n), mkOracle (feed o) (cursor o + n)).

(** What the operating system answers when a directory is made or a file
    is written: it is done, or it fails with an error (ENOTDIR, EACCES,
    ENOSPC, ...); a write that fails may leave the file damaged. *)
Inductive FsAnswer :=
| FsDone
| FsFailed (error : JsError) (damaged : bool).

(** What the process reads from its environment: the operating system's
    cryptographically secure generator (used by the protocol engine for
    key material), the state of [Math.random], the wall clock, the
    digits [Number.prototype.toString(36)] gives the double [m / 2^53]
    (ECMAScript leaves the algorithm to the implementation) and the
    answers of the file system. *)
Record World := mkWorld {
  csprng : Oracle byte;
  mathRandom : Oracle N;
  clock : Oracle N;
  toString36 : N -> string;
  fileSystem : Oracle FsAnswer;
}.

Definition secureRandomBytes (n : nat) : M World Uint8Array :=
  fun w => let (bs, o) := draw n (csprng w) in
           (Ok bs, mkWorld o (mathRandom w) (clock w) (toString36 w) (fileSystem w)).

(** [Date.now()]. *)
Definition Date_now : M World N :=
  fun w => let (t, o) := read (clock w) in
           (Ok t, mkWorld (csprng w) (mathRandom w) o (toString36 w) (fileSystem w)).

(** A double in [0, 1) is [m / 2^53] with [m < 2^53]; [Math.random()]
    returns the numerator. *)
Definition Math_random : M World N :=
  fun w => let (m, o) := read (mathRandom w) in
           (Ok (m mod 2 ^ 53)%N,
            mkWorld (csprng w) o (clock w) (toString36 w) (fileSystem w)).

(** The answer of the file system to the next operation. *)
Definition fsAnswer : M World FsAnswer :=
  fun w => let (a, o) := read (fileSystem w) in
           (Ok a, mkWorld (csprng w) (mathRandom w) (clock w) (toString36 w) o).

(** IEEE-754 binary64 product of the double [m / 2^53] with the integer
    [k], rounded to nearest, ties to even.  The result is returned as a
    numerator over [2^53]. *)
Definition round_to_53_bits (x : N) : N :=
  let e := N.log2 x in
  if (e <=? 52)%N then x
  else
    let sh := (e - 52)%N in
    let q := N.shiftr x sh in
    let r := (x - N.shiftl q sh)%N in
    let half := N.shiftl 1 (sh - 1) in
    let q' := if (half <? r)%N then N.succ q
              else if (r =? half)%N then (if N.odd q then N.succ q else q)
              else q in
    N.shiftl q' sh.

Definition double_mul (m k : N) : N := round_to_53_bits (m * k).

(** [Math.floor] of the double [x / 2^53]. *)
Definition Math_floor (x : N) : N := (x / 2 ^ 53)%N.

End Js.

(* ===================================================================== *)
(** * The protocol engine (@signalapp/libsignal-client)                   *)
(* ===================================================================== *)

(** An idealised model of the external engine.  Keys are symbols: byte
    strings drawn from the secure generator, whose lengths and number of
    bytes read stand for nothing in the engine.  A public key names its
    private scalar, key agreement returns the unordered pair of the two
    scalars, a signature is a nonce with the pair of signer and message,
    the KEM returns the encapsulated secret only to the matching secret
    key (another secret key gets an unrelated value, as Kyber's implicit
    rejection does), and a message is readable exactly by a session that
    derives the same message key.  Records and messages are framed byte
    strings. *)

Module Libsignal.
Import Js.

(* ------------------------------------------------------------------- *)
(** ** Byte-string helpers                                              *)
(* ------------------------------------------------------------------- *)

Fixpoint bytes_eqb (a b : Uint8Array) : bool :=
  match a, b with
  | [], [] => true
  | x :: a', y :: b' => Byte.eqb x y && bytes_eqb a' b'
  | _, _ => false
  end.

Fixpoint bytes_leb (a b : Uint8Array) : bool :=
  match a, b with
  | [], _ => true
  | _ :: _, [] => false
  | x :: a', y :: b' =>
      if (Byte.to_N x <? Byte.to_N y)%N then true
      else if (Byte.to_N y <? Byte.to_N x)%N then false
      else bytes_leb a' b'
  end.

Definition bytes_of_string (s : string) : Uint8Array :=
  map byte_of_ascii (list_ascii_of_string s).

Definition string_of_bytes (bs : Uint8Array) : string :=
  string_of_list_ascii (map ascii_of_byte bs).

(** Little-endian digits of a number. *)
Fixpoint N_to_le (fuel : nat) (n : N) : Uint8Array :=
  match fuel with
  | O => []
  | S fuel' =>
      if (n =? 0)%N then []
      else byte_of_N (n mod 256) :: N_to_le fuel' (n / 256)
  end.

Definition encodeN (n : N) : Uint8Array := N_to_le (N.size_nat n) n.

Fixpoint decodeN (bs : Uint8Array) : N :=
  match bs with
  | [] => 0
  | b :: rest => Byte.to_N b + 256 * decodeN rest
  end.

(** Framing: every field is preceded by its length in unary. *)
Fixpoint frame (fields : list Uint8Array) : Uint8Array :=
  match fields with
  | [] => []
  | f :: rest => repeat x01 (List.length f) ++ x00 :: f ++ frame rest
  end.

Fixpoint read_length (bs : Uint8Array) : option (nat * Uint8Array) :=
  match bs with
  | x00 :: rest => Some (O, rest)
  | x01 :: rest =>
      match read_length rest with
      | Some (n, rest') => Some (S n, rest')
      | None => None
      end
  | _ => None
  end.

Fixpoint unframe_fuel (fuel : nat) (bs : Uint8Array) : option (list Uint8Array) :=
  match bs with
  | [] => Some []
  | _ :: _ =>
      match fuel with
      | O => None
      | S fuel' =>
          match read_length bs with
          | Some (n, rest) =>
              if (n <=? List.length rest)%nat then
                match unframe_fuel fuel' (drop n rest) with
                | Some fields => Some (take n rest :: fields)
                | None => None
                end
              else None
          | None => None
          end
      end
  end.

Definition unframe (bs : Uint8Array) : option (list Uint8Array) :=
  unframe_fuel (List.length bs) bs.

(* ------------------------------------------------------------------- *)
(** ** Curve keys, signatures, key agreement                            *)
(* ------------------------------------------------------------------- *)

Record PrivateKey := mkPrivateKey { PrivateKey_serialize : Uint8Array }.
Record PublicKey := mkPublicKey { PublicKey_serialize : Uint8Array }.

Definition PrivateKey_deserialize (bs : Uint8Array) : Result PrivateKey :=
  if (List.length bs =? 32)%nat then Ok (mkPrivateKey bs)
  else Throw (mkError "bad key length").

(** Bytes after the 33rd are accepted and dropped. *)
Definition PublicKey_deserialize (bs : Uint8Array) : Result PublicKey :=
  match bs with
  | x05 :: rest =>
      if (32 <=? List.length rest)%nat then Ok (mkPublicKey (x05 :: take 32 rest))
      else Throw (mkError "bad key length")
  | _ => Throw (mkError "bad key type")
  end.

Definition PrivateKey_generate : M World PrivateKey :=
  bind (secureRandomBytes 32) (fun bs => ret (mkPrivateKey bs)).

Definition getPublicKey (k : PrivateKey) : PublicKey :=
  mkPublicKey (x05 :: PrivateKey_serialize k).

(** A signature is randomized: 64 bytes of the secure generator come
    before the signer and the message. *)
Definition sign (k : PrivateKey) (msg : Uint8Array) : M World Uint8Array :=
  bind (secureRandomBytes 64) (fun nonce =>
  ret (nonce ++ frame [PublicKey_serialize (getPublicKey k); msg])).

Definition verify (pk : PublicKey) (msg signature : Uint8Array) : bool :=
  bytes_eqb (drop 64 signature) (frame [PublicKey_serialize pk; msg]).

Definition agree (k : PrivateKey) (pk : PublicKey) : Uint8Array :=
  let a := PrivateKey_serialize k in
  let b := tail (PublicKey_serialize pk) in
  if bytes_leb a b then frame [a; b] else frame [b; a].

(* ------------------------------------------------------------------- *)
(** ** Key encapsulation                                                *)
(* ------------------------------------------------------------------- *)

Record KEMPublicKey := mkKEMPublicKey { KEMPublicKey_serialize : Uint8Array }.
Record KEMSecretKey := mkKEMSecretKey { KEMSecretKey_serialize : Uint8Array }.
Record KEMKeyPair := mkKEMKeyPair {
  KEMKeyPair_getPublicKey : KEMPublicKey;
  KEMKeyPair_getSecretKey : KEMSecretKey;
}.

(** A key pair is a seed drawn from the secure generator: the secret
    key is the seed and the public key names it.  The number of bytes
    read and the lengths of the serialized keys are those of this model,
    not of Kyber-1024. *)
Definition KEMKeyPair_generate : M World KEMKeyPair :=
  bind (secureRandomBytes 32) (fun seed =>
  ret (mkKEMKeyPair (mkKEMPublicKey (x08 :: seed)) (mkKEMSecretKey seed))).

(** Returns the shared secret and the ciphertext. *)
Definition encapsulate (pk : KEMPublicKey) : M World (Uint8Array * Uint8Array) :=
  bind (secureRandomBytes 32) (fun r =>
  let seed := tail (KEMPublicKey_serialize pk) in
  ret (frame [bytes_of_string "kem"; seed; r], frame [seed; r])).

Definition decapsulate (sk : KEMSecretKey) (ct : Uint8Array) : Result Uint8Array :=
  match unframe ct with
  | Some [seed; r] =>
      if bytes_eqb seed (KEMSecretKey_serialize sk)
      then Ok (frame [bytes_of_string "kem"; seed; r])
      else Ok (frame [bytes_of_string "rejected"; KEMSecretKey_serialize sk; seed; r])
  | _ => Throw (mkError "invalid KEM ciphertext")
  end.

(* ------------------------------------------------------------------- *)
(** ** Addresses, enumerations, pre-key records and bundles             *)
(* ------------------------------------------------------------------- *)

Record ProtocolAddress := ProtocolAddress_new {
  ProtocolAddress_name : string;
  ProtocolAddress_deviceId : N;
}.

Inductive Direction := Sending | Receiving.

Inductive IdentityChange := NewOrUnchanged | ReplacedExisting.

Inductive CiphertextMessageType := Whisper | PreKey | SenderKey | Plaintext.

Definition CiphertextMessageType_eqb (a b : CiphertextMessageType) : bool :=
  match a, b with
  | Whisper, Whisper | PreKey, PreKey
  | SenderKey, SenderKey | Plaintext, Plaintext => true
  | _, _ => false
  end.

Record PreKeyRecord := PreKeyRecord_new {
  PreKeyRecord_id : N;
  PreKeyRecord_publicKey : PublicKey;
  PreKeyRecord_privateKey : PrivateKey;
}.

Definition PreKeyRecord_serialize (r : PreKeyRecord) : Uint8Array :=
  frame [encodeN (PreKeyRecord_id r);
         PublicKey_serialize (PreKeyRecord_publicKey r);
         PrivateKey_serialize (PreKeyRecord_privateKey r)].

Definition PreKeyRecord_deserialize (bs : Uint8Array) : Result PreKeyRecord :=
  match unframe bs with
  | Some [i; pk; sk] =>
      Ok (PreKeyRecord_new (decodeN i) (mkPublicKey pk) (mkPrivateKey sk))
  | _ => Throw (mkError "invalid pre-key record")
  end.

Record SignedPreKeyRecord := SignedPreKeyRecord_new {
  SignedPreKeyRecord_id : N;
  SignedPreKeyRecord_timestamp : N;
  SignedPreKeyRecord_publicKey : PublicKey;
  SignedPreKeyRecord_privateKey : PrivateKey;
  SignedPreKeyRecord_signature : Uint8Array;
}.

Definition SignedPreKeyRecord_serialize (r : SignedPreKeyRecord) : Uint8Array :=
  frame [encodeN (SignedPreKeyRecord_id r);
         encodeN (SignedPreKeyRecord_timestamp r);
         PublicKey_serialize (SignedPreKeyRecord_publicKey r);
         PrivateKey_serialize (SignedPreKeyRecord_privateKey r);
         SignedPreKeyRecord_signature r].

Definition SignedPreKeyRecord_deserialize (bs : Uint8Array) : Result SignedPreKeyRecord :=
  match unframe bs with
  | Some [i; t; pk; sk; sg] =>
      Ok (SignedPreKeyRecord_new (decodeN i) (decodeN t)
            (mkPublicKey pk) (mkPrivateKey sk) sg)
  | _ => Throw (mkError "invalid signed pre-key record")
  end.

Record KyberPreKeyRecord := KyberPreKeyRecord_new {
  KyberPreKeyRecord_id : N;
  KyberPreKeyRecord_timestamp : N;
  KyberPreKeyRecord_keyPair : KEMKeyPair;
  KyberPreKeyRecord_signature : Uint8Array;
}.

Definition KyberPreKeyRecord_serialize (r : KyberPreKeyRecord) : Uint8Array :=
  frame [encodeN (KyberPreKeyRecord_id r);
         encodeN (KyberPreKeyRecord_timestamp r);
         KEMPublicKey_serialize (KEMKeyPair_getPublicKey (KyberPreKeyRecord_keyPair r));
         KEMSecretKey_serialize (KEMKeyPair_getSecretKey (KyberPreKeyRecord_keyPair r));
         KyberPreKeyRecord_signature r].

Definition KyberPreKeyRecord_deserialize (bs : Uint8Array) : Result KyberPreKeyRecord :=
  match unframe bs with
  | Some [i; t; pk; sk; sg] =>
      Ok (KyberPreKeyRecord_new (decodeN i) (decodeN t)
            (mkKEMKeyPair (mkKEMPublicKey pk) (mkKEMSecretKey sk)) sg)
  | _ => Throw (mkError "invalid Kyber pre-key record")
  end.

Record PreKeyBundle := PreKeyBundle_new {
  PreKeyBundle_registrationId : N;
  PreKeyBundle_deviceId : N;
  PreKeyBundle_preKeyId : N;
  PreKeyBundle_preKeyPublic : PublicKey;
  PreKeyBundle_signedPreKeyId : N;
  PreKeyBundle_signedPreKeyPublic : PublicKey;
  PreKeyBundle_signedPreKeySignature : Uint8Array;
  PreKeyBundle_identityKey : PublicKey;
  PreKeyBundle_kyberPreKeyId : N;
  PreKeyBundle_kyberPreKeyPublic : KEMPublicKey;
  PreKeyBundle_kyberPreKeySignature : Uint8Array;
}.

(* ------------------------------------------------------------------- *)
(** ** Session records                                                  *)
(* ------------------------------------------------------------------- *)

(** The pre-key material an initiating session keeps attaching to its
    messages until the peer has answered. *)
Record PendingPreKey := mkPendingPreKey {
  pendingPreKeyId : N;
  pendingSignedPreKeyId : N;
  pendingKyberPreKeyId : N;
  pendingKyberCiphertext : Uint8Array;
}.

Record SessionState := mkSessionState {
  rootKey : Uint8Array;
  localIdentityKey : PublicKey;
  remoteIdentityKey : PublicKey;
  aliceBaseKey : PublicKey;
  sendCounter : N;
  receivedCounters : list N;
  pendingPreKey : option PendingPreKey;
}.

Record SessionRecord := mkSessionRecord {
  currentSession : option SessionState;
  previousSessions : list SessionState;
}.

Definition SessionRecord_empty : SessionRecord := mkSessionRecord None [].

Definition PendingPreKey_bytes (p : option PendingPreKey) : Uint8Array :=
  match p with
  | None => []
  | Some p =>
      frame [encodeN (pendingPreKeyId p); encodeN (pendingSignedPreKeyId p);
             encodeN (pendingKyberPreKeyId p); pendingKyberCiphertext p]
  end.

Definition SessionState_bytes (st : SessionState) : Uint8Array :=
  frame [rootKey st;
         PublicKey_serialize (localIdentityKey st);
         PublicKey_serialize (remoteIdentityKey st);
         PublicKey_serialize (aliceBaseKey st);
         encodeN (sendCounter st);
         frame (map encodeN (receivedCounters st));
         PendingPreKey_bytes (pendingPreKey st)].

Definition SessionRecord_serialize (r : SessionRecord) : Uint8Array :=
  frame [match currentSession r with
         | None => []
         | Some st => SessionState_bytes st
         end;
         frame (map SessionState_bytes (previousSessions r))].

Definition PendingPreKey_parse (bs : Uint8Array) : option (option PendingPreKey) :=
  match bs with
  | [] => Some None
  | _ :: _ =>
      match unframe bs with
      | Some [a; b; c; ct] =>
          Some (Some (mkPendingPreKey (decodeN a) (decodeN b) (decodeN c) ct))
      | _ => None
      end
  end.

Definition SessionState_parse (bs : Uint8Array) : option SessionState :=
  match unframe bs with
  | Some [root; loc; rem; base; sc; recv; pend] =>
      match unframe recv, PendingPreKey_parse pend with
      | Some counters, Some p =>
          Some (mkSessionState root (mkPublicKey loc) (mkPublicKey rem)
                  (mkPublicKey base) (decodeN sc) (map decodeN counters) p)
      | _, _ => None
      end
  | _ => None
  end.

Fixpoint SessionState_parse_all (l : list Uint8Array) : option (list SessionState) :=
  match l with
  | [] => Some []
  | bs :: rest =>
      match SessionState_parse bs, SessionState_parse_all rest with
      | Some st, Some sts => Some (st :: sts)
      | _, _ => None
      end
  end.

Definition SessionRecord_deserialize (bs : Uint8Array) : Result SessionRecord :=
  let bad := Throw (mkError "invalid session record") in
  match unframe bs with
  | Some [cur; prevs] =>
      match unframe prevs with
      | Some l =>
          match SessionState_parse_all l with
          | Some previous =>
              match cur with
              | [] => Ok (mkSessionRecord None previous)
              | _ :: _ =>
                  match SessionState_parse cur with
                  | Some st => Ok (mkSessionRecord (Some st) previous)
                  | None => bad
                  end
              end
          | None => bad
          end
      | None => bad
      end
  | _ => bad
  end.

(** Make [st] the current state and archive the former one. *)
Definition promoteState (r : SessionRecord) (st : SessionState) : SessionRecord :=
  mkSessionRecord (Some st)
    (match currentSession r with
     | Some old => old :: previousSessions r
     | None => previousSessions r
     end).

Definition hasBaseKey (baseKey : PublicKey) (st : SessionState) : bool :=
  bytes_eqb (PublicKey_serialize (aliceBaseKey st)) (PublicKey_serialize baseKey).

(** Split the first element satisfying [p] off a list. *)
Fixpoint extractFirst {A} (p : A -> bool) (l : list A) : option (A * list A) :=
  match l with
  | [] => None
  | x :: rest =>
      if p x then Some (x, rest)
      else match extractFirst p rest with
           | Some (y, rest') => Some (y, x :: rest')
           | None => None
           end
  end.

(** If some state of the record was set up from [baseKey], make it
    current. *)
Definition promoteMatchingSession (baseKey : PublicKey) (r : SessionRecord)
  : option SessionRecord :=
  match currentSession r with
  | Some st =>
      if hasBaseKey baseKey st then Some r
      else match extractFirst (hasBaseKey baseKey) (previousSessions r) with
           | Some (old, others) => Some (mkSessionRecord (Some old) (st :: others))
           | None => None
           end
  | None =>
      match extractFirst (hasBaseKey baseKey) (previousSessions r) with
      | Some (old, others) => Some (mkSessionRecord (Some old) others)
      | None => None
      end
  end.

(* ------------------------------------------------------------------- *)
(** ** Messages                                                         *)
(* ------------------------------------------------------------------- *)

Record CiphertextMessage := mkCiphertextMessage {
  CiphertextMessage_type : CiphertextMessageType;
  CiphertextMessage_serialize : Uint8Array;
}.

Record SignalMessage := mkSignalMessage {
  SignalMessage_counter : N;
  SignalMessage_key : Uint8Array;
  SignalMessage_body : Uint8Array;
}.

Definition SignalMessage_serialize (m : SignalMessage) : Uint8Array :=
  frame [encodeN (SignalMessage_counter m); SignalMessage_key m; SignalMessage_body m].

Definition SignalMessage_deserialize (bs : Uint8Array) : Result SignalMessage :=
  match unframe bs with
  | Some [n; k; body] => Ok (mkSignalMessage (decodeN n) k body)
  | _ => Throw (mkError "invalid message")
  end.

Record PreKeySignalMessage := mkPreKeySignalMessage {
  PreKeySignalMessage_preKeyId : N;
  PreKeySignalMessage_signedPreKeyId : N;
  PreKeySignalMessage_kyberPreKeyId : N;
  PreKeySignalMessage_baseKey : PublicKey;
  PreKeySignalMessage_identityKey : PublicKey;
  PreKeySignalMessage_kyberCiphertext : Uint8Array;
  PreKeySignalMessage_message : SignalMessage;
}.

Definition PreKeySignalMessage_serialize (m : PreKeySignalMessage) : Uint8Array :=
  frame [encodeN (PreKeySignalMessage_preKeyId m);
         encodeN (PreKeySignalMessage_signedPreKeyId m);
         encodeN (PreKeySignalMessage_kyberPreKeyId m);
         PublicKey_serialize (PreKeySignalMessage_baseKey m);
         PublicKey_serialize (PreKeySignalMessage_identityKey m);
         PreKeySignalMessage_kyberCiphertext m;
         SignalMessage_serialize (PreKeySignalMessage_message m)].

Definition PreKeySignalMessage_deserialize (bs : Uint8Array) : Result PreKeySignalMessage :=
  match unframe bs with
  | Some [a; b; c; base; idk; ct; inner] =>
      match PublicKey_deserialize base, PublicKey_deserialize idk,
            SignalMessage_deserialize inner with
      | Ok baseKey, Ok identityKey, Ok m =>
          Ok (mkPreKeySignalMessage (decodeN a) (decodeN b) (decodeN c)
                baseKey identityKey ct m)
      | Throw e, _, _ | _, Throw e, _ | _, _, Throw e => Throw e
      end
  | _ => Throw (mkError "invalid pre-key message")
  end.

(** Key of the [n]-th message sent by the party whose identity is
    [sender] in the session rooted at [root]. *)
Definition messageKey (root : Uint8Array) (sender : PublicKey) (n : N) : Uint8Array :=
  frame [bytes_of_string "message"; root; PublicKey_serialize sender; encodeN n].

Definition decryptWithState (st : SessionState) (m : SignalMessage)
  : Result (Uint8Array * SessionState) :=
  if existsb (N.eqb (SignalMessage_counter m)) (receivedCounters st)
  then Throw (mkError "message with old counter")
  else if bytes_eqb (SignalMessage_key m)
            (messageKey (rootKey st) (remoteIdentityKey st) (SignalMessage_counter m))
  then Ok (SignalMessage_body m,
           mkSessionState (rootKey st) (localIdentityKey st) (remoteIdentityKey st)
             (aliceBaseKey st) (sendCounter st)
             (SignalMessage_counter m :: receivedCounters st) None)
  else Throw (mkError "MAC verification failed").

(** Try the archived states in order; returns the plaintext, the advanced
    state and the states that stay archived. *)
Fixpoint decryptWithPrevious (seen rest : list SessionState) (m : SignalMessage)
  : option (Uint8Array * SessionState * list SessionState) :=
  match rest with
  | [] => None
  | st :: rest' =>
      match decryptWithState st m with
      | Ok (pt, st') => Some (pt, st', rev_append seen rest')
      | Throw _ => decryptWithPrevious (st :: seen) rest' m
      end
  end.

Definition decryptWithRecord (r : SessionRecord) (m : SignalMessage)
  : Result (Uint8Array * SessionRecord) :=
  let fromPrevious (err : JsError) (archived : list SessionState) :=
    match decryptWithPrevious [] (previousSessions r) m with
    | Some (pt, st', others) => Ok (pt, mkSessionRecord (Some st') (archived ++ others))
    | None => Throw err
    end in
  match currentSession r with
  | Some st =>
      match decryptWithState st m with
      | Ok (pt, st') => Ok (pt, mkSessionRecord (Some st') (previousSessions r))
      | Throw e => fromPrevious e [st]
      end
  | None => fromPrevious (mkError "no session available to decrypt") []
  end.

(* ------------------------------------------------------------------- *)
(** ** Store interfaces (the abstract base classes)                     *)
(* ------------------------------------------------------------------- *)

(** A store object living inside a program state [G] is given by its
    methods on [G]. *)
Record SessionStore (G : Type) := mkSessionStore {
  SessionStore_saveSession : ProtocolAddress -> SessionRecord -> M G unit;
  SessionStore_getSession : ProtocolAddress -> M G (option SessionRecord);
}.
Arguments SessionStore_saveSession {G} _ _ _.
Arguments SessionStore_getSession {G} _ _.

Record IdentityKeyStore (G : Type) := mkIdentityKeyStore {
  IdentityKeyStore_getIdentityKey : M G PrivateKey;
  IdentityKeyStore_getLocalRegistrationId : M G N;
  IdentityKeyStore_saveIdentity : ProtocolAddress -> PublicKey -> M G IdentityChange;
  IdentityKeyStore_isTrustedIdentity :
    ProtocolAddress -> PublicKey -> Direction -> M G bool;
  IdentityKeyStore_getIdentity : ProtocolAddress -> M G (option PublicKey);
}.
Arguments IdentityKeyStore_getIdentityKey {G} _.
Arguments IdentityKeyStore_getLocalRegistrationId {G} _.
Arguments IdentityKeyStore_saveIdentity {G} _ _ _.
Arguments IdentityKeyStore_isTrustedIdentity {G} _ _ _ _.
Arguments IdentityKeyStore_getIdentity {G} _ _.

Record PreKeyStore (G : Type) := mkPreKeyStore {
  PreKeyStore_savePreKey : N -> PreKeyRecord -> M G unit;
  PreKeyStore_getPreKey : N -> M G PreKeyRecord;
  PreKeyStore_removePreKey : N -> M G unit;
}.
Arguments PreKeyStore_savePreKey {G} _ _ _.
Arguments PreKeyStore_getPreKey {G} _ _.
Arguments PreKeyStore_removePreKey {G} _ _.

Record SignedPreKeyStore (G : Type) := mkSignedPreKeyStore {
  SignedPreKeyStore_saveSignedPreKey : N -> SignedPreKeyRecord -> M G unit;
  SignedPreKeyStore_getSignedPreKey : N -> M G SignedPreKeyRecord;
}.
Arguments SignedPreKeyStore_saveSignedPreKey {G} _ _ _.
Arguments SignedPreKeyStore_getSignedPreKey {G} _ _.

Record KyberPreKeyStore (G : Type) := mkKyberPreKeyStore {
  KyberPreKeyStore_saveKyberPreKey : N -> KyberPreKeyRecord -> M G unit;
  KyberPreKeyStore_getKyberPreKey : N -> M G KyberPreKeyRecord;
  KyberPreKeyStore_markKyberPreKeyUsed : N -> N -> PublicKey -> M G unit;
}.
Arguments KyberPreKeyStore_saveKyberPreKey {G} _ _ _.
Arguments KyberPreKeyStore_getKyberPreKey {G} _ _.
Arguments KyberPreKeyStore_markKyberPreKeyUsed {G} _ _ _ _.

(* ------------------------------------------------------------------- *)
(** ** Protocol operations                                              *)
(* ------------------------------------------------------------------- *)

Section Protocol.
Context {G : Type}.

(** Access of the engine to the secure generator from the state [G]. *)
Variable entropy : forall A, M World A -> M G A.

(** Initiator side of the key agreement. *)
Definition processPreKeyBundle (bundle : PreKeyBundle) (address : ProtocolAddress)
    (sessionStore : SessionStore G) (identityStore : IdentityKeyStore G) : M G unit :=
  let theirIdentity := PreKeyBundle_identityKey bundle in
  let theirSigned := PreKeyBundle_signedPreKeyPublic bundle in
  let theirKyber := PreKeyBundle_kyberPreKeyPublic bundle in
  trusted <- IdentityKeyStore_isTrustedIdentity identityStore address theirIdentity
               Sending ;;
  if negb trusted then throw (mkError "untrusted identity")
  else if negb (verify theirIdentity (PublicKey_serialize theirSigned)
                  (PreKeyBundle_signedPreKeySignature bundle))
  then throw (mkError "invalid signed pre-key signature")
  else if negb (verify theirIdentity (KEMPublicKey_serialize theirKyber)
                  (PreKeyBundle_kyberPreKeySignature bundle))
  then throw (mkError "invalid Kyber pre-key signature")
  else
    existing <- SessionStore_getSession sessionStore address ;;
    let record := match existing with Some r => r | None => SessionRecord_empty end in
    ourIdentity <- IdentityKeyStore_getIdentityKey identityStore ;;
    baseKey <- entropy _ PrivateKey_generate ;;
    kem <- entropy _ (encapsulate theirKyber) ;;
    let root :=
      frame [agree ourIdentity theirSigned;
             agree baseKey theirIdentity;
             agree baseKey theirSigned;
             agree baseKey (PreKeyBundle_preKeyPublic bundle);
             fst kem] in
    let st :=
      mkSessionState root (getPublicKey ourIdentity) theirIdentity
        (getPublicKey baseKey) 0 []
        (Some (mkPendingPreKey (PreKeyBundle_preKeyId bundle)
                 (PreKeyBundle_signedPreKeyId bundle)
                 (PreKeyBundle_kyberPreKeyId bundle) (snd kem))) in
    IdentityKeyStore_saveIdentity identityStore address theirIdentity ;;;
    SessionStore_saveSession sessionStore address (promoteState record st).

Definition signalEncrypt (message : Uint8Array) (address : ProtocolAddress)
    (sessionStore : SessionStore G) (identityStore : IdentityKeyStore G)
  : M G CiphertextMessage :=
  existing <- SessionStore_getSession sessionStore address ;;
  match existing with
  | None => throw (mkError "session not found")
  | Some record =>
      match currentSession record with
      | None => throw (mkError "session not found")
      | Some st =>
          let inner :=
            mkSignalMessage (sendCounter st)
              (messageKey (rootKey st) (localIdentityKey st) (sendCounter st))
              message in
          let out :=
            match pendingPreKey st with
            | Some p =>
                mkCiphertextMessage PreKey
                  (PreKeySignalMessage_serialize
                     (mkPreKeySignalMessage (pendingPreKeyId p)
                        (pendingSignedPreKeyId p) (pendingKyberPreKeyId p)
                        (aliceBaseKey st) (localIdentityKey st)
                        (pendingKyberCiphertext p) inner))
            | None => mkCiphertextMessage Whisper (SignalMessage_serialize inner)
            end in
          let st' :=
            mkSessionState (rootKey st) (localIdentityKey st) (remoteIdentityKey st)
              (aliceBaseKey st) (N.succ (sendCounter st)) (receivedCounters st)
              (pendingPreKey st) in
          trusted <- IdentityKeyStore_isTrustedIdentity identityStore address
                       (remoteIdentityKey st) Sending ;;
          if negb trusted then throw (mkError "untrusted identity")
          else
            IdentityKeyStore_saveIdentity identityStore address
              (remoteIdentityKey st) ;;;
            SessionStore_saveSession sessionStore address
              (mkSessionRecord (Some st') (previousSessions record)) ;;;
            ret out
      end
  end.

Definition signalDecrypt (message : SignalMessage) (address : ProtocolAddress)
    (sessionStore : SessionStore G) (identityStore : IdentityKeyStore G)
  : M G Uint8Array :=
  existing <- SessionStore_getSession sessionStore address ;;
  match existing with
  | None => throw (mkError "session not found")
  | Some record =>
      match decryptWithRecord record message with
      | Throw e => throw e
      | Ok (plaintext, record') =>
          let theirIdentity :=
            match currentSession record' with
            | Some st => remoteIdentityKey st
            | None => mkPublicKey []
            end in
          trusted <- IdentityKeyStore_isTrustedIdentity identityStore address
                       theirIdentity Receiving ;;
          if negb trusted then throw (mkError "untrusted identity")
          else
            IdentityKeyStore_saveIdentity identityStore address theirIdentity ;;;
            SessionStore_saveSession sessionStore address record' ;;;
            ret plaintext
      end
  end.

(** Responder side of the key agreement for a handshake message.  Returns
    the record with the new state current, and the one-time pre-key that
    was used.  A record that already holds a state for the message's base
    key is only re-ordered and no pre-key is used. *)
Definition processPreKey (message : PreKeySignalMessage) (record : SessionRecord)
    (identityStore : IdentityKeyStore G) (preKeyStore : PreKeyStore G)
    (signedPreKeyStore : SignedPreKeyStore G) (kyberPreKeyStore : KyberPreKeyStore G)
  : M G (SessionRecord * option N) :=
  let theirIdentity := PreKeySignalMessage_identityKey message in
  let theirBase := PreKeySignalMessage_baseKey message in
  match promoteMatchingSession theirBase record with
  | Some record' => ret (record', None)
  | None =>
      signed <- SignedPreKeyStore_getSignedPreKey signedPreKeyStore
                  (PreKeySignalMessage_signedPreKeyId message) ;;
      kyber <- KyberPreKeyStore_getKyberPreKey kyberPreKeyStore
                 (PreKeySignalMessage_kyberPreKeyId message) ;;
      oneTime <- PreKeyStore_getPreKey preKeyStore
                   (PreKeySignalMessage_preKeyId message) ;;
      ourIdentity <- IdentityKeyStore_getIdentityKey identityStore ;;
      secret <- lift (decapsulate
                        (KEMKeyPair_getSecretKey (KyberPreKeyRecord_keyPair kyber))
                        (PreKeySignalMessage_kyberCiphertext message)) ;;
      let root :=
        frame [agree (SignedPreKeyRecord_privateKey signed) theirIdentity;
               agree ourIdentity theirBase;
               agree (SignedPreKeyRecord_privateKey signed) theirBase;
               agree (PreKeyRecord_privateKey oneTime) theirBase;
               secret] in
      let st :=
        mkSessionState root (getPublicKey ourIdentity) theirIdentity theirBase
          0 [] None in
      ret (promoteState record st, Some (PreKeySignalMessage_preKeyId message))
  end.

Definition signalDecryptPreKey (message : PreKeySignalMessage)
    (address : ProtocolAddress)
    (sessionStore : SessionStore G) (identityStore : IdentityKeyStore G)
    (preKeyStore : PreKeyStore G) (signedPreKeyStore : SignedPreKeyStore G)
    (kyberPreKeyStore : KyberPreKeyStore G)
  : M G Uint8Array :=
  let theirIdentity := PreKeySignalMessage_identityKey message in
  existing <- SessionStore_getSession sessionStore address ;;
  let record := match existing with Some r => r | None => SessionRecord_empty end in
  trusted <- IdentityKeyStore_isTrustedIdentity identityStore address theirIdentity
               Receiving ;;
  if negb trusted then throw (mkError "untrusted identity")
  else
    processed <- processPreKey message record identityStore preKeyStore
                   signedPreKeyStore kyberPreKeyStore ;;
    match decryptWithRecord (fst processed) (PreKeySignalMessage_message message) with
    | Throw e => throw e
    | Ok (plaintext, record') =>
        IdentityKeyStore_saveIdentity identityStore address theirIdentity ;;;
        SessionStore_saveSession sessionStore address record' ;;;
        match snd processed with
        | Some preKeyId =>
            KyberPreKeyStore_markKyberPreKeyUsed kyberPreKeyStore
              (PreKeySignalMessage_kyberPreKeyId message)
              (PreKeySignalMessage_signedPreKeyId message)
              (PreKeySignalMessage_baseKey message) ;;;
            PreKeyStore_removePreKey preKeyStore preKeyId ;;;
            ret plaintext
        | None => ret plaintext
        end
    end.

End Protocol.

End Libsignal.

(* ===================================================================== *)
(** * src/lib/signal/store.ts                                             *)
(* ===================================================================== *)

Module Store.
Import Js Libsignal.

(** Index of an address in the session and identity maps:
    [`${name.name()}::${name.deviceId()}`]. *)
Definition addressIndex (name : ProtocolAddress) : string :=
  ProtocolAddress_name name ++ "::" ++ pretty (ProtocolAddress_deviceId name).

(** [bytes.every((byte, i) => byte === other[i])]. *)
Fixpoint everyByteEquals (bytes other : Uint8Array) (i : nat) : bool :=
  match bytes with
  | [] => true
  | byte :: rest =>
      match other !! i with
      | Some b => if Byte.eqb byte b then everyByteEquals rest other (S i) else false
      | None => false
      end
  end.

(* ------------------------------------------------------------------- *)
(** ** InMemorySessionStore                                             *)
(* ------------------------------------------------------------------- *)

Module InMemorySessionStore.

Record t := mk { state : gmap string Uint8Array }.

Definition new : t := mk ∅.

Definition saveSession (name : ProtocolAddress) (record : SessionRecord) : M t unit :=
  let idx := addressIndex name in
  modify (fun this => mk (<[idx := SessionRecord_serialize record]> (state this))).

Definition getSession (name : ProtocolAddress) : M t (option SessionRecord) :=
  let idx := addressIndex name in
  this <- get ;;
  match state this !! idx with
  | Some serialized =>
      record <- lift (SessionRecord_deserialize serialized) ;;
      ret (Some record)
  | None => ret None
  end.

Definition getExistingSessions (addresses : list ProtocolAddress)
  : M t (list SessionRecord) :=
  this <- get ;;
  lift (map_result
          (fun address =>
             let idx := addressIndex address in
             match state this !! idx with
             | None => Throw (mkError ("no session for " ++ idx))
             | Some serialized => SessionRecord_deserialize serialized
             end)
          addresses).

Definition serialize (this : t) : gmap string string :=
  snd (forEach (state this)
         (fun value key => modify (fun result => <[key := toBase64 value]> result))
         (∅ : gmap string string)).

Definition deserialize (data : gmap string string) : M t unit :=
  modify (fun _ => mk ∅) ;;;
  forEach data
    (fun value key =>
       modify (fun this => mk (<[key := fromBase64 value]> (state this)))).

Definition methods : SessionStore t := mkSessionStore t saveSession getSession.

End InMemorySessionStore.

(* ------------------------------------------------------------------- *)
(** ** InMemoryIdentityKeyStore                                         *)
(* ------------------------------------------------------------------- *)

Module InMemoryIdentityKeyStore.

Record t := mk {
  idKeys : gmap string PublicKey;
  localRegistrationId : N;
  identityKey : PrivateKey;
}.

Record Serialized := mkSerialized {
  s_identityKey : string;
  s_registrationId : N;
  s_identityKeys : gmap string string;
}.

Definition new (identityKey : PrivateKey) (registrationId : N) : t :=
  mk ∅ registrationId identityKey.

Definition set_idKeys (m : gmap string PublicKey) (this : t) : t :=
  mk m (localRegistrationId this) (identityKey this).

Definition getIdentityKey : M t PrivateKey :=
  this <- get ;; ret (identityKey this).

Definition getLocalRegistrationId : M t N :=
  this <- get ;; ret (localRegistrationId this).

Definition isTrustedIdentity (_name : ProtocolAddress) (_key : PublicKey)
    (_direction : Direction) : M t bool :=
  ret true.

Definition saveIdentity (name : ProtocolAddress) (key : PublicKey)
  : M t IdentityChange :=
  let idx := addressIndex name in
  this <- get ;;
  let currentKey := idKeys this !! idx in
  modify (fun this => set_idKeys (<[idx := key]> (idKeys this)) this) ;;;
  let changed :=
    match currentKey with
    | Some currentKey =>
        let currentBytes := PublicKey_serialize currentKey in
        let newBytes := PublicKey_serialize key in
        negb (everyByteEquals currentBytes newBytes 0)
    | None => true
    end in
  ret (if changed then ReplacedExisting else NewOrUnchanged).

Definition getIdentity (name : ProtocolAddress) : M t (option PublicKey) :=
  let idx := addressIndex name in
  this <- get ;; ret (idKeys this !! idx).

Definition serialize (this : t) : Serialized :=
  let identityKeys :=
    snd (forEach (idKeys this)
           (fun value key =>
              modify (fun o => <[key := toBase64 (PublicKey_serialize value)]> o))
           (∅ : gmap string string)) in
  mkSerialized (toBase64 (PrivateKey_serialize (identityKey this)))
    (localRegistrationId this) identityKeys.

(** The instance method: restores the map of peer keys only. *)
Definition deserialize (data : Serialized) : M t unit :=
  modify (set_idKeys ∅) ;;;
  forEach (s_identityKeys data)
    (fun value key =>
       pk <- lift (PublicKey_deserialize (fromBase64 value)) ;;
       modify (fun this => set_idKeys (<[key := pk]> (idKeys this)) this)).

(** The static factory: builds a store from the serialized data alone. *)
Definition static_deserialize (data : Serialized) : Result t :=
  match PrivateKey_deserialize (fromBase64 (s_identityKey data)) with
  | Throw e => Throw e
  | Ok identityKey =>
      let store := new identityKey (s_registrationId data) in
      match forEach (s_identityKeys data)
              (fun value key =>
                 pk <- lift (PublicKey_deserialize (fromBase64 value)) ;;
                 modify (fun this => set_idKeys (<[key := pk]> (idKeys this)) this))
              store with
      | (Ok _, store') => Ok store'
      | (Throw e, _) => Throw e
      end
  end.

Definition methods : IdentityKeyStore t :=
  mkIdentityKeyStore t getIdentityKey getLocalRegistrationId saveIdentity
    isTrustedIdentity getIdentity.

End InMemoryIdentityKeyStore.

(* ------------------------------------------------------------------- *)
(** ** InMemoryPreKeyStore                                              *)
(* ------------------------------------------------------------------- *)

(** An object indexed by numbers ([Record<number, string>]) is a map on
    [N]: the property name of an id is its numeral and [Number(key)]
    reads it back. *)

Module InMemoryPreKeyStore.

Record t := mk { state : gmap N Uint8Array }.

Definition new : t := mk ∅.

Definition savePreKey (id : N) (record : PreKeyRecord) : M t unit :=
  modify (fun this => mk (<[id := PreKeyRecord_serialize record]> (state this))).

Definition getPreKey (id : N) : M t PreKeyRecord :=
  this <- get ;;
  match state this !! id with
  | None => throw (mkError ("pre-key " ++ pretty id ++ " not found"))
  | Some record => lift (PreKeyRecord_deserialize record)
  end.

Definition removePreKey (id : N) : M t unit :=
  modify (fun this => mk (delete id (state this))).

Definition serialize (this : t) : gmap N string :=
  snd (forEach (state this)
         (fun value key => modify (fun result => <[key := toBase64 value]> result))
         (∅ : gmap N string)).

Definition deserialize (data : gmap N string) : M t unit :=
  modify (fun _ => mk ∅) ;;;
  forEach data
    (fun value key =>
       modify (fun this => mk (<[key := fromBase64 value]> (state this)))).

Definition methods : PreKeyStore t := mkPreKeyStore t savePreKey getPreKey removePreKey.

End InMemoryPreKeyStore.

(* ------------------------------------------------------------------- *)
(** ** InMemorySignedPreKeyStore                                        *)
(* ------------------------------------------------------------------- *)

Module InMemorySignedPreKeyStore.

Record t := mk { state : gmap N Uint8Array }.

Definition new : t := mk ∅.

Definition saveSignedPreKey (id : N) (record : SignedPreKeyRecord) : M t unit :=
  modify (fun this => mk (<[id := SignedPreKeyRecord_serialize record]> (state this))).

Definition getSignedPreKey (id : N) : M t SignedPreKeyRecord :=
  this <- get ;;
  match state this !! id with
  | None => throw (mkError ("signed pre-key " ++ pretty id ++ " not found"))
  | Some record => lift (SignedPreKeyRecord_deserialize record)
  end.

Definition serialize (this : t) : gmap N string :=
  snd (forEach (state this)
         (fun value key => modify (fun result => <[key := toBase64 value]> result))
         (∅ : gmap N string)).

Definition deserialize (data : gmap N string) : M t unit :=
  modify (fun _ => mk ∅) ;;;
  forEach data
    (fun value key =>
       modify (fun this => mk (<[key := fromBase64 value]> (state this)))).

Definition methods : SignedPreKeyStore t :=
  mkSignedPreKeyStore t saveSignedPreKey getSignedPreKey.

End InMemorySignedPreKeyStore.

(* ------------------------------------------------------------------- *)
(** ** InMemoryKyberPreKeyStore                                         *)
(* ------------------------------------------------------------------- *)

Module InMemoryKyberPreKeyStore.

Record t := mk { state : gmap N Uint8Array }.

Definition new : t := mk ∅.

Definition saveKyberPreKey (id : N) (record : KyberPreKeyRecord) : M t unit :=
  modify (fun this => mk (<[id := KyberPreKeyRecord_serialize record]> (state this))).

Definition getKyberPreKey (id : N) : M t KyberPreKeyRecord :=
  this <- get ;;
  match state this !! id with
  | None => throw (mkError ("kyber pre-key " ++ pretty id ++ " not found"))
  | Some record => lift (KyberPreKeyRecord_deserialize record)
  end.

(** No-op for the in-memory store. *)
Definition markKyberPreKeyUsed (_kyberPreKeyId _signedPreKeyId : N)
    (_baseKey : PublicKey) : M t unit :=
  ret tt.

Definition serialize (this : t) : gmap N string :=
  snd (forEach (state this)
         (fun value key => modify (fun result => <[key := toBase64 value]> result))
         (∅ : gmap N string)).

Definition deserialize (data : gmap N string) : M t unit :=
  modify (fun _ => mk ∅) ;;;
  forEach data
    (fun value key =>
       modify (fun this => mk (<[key := fromBase64 value]> (state this)))).

Definition methods : KyberPreKeyStore t :=
  mkKyberPreKeyStore t saveKyberPreKey getKyberPreKey markKyberPreKeyUsed.

End InMemoryKyberPreKeyStore.

(* ------------------------------------------------------------------- *)
(** ** Store collections                                                *)
(* ------------------------------------------------------------------- *)

Record SignalStores := mkSignalStores {
  session : InMemorySessionStore.t;
  identity : InMemoryIdentityKeyStore.t;
  preKey : InMemoryPreKeyStore.t;
  signedPreKey : InMemorySignedPreKeyStore.t;
  kyberPreKey : InMemoryKyberPreKeyStore.t;
}.

Record SerializedStores := mkSerializedStores {
  ser_session : gmap string string;
  ser_identity : InMemoryIdentityKeyStore.Serialized;
  ser_preKey : gmap N string;
  ser_signedPreKey : gmap N string;
  ser_kyberPreKey : gmap N string;
}.

Section Fields.
Context {G : Type} (stores : Ref G SignalStores).

(** [stores.session], [stores.identity], ... as object references. *)
Definition session_of : Ref G InMemorySessionStore.t :=
  field stores session
    (fun x s => mkSignalStores x (identity s) (preKey s) (signedPreKey s) (kyberPreKey s)).
Definition identity_of : Ref G InMemoryIdentityKeyStore.t :=
  field stores identity
    (fun x s => mkSignalStores (session s) x (preKey s) (signedPreKey s) (kyberPreKey s)).
Definition preKey_of : Ref G InMemoryPreKeyStore.t :=
  field stores preKey
    (fun x s => mkSignalStores (session s) (identity s) x (signedPreKey s) (kyberPreKey s)).
Definition signedPreKey_of : Ref G InMemorySignedPreKeyStore.t :=
  field stores signedPreKey
    (fun x s => mkSignalStores (session s) (identity s) (preKey s) x (kyberPreKey s)).
Definition kyberPreKey_of : Ref G InMemoryKyberPreKeyStore.t :=
  field stores kyberPreKey
    (fun x s => mkSignalStores (session s) (identity s) (preKey s) (signedPreKey s) x).

(** The same objects seen through the engine's interfaces. *)
Definition sessionStore : SessionStore G :=
  mkSessionStore G
    (fun a r => call session_of (InMemorySessionStore.saveSession a r))
    (fun a => call session_of (InMemorySessionStore.getSession a)).

Definition identityStore : IdentityKeyStore G :=
  mkIdentityKeyStore G
    (call identity_of InMemoryIdentityKeyStore.getIdentityKey)
    (call identity_of InMemoryIdentityKeyStore.getLocalRegistrationId)
    (fun a k => call identity_of (InMemoryIdentityKeyStore.saveIdentity a k))
    (fun a k d => call identity_of (InMemoryIdentityKeyStore.isTrustedIdentity a k d))
    (fun a => call identity_of (InMemoryIdentityKeyStore.getIdentity a)).

Definition preKeyStore : PreKeyStore G :=
  mkPreKeyStore G
    (fun i r => call preKey_of (InMemoryPreKeyStore.savePreKey i r))
    (fun i => call preKey_of (InMemoryPreKeyStore.getPreKey i))
    (fun i => call preKey_of (InMemoryPreKeyStore.removePreKey i)).

Definition signedPreKeyStore : SignedPreKeyStore G :=
  mkSignedPreKeyStore G
    (fun i r => call signedPreKey_of (InMemorySignedPreKeyStore.saveSignedPreKey i r))
    (fun i => call signedPreKey_of (InMemorySignedPreKeyStore.getSignedPreKey i)).

Definition kyberPreKeyStore : KyberPreKeyStore G :=
  mkKyberPreKeyStore G
    (fun i r => call kyberPreKey_of (InMemoryKyberPreKeyStore.saveKyberPreKey i r))
    (fun i => call kyberPreKey_of (InMemoryKyberPreKeyStore.getKyberPreKey i))
    (fun a b k => call kyberPreKey_of (InMemoryKyberPreKeyStore.markKyberPreKeyUsed a b k)).

End Fields.

End Store.

(* ===================================================================== *)
(** * src/lib/signal/types.ts                                             *)
(* ===================================================================== *)

Module Types.
Import Js Libsignal.

Record IdentityKeyPair := mkIdentityKeyPair {
  ikp_privateKey : PrivateKey;
  ikp_publicKey : PublicKey;
}.

Record PreKeyData := mkPreKeyData {
  pk_id : N;
  pk_publicKey : PublicKey;
  pk_privateKey : PrivateKey;
}.

Record SignedPreKeyData := mkSignedPreKeyData {
  spk_id : N;
  spk_timestamp : N;
  spk_publicKey : PublicKey;
  spk_privateKey : PrivateKey;
  spk_signature : Uint8Array;
}.

Record KyberPreKeyData := mkKyberPreKeyData {
  kpk_id : N;
  kpk_timestamp : N;
  kpk_publicKey : KEMPublicKey;
  kpk_secretKey : KEMSecretKey;
  kpk_signature : Uint8Array;
}.

Record IdentityBundle := mkIdentityBundle {
  registrationId : N;
  identityKeyPair : IdentityKeyPair;
  signedPreKey : SignedPreKeyData;
  preKeys : list PreKeyData;
  kyberPreKey : KyberPreKeyData;
}.

Record SerializedKeyPair := mkSerializedKeyPair {
  s_privateKey : string;
  s_publicKey : string;
}.

Record SerializedPreKey := mkSerializedPreKey {
  s_pk_id : N;
  s_pk_publicKey : string;
  s_pk_privateKey : string;
}.

Record SerializedSignedPreKey := mkSerializedSignedPreKey {
  s_spk_id : N;
  s_spk_timestamp : N;
  s_spk_publicKey : string;
  s_spk_privateKey : string;
  s_spk_signature : string;
}.

Record SerializedKyberPreKey := mkSerializedKyberPreKey {
  s_kpk_id : N;
  s_kpk_timestamp : N;
  s_kpk_publicKey : string;
  s_kpk_secretKey : string;
  s_kpk_signature : string;
}.

Record SerializedIdentityBundle := mkSerializedIdentityBundle {
  s_registrationId : N;
  s_identityKeyPair : SerializedKeyPair;
  s_signedPreKey : SerializedSignedPreKey;
  s_preKeys : list SerializedPreKey;
  s_kyberPreKey : SerializedKyberPreKey;
}.

End Types.

(* ===================================================================== *)
(** * src/lib/signal/identities.ts                                        *)
(* ===================================================================== *)

Module Identities.
Import Js Libsignal Store Types.

(** [Math.floor(Math.random() * 16380) + 1]. *)
Definition generateRegistrationId : M World N :=
  r <- Math_random ;;
  ret (Math_floor (double_mul r 16380) + 1)%N.

(** The loop [for (let i = 1; i <= 10; i++)] with [count] iterations
    left. *)
Fixpoint preKeyLoop (count : nat) (i : N) (preKeys : list PreKeyData)
  : M World (list PreKeyData) :=
  match count with
  | O => ret preKeys
  | S count' =>
      preKey <- PrivateKey_generate ;;
      preKeyLoop count' (N.succ i)
        (preKeys ++ [mkPreKeyData i (getPublicKey preKey) preKey])
  end.

Definition createIdentityBundle : M World IdentityBundle :=
  identityKeyPair <- PrivateKey_generate ;;
  registrationId <- generateRegistrationId ;;
  let signedPreKeyId := 1%N in
  signedPreKey <- PrivateKey_generate ;;
  signedPreKeySignature <-
    sign identityKeyPair (PublicKey_serialize (getPublicKey signedPreKey)) ;;
  preKeys <- preKeyLoop 10 1 [] ;;
  let kyberPreKeyId := 1%N in
  kyberKeyPair <- KEMKeyPair_generate ;;
  kyberPreKeySignature <-
    sign identityKeyPair
      (KEMPublicKey_serialize (KEMKeyPair_getPublicKey kyberKeyPair)) ;;
  signedTimestamp <- Date_now ;;
  kyberTimestamp <- Date_now ;;
  ret (mkIdentityBundle registrationId
         (mkIdentityKeyPair identityKeyPair (getPublicKey identityKeyPair))
         (mkSignedPreKeyData signedPreKeyId signedTimestamp
            (getPublicKey signedPreKey) signedPreKey signedPreKeySignature)
         preKeys
         (mkKyberPreKeyData kyberPreKeyId kyberTimestamp
            (KEMKeyPair_getPublicKey kyberKeyPair)
            (KEMKeyPair_getSecretKey kyberKeyPair)
            kyberPreKeySignature)).

Section PopulateStores.
Context {G : Type}.
Variable entropy : forall A, M World A -> M G A.

Definition populateStores (bundle : IdentityBundle) (stores : Ref G SignalStores)
  : M G unit :=
  for_of (preKeys bundle)
    (fun preKey =>
       PreKeyStore_savePreKey (preKeyStore stores) (pk_id preKey)
         (PreKeyRecord_new (pk_id preKey) (pk_publicKey preKey) (pk_privateKey preKey))) ;;;
  SignedPreKeyStore_saveSignedPreKey (signedPreKeyStore stores)
    (spk_id (signedPreKey bundle))
    (SignedPreKeyRecord_new
       (spk_id (signedPreKey bundle))
       (spk_timestamp (signedPreKey bundle))
       (spk_publicKey (signedPreKey bundle))
       (spk_privateKey (signedPreKey bundle))
       (spk_signature (signedPreKey bundle))) ;;;
  kyberKeyPair <- entropy _ KEMKeyPair_generate ;;
  let kyberPreKeyRecord :=
    KyberPreKeyRecord_new
      (kpk_id (kyberPreKey bundle))
      (kpk_timestamp (kyberPreKey bundle))
      kyberKeyPair
      (kpk_signature (kyberPreKey bundle)) in
  KyberPreKeyStore_saveKyberPreKey (kyberPreKeyStore stores)
    (kpk_id (kyberPreKey bundle)) kyberPreKeyRecord.

End PopulateStores.

Definition serializeIdentityBundle (bundle : IdentityBundle) : SerializedIdentityBundle :=
  mkSerializedIdentityBundle
    (registrationId bundle)
    (mkSerializedKeyPair
       (toBase64 (PrivateKey_serialize (ikp_privateKey (identityKeyPair bundle))))
       (toBase64 (PublicKey_serialize (ikp_publicKey (identityKeyPair bundle)))))
    (mkSerializedSignedPreKey
       (spk_id (signedPreKey bundle))
       (spk_timestamp (signedPreKey bundle))
       (toBase64 (PublicKey_serialize (spk_publicKey (signedPreKey bundle))))
       (toBase64 (PrivateKey_serialize (spk_privateKey (signedPreKey bundle))))
       (toBase64 (spk_signature (signedPreKey bundle))))
    (map (fun pk =>
            mkSerializedPreKey (pk_id pk)
              (toBase64 (PublicKey_serialize (pk_publicKey pk)))
              (toBase64 (PrivateKey_serialize (pk_privateKey pk))))
       (preKeys bundle))
    (mkSerializedKyberPreKey
       (kpk_id (kyberPreKey bundle))
       (kpk_timestamp (kyberPreKey bundle))
       (toBase64 (KEMPublicKey_serialize (kpk_publicKey (kyberPreKey bundle))))
       (toBase64 (KEMSecretKey_serialize (kpk_secretKey (kyberPreKey bundle))))
       (toBase64 (kpk_signature (kyberPreKey bundle)))).

Definition deserializePreKey (pk : SerializedPreKey) : Result PreKeyData :=
  match PublicKey_deserialize (fromBase64 (s_pk_publicKey pk)) with
  | Throw e => Throw e
  | Ok publicKey =>
      match PrivateKey_deserialize (fromBase64 (s_pk_privateKey pk)) with
      | Throw e => Throw e
      | Ok privateKey => Ok (mkPreKeyData (s_pk_id pk) publicKey privateKey)
      end
  end.

(** The fields of the object literal are evaluated in source order; the
    two Kyber keys come from two separate calls of the generator. *)
Definition deserializeIdentityBundle (data : SerializedIdentityBundle)
  : M World IdentityBundle :=
  idPrivate <- lift (PrivateKey_deserialize
                       (fromBase64 (s_privateKey (s_identityKeyPair data)))) ;;
  idPublic <- lift (PublicKey_deserialize
                      (fromBase64 (s_publicKey (s_identityKeyPair data)))) ;;
  signedPublic <- lift (PublicKey_deserialize
                          (fromBase64 (s_spk_publicKey (s_signedPreKey data)))) ;;
  signedPrivate <- lift (PrivateKey_deserialize
                           (fromBase64 (s_spk_privateKey (s_signedPreKey data)))) ;;
  let signedSignature := fromBase64 (s_spk_signature (s_signedPreKey data)) in
  preKeys <- lift (map_result deserializePreKey (s_preKeys data)) ;;
  kyberForPublic <- KEMKeyPair_generate ;;
  kyberForSecret <- KEMKeyPair_generate ;;
  ret (mkIdentityBundle (s_registrationId data)
         (mkIdentityKeyPair idPrivate idPublic)
         (mkSignedPreKeyData (s_spk_id (s_signedPreKey data))
            (s_spk_timestamp (s_signedPreKey data))
            signedPublic signedPrivate signedSignature)
         preKeys
         (mkKyberPreKeyData (s_kpk_id (s_kyberPreKey data))
            (s_kpk_timestamp (s_kyberPreKey data))
            (KEMKeyPair_getPublicKey kyberForPublic)
            (KEMKeyPair_getSecretKey kyberForSecret)
            (fromBase64 (s_kpk_signature (s_kyberPreKey data))))).

End Identities.

(* ===================================================================== *)
(** * src/lib/signal/session.ts                                           *)
(* ===================================================================== *)

Module Session.
Import Js Libsignal Store Types.

Record EncryptionResult := mkEncryptionResult {
  ciphertext : Uint8Array;
  messageType : CiphertextMessageType;
}.

(** [identity.preKeys[0]]; reading a field of [undefined] throws. *)
Definition firstPreKey {G} (identity : IdentityBundle) : M G PreKeyData :=
  match preKeys identity with
  | pk :: _ => ret pk
  | [] => throw (mkError "TypeError: undefined is not an object")
  end.

Section Operations.
Context {G : Type}.
Variable entropy : forall A, M World A -> M G A.

Definition buildPreKeyBundle (identity : IdentityBundle) : M G PreKeyBundle :=
  first <- firstPreKey identity ;;
  ret (PreKeyBundle_new
         (registrationId identity)
         1
         (pk_id first)
         (pk_publicKey first)
         (spk_id (signedPreKey identity))
         (spk_publicKey (signedPreKey identity))
         (spk_signature (signedPreKey identity))
         (ikp_publicKey (identityKeyPair identity))
         (kpk_id (kyberPreKey identity))
         (kpk_publicKey (kyberPreKey identity))
         (kpk_signature (kyberPreKey identity))).

Definition establishSession (userIdentity assistantIdentity : IdentityBundle)
    (userStores assistantStores : Ref G SignalStores) : M G unit :=
  let userAddress := ProtocolAddress_new "user" 1 in
  let assistantAddress := ProtocolAddress_new "assistant" 1 in
  userPreKeyBundle <- buildPreKeyBundle userIdentity ;;
  assistantPreKeyBundle <- buildPreKeyBundle assistantIdentity ;;
  processPreKeyBundle entropy assistantPreKeyBundle assistantAddress
    (sessionStore userStores) (identityStore userStores) ;;;
  processPreKeyBundle entropy userPreKeyBundle userAddress
    (sessionStore assistantStores) (identityStore assistantStores).

End Operations.

Section Messages.
Context {G : Type}.

Definition encryptMessage (plaintext : Text) (recipientName : string)
    (stores : Ref G SignalStores) : M G EncryptionResult :=
  let address := ProtocolAddress_new recipientName 1 in
  let messageBytes := TextEncoder_encode plaintext in
  ciphertext <- signalEncrypt messageBytes address
                  (sessionStore stores) (identityStore stores) ;;
  ret (mkEncryptionResult (CiphertextMessage_serialize ciphertext)
         (CiphertextMessage_type ciphertext)).

Definition decryptMessage (ciphertext : Uint8Array)
    (messageType : CiphertextMessageType) (senderName : string)
    (stores : Ref G SignalStores) : M G Text :=
  let address := ProtocolAddress_new senderName 1 in
  plaintext <-
    (if CiphertextMessageType_eqb messageType PreKey then
       preKeyMessage <- lift (PreKeySignalMessage_deserialize ciphertext) ;;
       signalDecryptPreKey preKeyMessage address
         (sessionStore stores) (identityStore stores) (preKeyStore stores)
         (signedPreKeyStore stores) (kyberPreKeyStore stores)
     else
       signalMessage <- lift (SignalMessage_deserialize ciphertext) ;;
       signalDecrypt signalMessage address
         (sessionStore stores) (identityStore stores)) ;;
  ret (TextDecoder_decode plaintext).

End Messages.

End Session.

(* ===================================================================== *)
(** * src/types.ts                                                        *)
(* ===================================================================== *)

Module AppTypes.
Import Js Libsignal Store Types.

Inductive Role := user | assistant.

Definition Role_eqb (a b : Role) : bool :=
  match a, b with
  | user, user | assistant, assistant => true
  | _, _ => false
  end.

Definition Role_name (r : Role) : string :=
  match r with user => "user" | assistant => "assistant" end.

Record ChatMessage := mkChatMessage {
  cm_id : string;
  cm_role : Role;
  cm_content : Text;
  cm_timestamp : N;
}.

Record EncryptedMessageRecord := mkEncryptedMessageRecord {
  emr_id : string;
  emr_sender : Role;
  emr_ciphertext : string;
  emr_messageType : CiphertextMessageType;
  emr_timestamp : N;
}.

Record SessionData := mkSessionData {
  version : N;
  created : N;
  model : string;
  userIdentity : SerializedIdentityBundle;
  assistantIdentity : SerializedIdentityBundle;
  userStores : SerializedStores;
  assistantStores : SerializedStores;
  messages : list EncryptedMessageRecord;
}.

End AppTypes.

(* ===================================================================== *)
(** * src/lib/storage.ts                                                  *)
(* ===================================================================== *)

Module Storage.
Import Js Libsignal Store Types Identities Session AppTypes.

(** What [JSON.stringify] makes of a session and what else a file can
    hold: JSON text of [null], [false], [0] or the empty string, which
    [restoreSession] takes for no session, and text that [JSON.parse]
    rejects (an empty or truncated file among others).  JSON text of
    another shape is not represented: the code reads it through the type
    [SessionData] without a check. *)
Inductive FileText :=
| TextOfSession (data : SessionData)
| TextOfFalsy
| TextNotJson.

(** What is found at a path: a file that can be read, or something that
    exists and cannot (a directory, a file without permission). *)
Inductive FsNode :=
| RegularFile (content : FileText)
| Unreadable (error : JsError).

(** The process environment: the sources of non-determinism, what the
    file system holds at the paths of session files, and the lines
    written by [console.error]. *)
Record Runtime := mkRuntime {
  world : World;
  files : gmap string FsNode;
  console : list string;
}.

Definition worldOf : Ref Runtime World :=
  mkRef world (fun w rt => mkRuntime w (files rt) (console rt)).

Definition console_error (line : string) : M Runtime unit :=
  modify (fun rt => mkRuntime (world rt) (files rt) (console rt ++ [line])).

Definition SESSION_FILE : string := "session.json".
Definition DEFAULT_MODEL : string := "llama3.2".

(* ------------------------------------------------------------------- *)
(** ** path.join (POSIX)                                                *)
(* ------------------------------------------------------------------- *)

(** [s.split(c)]. *)
Fixpoint splitOn (c : ascii) (s : string) : list string :=
  match s with
  | EmptyString => [""]
  | String a rest =>
      if Ascii.eqb a c then "" :: splitOn c rest
      else match splitOn c rest with
           | part :: parts => String a part :: parts
           | [] => [String a ""]
           end
  end.

(** The segments of a path without the empty ones and [.], with [..]
    taking back the segment before it; [res] holds the segments kept so
    far, the last one first. *)
Fixpoint normalizeSegments (allowAboveRoot : bool) (segments res : list string)
  : list string :=
  match segments with
  | [] => rev res
  | segment :: rest =>
      if String.eqb segment "" || String.eqb segment "." then
        normalizeSegments allowAboveRoot rest res
      else if String.eqb segment ".." then
        match res with
        | last :: res' =>
            if String.eqb last ".." then
              normalizeSegments allowAboveRoot rest
                (if allowAboveRoot then ".." :: res else res)
            else normalizeSegments allowAboveRoot rest res'
        | [] =>
            normalizeSegments allowAboveRoot rest
              (if allowAboveRoot then [".."] else [])
        end
      else normalizeSegments allowAboveRoot rest (segment :: res)
  end.

Definition startsWithSlash (path : string) : bool :=
  match path with String "/" _ => true | _ => false end.

Fixpoint endsWithSlash (path : string) : bool :=
  match path with
  | EmptyString => false
  | String a EmptyString => Ascii.eqb a "/"
  | String _ rest => endsWithSlash rest
  end.

(** [path.normalize(path)]. *)
Definition path_normalize (path : string) : string :=
  if String.eqb path "" then "."
  else
    let isAbsolute := startsWithSlash path in
    let trailingSeparator := endsWithSlash path in
    let normalized :=
      String.concat "/" (normalizeSegments (negb isAbsolute) (splitOn "/" path) []) in
    if String.eqb normalized "" then
      if isAbsolute then "/" else if trailingSeparator then "./" else "."
    else
      let normalized :=
        if trailingSeparator then (normalized ++ "/")%string else normalized in
      if isAbsolute then ("/" ++ normalized)%string else normalized.

(** [path.join(dir, file)]: the arguments that are not empty, joined by
    a slash and normalized. *)
Definition path_join (dir file : string) : string :=
  let joined :=
    if String.eqb dir "" then file
    else if String.eqb file "" then dir
    else (dir ++ "/" ++ file)%string in
  if String.eqb joined "" then "." else path_normalize joined.

Record SessionContext := mkSessionContext {
  ctx_sessionData : SessionData;
  ctx_userStores : SignalStores;
  ctx_assistantStores : SignalStores;
}.

(* ------------------------------------------------------------------- *)
(** ** fs and JSON                                                      *)
(* ------------------------------------------------------------------- *)

Definition fs_existsSync (path : string) : M Runtime bool :=
  rt <- get ;;
  ret (match files rt !! path with Some _ => true | None => false end).

Definition fs_readFileSync (path : string) : M Runtime FileText :=
  rt <- get ;;
  match files rt !! path with
  | Some (RegularFile content) => ret content
  | Some (Unreadable error) => throw error
  | None => throw (mkError "ENOENT: no such file or directory")
  end.

(** [fs.mkdirSync(dir, { recursive: true })]. *)
Definition fs_mkdirSync (dir : string) : M Runtime unit :=
  answer <- call worldOf fsAnswer ;;
  match answer with
  | FsDone => ret tt
  | FsFailed error _ => throw error
  end.

Definition fs_writeFileSync (path : string) (content : FileText) : M Runtime unit :=
  answer <- call worldOf fsAnswer ;;
  match answer with
  | FsDone =>
      modify (fun rt =>
                mkRuntime (world rt) (<[path := RegularFile content]> (files rt))
                  (console rt))
  | FsFailed error damaged =>
      (if damaged then
         modify (fun rt =>
                   mkRuntime (world rt) (<[path := RegularFile TextNotJson]> (files rt))
                     (console rt))
       else ret tt) ;;;
      throw error
  end.

(** [JSON.parse(data)]; a falsy value is returned as [None]. *)
Definition JSON_parse (data : FileText) : Result (option SessionData) :=
  match data with
  | TextOfSession sessionData => Ok (Some sessionData)
  | TextOfFalsy => Ok None
  | TextNotJson => Throw (mkError "SyntaxError: JSON Parse error")
  end.

(** [JSON.stringify(data, null, 2)]. *)
Definition JSON_stringify (data : SessionData) : FileText := TextOfSession data.

Definition loadSession (dataDir : string) : M Runtime (option SessionData) :=
  let sessionPath := path_join dataDir SESSION_FILE in
  found <- fs_existsSync sessionPath ;;
  if negb found then ret None
  else
    data <- fs_readFileSync sessionPath ;;
    lift (JSON_parse data).

Definition saveSession (dataDir : string) (data : SessionData) : M Runtime unit :=
  let sessionPath := path_join dataDir SESSION_FILE in
  fs_mkdirSync dataDir ;;;
  fs_writeFileSync sessionPath (JSON_stringify data).

Definition createStoreContext (identityKey : PrivateKey) (registrationId : N)
  : Result SignalStores :=
  match InMemoryIdentityKeyStore.static_deserialize
          (InMemoryIdentityKeyStore.mkSerialized
             (toBase64 (PrivateKey_serialize identityKey)) registrationId ∅) with
  | Throw e => Throw e
  | Ok identity =>
      Ok (mkSignalStores InMemorySessionStore.new identity InMemoryPreKeyStore.new
            InMemorySignedPreKeyStore.new InMemoryKyberPreKeyStore.new)
  end.

Definition serializeStores (stores : SignalStores) : SerializedStores :=
  mkSerializedStores
    (InMemorySessionStore.serialize (Store.session stores))
    (InMemoryIdentityKeyStore.serialize (Store.identity stores))
    (InMemoryPreKeyStore.serialize (Store.preKey stores))
    (InMemorySignedPreKeyStore.serialize (Store.signedPreKey stores))
    (InMemoryKyberPreKeyStore.serialize (Store.kyberPreKey stores)).

Definition deserializeStores {G} (data : SerializedStores) (stores : Ref G SignalStores)
  : M G unit :=
  call (session_of stores) (InMemorySessionStore.deserialize (ser_session data)) ;;;
  call (identity_of stores) (InMemoryIdentityKeyStore.deserialize (ser_identity data)) ;;;
  call (preKey_of stores) (InMemoryPreKeyStore.deserialize (ser_preKey data)) ;;;
  call (signedPreKey_of stores) (InMemorySignedPreKeyStore.deserialize (ser_signedPreKey data)) ;;;
  call (kyberPreKey_of stores) (InMemoryKyberPreKeyStore.deserialize (ser_kyberPreKey data)).

(** The two store collections a function allocates, next to the
    environment. *)
Record Heap := mkHeap {
  runtime : Runtime;
  heapUser : SignalStores;
  heapAssistant : SignalStores;
}.

Definition runtimeOf : Ref Heap Runtime :=
  mkRef runtime (fun rt h => mkHeap rt (heapUser h) (heapAssistant h)).
Definition userStoresOf : Ref Heap SignalStores :=
  mkRef heapUser (fun s h => mkHeap (runtime h) s (heapAssistant h)).
Definition assistantStoresOf : Ref Heap SignalStores :=
  mkRef heapAssistant (fun s h => mkHeap (runtime h) (heapUser h) s).

Definition heapEntropy (A : Type) (m : M World A) : M Heap A :=
  call runtimeOf (call worldOf m).

(** Run [body] with two freshly allocated store collections. *)
Definition withStores {A} (userStores assistantStores : SignalStores) (body : M Heap A)
  : M Runtime A :=
  fun rt => let (r, h) := body (mkHeap rt userStores assistantStores) in (r, runtime h).

(** [new InMemory...Store()] for the five stores of one party. *)
Definition newStores (identity : IdentityBundle) : SignalStores :=
  mkSignalStores
    InMemorySessionStore.new
    (InMemoryIdentityKeyStore.new
       (ikp_privateKey (identityKeyPair identity)) (registrationId identity))
    InMemoryPreKeyStore.new
    InMemorySignedPreKeyStore.new
    InMemoryKyberPreKeyStore.new.

Definition createNewSession (dataDir : string) (model : string) : M Runtime SessionContext :=
  userIdentity <- call worldOf createIdentityBundle ;;
  assistantIdentity <- call worldOf createIdentityBundle ;;
  withStores (newStores userIdentity) (newStores assistantIdentity)
    (populateStores heapEntropy userIdentity userStoresOf ;;;
     populateStores heapEntropy assistantIdentity assistantStoresOf ;;;
     establishSession heapEntropy userIdentity assistantIdentity
       userStoresOf assistantStoresOf ;;;
     now <- heapEntropy _ Date_now ;;
     h <- get ;;
     let sessionData :=
       mkSessionData 1 now model
         (serializeIdentityBundle userIdentity)
         (serializeIdentityBundle assistantIdentity)
         (serializeStores (heapUser h))
         (serializeStores (heapAssistant h))
         [] in
     call runtimeOf (saveSession dataDir sessionData) ;;;
     h <- get ;;
     ret (mkSessionContext sessionData (heapUser h) (heapAssistant h))).

Definition restoreSession (dataDir : string) : M Runtime (option SessionContext) :=
  loaded <- loadSession dataDir ;;
  match loaded with
  | None => ret None
  | Some sessionData =>
      userIdentity <-
        call worldOf (deserializeIdentityBundle (userIdentity sessionData)) ;;
      assistantIdentity <-
        call worldOf (deserializeIdentityBundle (assistantIdentity sessionData)) ;;
      withStores (newStores userIdentity) (newStores assistantIdentity)
        (try_catch
           (deserializeStores (userStores sessionData) userStoresOf ;;;
            deserializeStores (assistantStores sessionData) assistantStoresOf ;;;
            h <- get ;;
            ret (Some (mkSessionContext sessionData (heapUser h) (heapAssistant h))))
           (fun err =>
              call runtimeOf
                (console_error
                   ("Failed to restore session stores, creating new session: "
                      ++ message err)) ;;;
              ret None))
  end.

(** The assignment [sessionData.userStores = ...] mutates the object the
    caller passed, which the caller holds at [sessionData], also when
    the save throws. *)
Definition updateSessionMessages {G} (runtime : Ref G Runtime) (dataDir : string)
    (sessionData : Ref G SessionData) (stores : SignalStores) : M G unit :=
  call sessionData
    (modify (fun data =>
               mkSessionData (version data) (created data) (model data)
                 (userIdentity data) (assistantIdentity data)
                 (serializeStores stores)
                 (assistantStores data) (messages data))) ;;;
  data <- call sessionData get ;;
  call runtime (saveSession dataDir data).

Definition resetSession (dataDir : string) (model : string) : M Runtime SessionContext :=
  createNewSession dataDir model.

End Storage.

(* ===================================================================== *)
(** * src/components/chat-view.tsx: message loading and submission       *)
(* ===================================================================== *)

Module ChatView.
Import Js Libsignal Store Types Identities Session AppTypes Storage.

(** The hook state of the component together with the objects it holds
    and the environment. *)
Record State := mkState {
  st_runtime : Runtime;
  st_sessionData : SessionData;
  st_userStores : SignalStores;
  st_assistantStores : SignalStores;
  st_messages : list ChatMessage;
  st_isLoading : bool;
  st_error : option string;
  st_input : Text;
}.

Definition runtimeRef : Ref State Runtime :=
  mkRef st_runtime
    (fun x s => mkState x (st_sessionData s) (st_userStores s) (st_assistantStores s)
                  (st_messages s) (st_isLoading s) (st_error s) (st_input s)).
Definition userStoresRef : Ref State SignalStores :=
  mkRef st_userStores
    (fun x s => mkState (st_runtime s) (st_sessionData s) x (st_assistantStores s)
                  (st_messages s) (st_isLoading s) (st_error s) (st_input s)).
Definition assistantStoresRef : Ref State SignalStores :=
  mkRef st_assistantStores
    (fun x s => mkState (st_runtime s) (st_sessionData s) (st_userStores s) x
                  (st_messages s) (st_isLoading s) (st_error s) (st_input s)).
Definition sessionDataRef : Ref State SessionData :=
  mkRef st_sessionData
    (fun x s => mkState (st_runtime s) x (st_userStores s) (st_assistantStores s)
                  (st_messages s) (st_isLoading s) (st_error s) (st_input s)).

Definition setSessionData (x : SessionData) : M State unit :=
  modify (fun s => mkState (st_runtime s) x (st_userStores s) (st_assistantStores s)
                     (st_messages s) (st_isLoading s) (st_error s) (st_input s)).
Definition setMessages (f : list ChatMessage -> list ChatMessage) : M State unit :=
  modify (fun s => mkState (st_runtime s) (st_sessionData s) (st_userStores s)
                     (st_assistantStores s) (f (st_messages s)) (st_isLoading s)
                     (st_error s) (st_input s)).
Definition setIsLoading (x : bool) : M State unit :=
  modify (fun s => mkState (st_runtime s) (st_sessionData s) (st_userStores s)
                     (st_assistantStores s) (st_messages s) x (st_error s) (st_input s)).
Definition setError (x : option string) : M State unit :=
  modify (fun s => mkState (st_runtime s) (st_sessionData s) (st_userStores s)
                     (st_assistantStores s) (st_messages s) (st_isLoading s) x
                     (st_input s)).
Definition setInput (x : Text) : M State unit :=
  modify (fun s => mkState (st_runtime s) (st_sessionData s) (st_userStores s)
                     (st_assistantStores s) (st_messages s) (st_isLoading s)
                     (st_error s) x).

(** [`${Date.now()}-${Math.random().toString(36).substr(2, 9)}`]. *)
Definition generateId : M World string :=
  now <- Date_now ;;
  r <- Math_random ;;
  w <- get ;;
  ret (pretty now ++ "-" ++ substr (toString36 w r) 2 9)%string.

Section Component.

(** Props of the component and the inference client. *)
Variable dataDir : string.
Variable modelProp : string.
Variable streamChat : string -> list ChatMessage -> Result (list Text).

(** The body of [for (const record of sessionData.messages)], with the
    local variables [decrypted] and [failedCount] threaded. *)
Fixpoint decryptRecords (records : list EncryptedMessageRecord)
    (decrypted : list ChatMessage) (failedCount : nat)
  : M State (list ChatMessage * nat) :=
  match records with
  | [] => ret (decrypted, failedCount)
  | record :: rest =>
      locals <-
        try_catch
          (let stores :=
             if Role_eqb (emr_sender record) user
             then assistantStoresRef else userStoresRef in
           let senderName :=
             if Role_eqb (emr_sender record) user then "user" else "assistant" in
           plaintext <-
             decryptMessage (fromBase64 (emr_ciphertext record))
               (emr_messageType record) senderName stores ;;
           ret (decrypted ++
                  [mkChatMessage (emr_id record) (emr_sender record) plaintext
                     (emr_timestamp record)],
                failedCount))
          (fun err =>
             call runtimeRef
               (console_error ("Failed to decrypt message: " ++ message err)) ;;;
             ret (decrypted, S failedCount)) ;;
      decryptRecords rest (fst locals) (snd locals)
  end.

(** The effect run once on mount. *)
Definition loadMessages : M State unit :=
  closure <- get ;;
  let sessionData := st_sessionData closure in
  locals <- decryptRecords (messages sessionData) [] 0 ;;
  let decrypted := fst locals in
  let failedCount := snd locals in
  (if (0 <? failedCount)%nat && (List.length decrypted =? 0)%nat
      && (0 <? List.length (messages sessionData))%nat
   then
     call runtimeRef
       (console_error "Session appears corrupted, clearing message history") ;;;
     let updatedSessionData :=
       mkSessionData (version sessionData) (created sessionData) modelProp
         (userIdentity sessionData) (assistantIdentity sessionData)
         (userStores sessionData) (assistantStores sessionData) [] in
     setSessionData updatedSessionData ;;;
     now <- get ;;
     (* the hook state holds the very object that is mutated *)
     updateSessionMessages runtimeRef dataDir sessionDataRef (st_userStores now) ;;;
     setError (Some "Session corrupted. Message history cleared. Starting fresh.")
   else ret tt) ;;;
  setMessages (fun _ => decrypted).

Definition handleSubmit : M State unit :=
  closure <- get ;;
  let sessionData := st_sessionData closure in
  let input := st_input closure in
  if st_isLoading closure || isEmpty (trim input) then ret tt
  else
    let userInput := trim input in
    setInput [] ;;;
    setIsLoading true ;;;
    setError None ;;;
    userMessageId <- call runtimeRef (call worldOf generateId) ;;
    userTimestamp <- call runtimeRef (call worldOf Date_now) ;;
    try_catch
      (encrypted <- encryptMessage userInput "assistant" userStoresRef ;;
       let userRecord :=
         mkEncryptedMessageRecord userMessageId user
           (toBase64 (ciphertext encrypted)) (messageType encrypted) userTimestamp in
       let userMessage := mkChatMessage userMessageId user userInput userTimestamp in
       setMessages (fun prev => prev ++ [userMessage]) ;;;
       let contextMessages := st_messages closure ++ [userMessage] in
       chunks <- lift (streamChat (model sessionData) contextMessages) ;;
       let assistantContent := fold_left (fun content chunk => content ++ chunk) chunks [] in
       assistantEncrypted <-
         encryptMessage assistantContent "user" assistantStoresRef ;;
       assistantMessageId <- call runtimeRef (call worldOf generateId) ;;
       recordTimestamp <- call runtimeRef (call worldOf Date_now) ;;
       let assistantRecord :=
         mkEncryptedMessageRecord assistantMessageId assistant
           (toBase64 (ciphertext assistantEncrypted))
           (messageType assistantEncrypted) recordTimestamp in
       messageTimestamp <- call runtimeRef (call worldOf Date_now) ;;
       let assistantMessage :=
         mkChatMessage assistantMessageId assistant assistantContent
           messageTimestamp in
       setMessages (fun prev => prev ++ [assistantMessage]) ;;;
       let updatedSessionData :=
         mkSessionData (version sessionData) (created sessionData)
           (model sessionData) (userIdentity sessionData)
           (assistantIdentity sessionData) (userStores sessionData)
           (assistantStores sessionData)
           (messages sessionData ++ [userRecord; assistantRecord]) in
       setSessionData updatedSessionData ;;;
       now <- get ;;
       (* the hook state holds the very object that is mutated *)
       updateSessionMessages runtimeRef dataDir sessionDataRef (st_userStores now))
      (fun err => setError (Some (message err))) ;;;
    setIsLoading false.

End Component.

End ChatView.

(* ===================================================================== *)
(** * src/components/chat-view.tsx: keyboard handling                     *)
(* ===================================================================== *)

Module ChatViewInput.
Import Js Libsignal Store Types Identities Session AppTypes Storage ChatView.

(** The [key] object Ink passes to a [useInput] handler. *)
Record Key := mkKey {
  key_ctrl : bool;
  key_meta : bool;
  key_escape : bool;
  key_return : bool;
  key_delete : bool;
  key_backspace : bool;
  key_leftArrow : bool;
  key_rightArrow : bool;
}.

(** The hook state of the component with the two hooks of the prompt. *)
Record View := mkView {
  hooks : State;
  cursorPos : nat;
  showResetConfirm : bool;
}.

Definition hooksRef : Ref View State :=
  mkRef hooks (fun x v => mkView x (cursorPos v) (showResetConfirm v)).

Definition setCursorPos (f : nat -> nat) : M View unit :=
  modify (fun v => mkView (hooks v) (f (cursorPos v)) (showResetConfirm v)).

Definition setShowResetConfirm (x : bool) : M View unit :=
  modify (fun v => mkView (hooks v) (cursorPos v) x).

(** [setInput((prev) => f(prev))]. *)
Definition updateInput (f : Text -> Text) : M View unit :=
  call hooksRef
    (modify (fun s => mkState (st_runtime s) (st_sessionData s) (st_userStores s)
                        (st_assistantStores s) (st_messages s) (st_isLoading s)
                        (st_error s) (f (st_input s)))).

Section Handlers.

Variable dataDir : string.
Variable streamChat : string -> list ChatMessage -> Result (list Text).

(** The [onReset] prop. *)
Variable onReset : M View unit.

(** The first [useInput] handler: reset with confirmation. *)
Definition onResetKey (inputChar : string) (key : Key) : M View unit :=
  closure <- get ;;
  if key_ctrl key && String.eqb inputChar "r" then
    if showResetConfirm closure then
      setShowResetConfirm false ;;;
      onReset
    else
      setShowResetConfirm true
  else if key_escape key && showResetConfirm closure then
    setShowResetConfirm false
  else ret tt.

(** The second [useInput] handler: editing the prompt.  [handleSubmit()]
    is not awaited: a rejection of its promise does not reach the
    handler.  [Math.max(0, prev - 1)] is computed on natural numbers,
    where [prev - 1] is already [0] for [prev = 0]. *)
Definition onEditKey (inputChar : Text) (key : Key) : M View unit :=
  closure <- get ;;
  let isLoading := st_isLoading (hooks closure) in
  let input := st_input (hooks closure) in
  let cursorPos := cursorPos closure in
  if isLoading then ret tt
  else if key_ctrl key || key_meta key then ret tt
  else if key_return key then
    try_catch (call hooksRef (handleSubmit dataDir streamChat)) (fun _ => ret tt) ;;;
    setCursorPos (fun _ => 0)
  else if key_delete key || key_backspace key then
    if (0 <? cursorPos)%nat then
      updateInput (fun prev => slice prev 0 (cursorPos - 1) ++ sliceFrom prev cursorPos) ;;;
      setCursorPos (fun prev => prev - 1)
    else ret tt
  else if key_leftArrow key then
    setCursorPos (fun prev => Nat.max 0 (prev - 1))
  else if key_rightArrow key then
    setCursorPos (fun prev => Nat.min (List.length input) (prev + 1))
  else if negb (isEmpty inputChar) && negb (key_ctrl key) && negb (key_meta key) then
    updateInput
      (fun prev => slice prev 0 cursorPos ++ inputChar ++ sliceFrom prev cursorPos) ;;;
    setCursorPos (fun prev => prev + 1)
  else ret tt.

End Handlers.

End ChatViewInput.

(* ===================================================================== *)
(** * src/app.tsx: session lifecycle                                      *)
(* ===================================================================== *)

Module App.
Import Js Libsignal Store Types Identities Session AppTypes Storage.

(** [AppConfig] of src/types.ts. *)
Record AppConfig := mkAppConfig {
  cfg_model : string;
  cfg_dataDir : string;
  cfg_reset : bool;
  cfg_listModels : bool;
}.

Inductive AppState :=
| Loading
| Ready (sessionData : SessionData) (userStores assistantStores : SignalStores)
| Error (message : string)
| ListingModels (models : list string).

(** The process: the environment, the lines written by [console.log]
    and the state hook of the component. *)
Record Process := mkProcess {
  proc_runtime : Runtime;
  proc_log : list string;
  proc_state : AppState;
}.

Definition runtimeOfProcess : Ref Process Runtime :=
  mkRef proc_runtime (fun rt p => mkProcess rt (proc_log p) (proc_state p)).

Definition setState (x : AppState) : M Process unit :=
  modify (fun p => mkProcess (proc_runtime p) (proc_log p) x).

Definition console_log (line : string) : M Process unit :=
  modify (fun p => mkProcess (proc_runtime p) (proc_log p ++ [line]) (proc_state p)).

Definition readyWith (context : SessionContext) : AppState :=
  Ready (ctx_sessionData context) (ctx_userStores context) (ctx_assistantStores context).

Section Component.

Variable config : AppConfig.

(** [listModels] of src/lib/ollama.ts, which asks the inference service. *)
Variable listModels : string -> Result (list string).

(** The effect run on mount. *)
Definition init : M Process unit :=
  try_catch
    (if cfg_listModels config then
       models <- lift (listModels (cfg_model config)) ;;
       setState (ListingModels models)
     else if cfg_reset config then
       context <- call runtimeOfProcess
                    (createNewSession (cfg_dataDir config) (cfg_model config)) ;;
       setState (readyWith context)
     else
       existing <- call runtimeOfProcess (restoreSession (cfg_dataDir config)) ;;
       match existing with
       | Some found =>
           if String.eqb (model (ctx_sessionData found)) (cfg_model config) then
             setState (readyWith found)
           else
             console_log
               ("Model changed from " ++ model (ctx_sessionData found) ++ " to "
                  ++ cfg_model config ++ ", creating new session") ;;;
             context <- call runtimeOfProcess
                          (createNewSession (cfg_dataDir config) (cfg_model config)) ;;
             setState (readyWith context)
       | None =>
           context <- call runtimeOfProcess
                        (createNewSession (cfg_dataDir config) (cfg_model config)) ;;
           setState (readyWith context)
       end)
    (fun err => setState (Error (message err))).

(** The [onReset] callback handed to the chat view. *)
Definition handleReset : M Process unit :=
  setState Loading ;;;
  try_catch
    (context <- call runtimeOfProcess
                  (resetSession (cfg_dataDir config) (cfg_model config)) ;;
     setState (readyWith context))
    (fun err => setState (Error (message err))).

End Component.

End App.

(* ===================================================================== *)
(** * src/index.tsx: command line                                         *)
(* ===================================================================== *)

Module Index.
Import Js App.

Definition DEFAULT_DATA_DIR : string := "/app/data".
Definition DEFAULT_MODEL : string := "llama3.2".

(** [process.env.NAME || fallback]: an unset or empty variable gives the
    fallback. *)
Definition orElse (value : option string) (fallback : string) : string :=
  match value with
  | Some v => if String.eqb v "" then fallback else v
  | None => fallback
  end.

(** What [parseArgs] ends with: the configuration, or the process exit
    after the help text. *)
Inductive Parsed := Config (config : AppConfig) | HelpExit.

(** The loop [for (let i = 0; i < args.length; i++)] from index [i] on,
    [args] being the arguments not yet visited.  An option that takes a
    value skips the argument after it ([args[++i]]), also when there is
    none. *)
Fixpoint parseLoop (args : list string) (config : AppConfig) : Parsed :=
  match args with
  | [] => Config config
  | arg :: rest =>
      if String.eqb arg "--reset" || String.eqb arg "-r" then
        parseLoop rest
          (mkAppConfig (cfg_model config) (cfg_dataDir config) true (cfg_listModels config))
      else if String.eqb arg "--model" || String.eqb arg "-m" then
        match rest with
        | value :: rest' =>
            parseLoop rest'
              (mkAppConfig (orElse (Some value) (cfg_model config)) (cfg_dataDir config)
                 (cfg_reset config) (cfg_listModels config))
        | [] => Config config
        end
      else if String.eqb arg "--list-models" || String.eqb arg "-l" then
        parseLoop rest
          (mkAppConfig (cfg_model config) (cfg_dataDir config) (cfg_reset config) true)
      else if String.eqb arg "--data-dir" then
        match rest with
        | value :: rest' =>
            parseLoop rest'
              (mkAppConfig (cfg_model config) (orElse (Some value) (cfg_dataDir config))
                 (cfg_reset config) (cfg_listModels config))
        | [] => Config config
        end
      else if String.eqb arg "--help" || String.eqb arg "-h" then HelpExit
      else parseLoop rest config
  end.

(** [args] is [process.argv.slice(2)]; the two environment variables are
    [OLLAMA_MODEL] and [DATA_DIR]. *)
Definition parseArgs (args : list string) (envModel envDataDir : option string) : Parsed :=
  parseLoop args
    (mkAppConfig (orElse envModel DEFAULT_MODEL) (orElse envDataDir DEFAULT_DATA_DIR)
       false false).

End Index.

(* ===================================================================== *)
(** * src/components/message-list.tsx                                     *)
(* ===================================================================== *)

Module MessageList.
Import Js AppTypes.

(** [stdout.rows || 24]. *)
Definition terminalHeight (rows : option nat) : nat :=
  match rows with
  | Some (S n) => S n
  | _ => 24
  end.

(** [Math.max(5, terminalHeight - 8)]; below 8 rows the difference is
    negative and the maximum is 5, as with the truncated subtraction. *)
Definition maxVisibleMessages (rows : option nat) : nat :=
  Nat.max 5 (terminalHeight rows - 8).

(** [messages.slice(-maxVisibleMessages)]: the last elements, all of
    them when there are not more. *)
Definition visibleMessages (rows : option nat) (messages : list ChatMessage)
  : list ChatMessage :=
  drop (List.length messages - maxVisibleMessages rows) messages.

Definition hasMoreMessages (rows : option nat) (messages : list ChatMessage) : bool :=
  (maxVisibleMessages rows <? List.length messages)%nat.

Definition hiddenCount (rows : option nat) (messages : list ChatMessage) : Z :=
  (Z.of_nat (List.length messages) - Z.of_nat (maxVisibleMessages rows))%Z.

End MessageList.

(* ===================================================================== *)
(** * src/components/message-item.tsx: grouping of segments               *)
(* ===================================================================== *)

Module MessageItem.
Import Js.

Inductive SegmentType := normal | bold | italic | code | codeblock.

Record TextSegment := mkTextSegment {
  seg_type : SegmentType;
  seg_text : Text;
  seg_lang : option string;
}.

Record Group := mkGroup {
  group_segments : list TextSegment;
  group_key : string;
}.

Definition isCodeblock (seg : TextSegment) : bool :=
  match seg_type seg with codeblock => true | _ => false end.

(** [seg.lang || 'none']. *)
Definition langOrNone (lang : option string) : string :=
  match lang with
  | Some l => if String.eqb l "" then "none" else l
  | None => "none"
  end.

(** The callback of [segments.forEach((seg, segIndex) => ...)] over the
    segments from [segIndex] on, with the variables [groups],
    [currentGroup] and [groupIndex] threaded; returns them. *)
Fixpoint groupLoop (segments : list TextSegment) (segIndex : nat)
    (groups : list Group) (currentGroup : list TextSegment) (groupIndex : nat)
  : list Group * list TextSegment * nat :=
  match segments with
  | [] => (groups, currentGroup, groupIndex)
  | seg :: rest =>
      if isCodeblock seg then
        let '(groups, groupIndex) :=
          if (0 <? List.length currentGroup)%nat then
            (groups ++ [mkGroup currentGroup
                          ("text-" ++ pretty groupIndex ++ "-" ++ pretty segIndex)],
             S groupIndex)
          else (groups, groupIndex) in
        groupLoop rest (S segIndex)
          (groups ++ [mkGroup [seg]
                        ("code-" ++ pretty groupIndex ++ "-" ++ langOrNone (seg_lang seg))])
          [] (S groupIndex)
      else
        groupLoop rest (S segIndex) groups (currentGroup ++ [seg]) groupIndex
  end.

Definition groupedSegments (segments : list TextSegment) : list Group :=
  let '(groups, currentGroup, groupIndex) := groupLoop segments 0 [] [] 0 in
  if (0 <? List.length currentGroup)%nat then
    groups ++ [mkGroup currentGroup ("text-" ++ pretty groupIndex ++ "-end")]
  else groups.

(** [text.split(' ')]. *)
Fixpoint splitSpace (s : Text) : list Text :=
  match s with
  | [] => [[]]
  | u :: rest =>
      if (u =? 32)%N then [] :: splitSpace rest
      else match splitSpace rest with
           | word :: words => (u :: word) :: words
           | [] => [[u]]
           end
  end.

(** A string used as a condition. *)
Definition truthy (s : Text) : bool := negb (isEmpty s).

(** The loop [for (const word of words)] of [wrapText], with the
    variables [lines] and [currentLine] threaded. *)
Fixpoint wrapLoop (words : list Text) (maxWidth : nat) (lines : list Text)
    (currentLine : Text) : list Text * Text :=
  match words with
  | [] => (lines, currentLine)
  | word :: rest =>
      if (List.length (currentLine ++ text " " ++ word) <=? maxWidth)%nat then
        wrapLoop rest maxWidth lines
          (if truthy currentLine then currentLine ++ text " " ++ word else word)
      else
        wrapLoop rest maxWidth
          (if truthy currentLine then lines ++ [currentLine] else lines) word
  end.

Definition wrapText (text : Text) (maxWidth : Z) : list Text :=
  if (maxWidth <=? 0)%Z then [text]
  else
    let '(lines, currentLine) := wrapLoop (splitSpace text) (Z.to_nat maxWidth) [] [] in
    let lines := if truthy currentLine then lines ++ [currentLine] else lines in
    if (0 <? List.length lines)%nat then lines else [text].

End MessageItem.

(* ===================================================================== *)
(** * Vocabulary of the statements, and fixtures                          *)
(* ===================================================================== *)

Import Js Libsignal Store Storage Types Identities Session AppTypes ChatView.

(** The character of the sextet [v] is not the padding and decodes to
    [v]. *)
Definition sextet_ok (v : N) : bool :=
  negb (Ascii.eqb (base64_char v) "=")
  && match base64_value (base64_char v) with
     | Some u => (u =? v)%N
     | None => false
     end.

(** The map after [f value] was stored under [key] for each entry of
    [l], in order. *)
Definition insertAll {K} `{Countable K} {V W} (f : V -> W) (acc : gmap K W)
    (l : list (K * V)) : gmap K W :=
  foldl (fun m kv => <[fst kv := f (snd kv)]> m) acc l.

(** A public key the engine can hand out: the type byte and 32 bytes. *)
Definition validPublicKey (k : PublicKey) : bool :=
  match PublicKey_serialize k with
  | x05 :: scalar => (List.length scalar =? 32)%nat
  | _ => false
  end.

(** A private key the engine can hand out: 32 bytes. *)
Definition validPrivateKey (k : PrivateKey) : bool :=
  (List.length (PrivateKey_serialize k) =? 32)%nat.

(** Every peer key held by the identity store is one the engine can
    hand out. *)
Definition wellFormedStores (stores : SignalStores) : bool :=
  forallb (fun kv => validPublicKey (snd kv))
    (map_to_list (InMemoryIdentityKeyStore.idKeys (Store.identity stores))).

(** Both halves of a one-time pre-key are keys the engine can hand out. *)
Definition wellFormedPreKey (pk : PreKeyData) : bool :=
  validPublicKey (pk_publicKey pk) && validPrivateKey (pk_privateKey pk).

(** All curve keys of the bundle are keys the engine can hand out. *)
Definition wellFormedBundle (bundle : IdentityBundle) : bool :=
  validPrivateKey (ikp_privateKey (identityKeyPair bundle))
  && validPublicKey (ikp_publicKey (identityKeyPair bundle))
  && validPublicKey (spk_publicKey (signedPreKey bundle))
  && validPrivateKey (spk_privateKey (signedPreKey bundle))
  && forallb wellFormedPreKey (preKeys bundle).

(** The [n] bytes the secure generator yields after [skip] further
    bytes. *)
Definition secureBytes (w : World) (skip n : nat) : Uint8Array :=
  map (feed (csprng w)) (seq (cursor (csprng w) + skip) n).

(** The world after [n] bytes were read from the secure generator. *)
Definition afterSecureBytes (n : nat) (w : World) : World :=
  mkWorld (mkOracle (feed (csprng w)) (cursor (csprng w) + n))
    (mathRandom w) (clock w) (toString36 w) (fileSystem w).

(** The function [serializeIdentityBundle] maps over [bundle.preKeys]. *)
Definition serializePreKey (pk : PreKeyData) : SerializedPreKey :=
  mkSerializedPreKey (pk_id pk)
    (toBase64 (PublicKey_serialize (pk_publicKey pk)))
    (toBase64 (PrivateKey_serialize (pk_privateKey pk))).

(** The fraction [Math.random()] returns next in [w]. *)
Definition nextRandom (w : World) : N :=
  (feed (mathRandom w) (cursor (mathRandom w)) mod 2 ^ 53)%N.

(** Replace the state of [Math.random] in a world. *)
Definition withMathRandom (o : Oracle N) (w : World) : World :=
  mkWorld (csprng w) o (clock w) (toString36 w) (fileSystem w).

(** A reference behaves like a field: storing twice keeps the last value
    and storing back what was read changes nothing. *)
Record LawfulRef {G T} (r : Ref G T) : Prop := mkLawfulRef {
  rset_rset : forall t t' s, rset r t' (rset r t s) = rset r t' s;
  rset_rget : forall s, rset r (rget r s) s = s;
}.

(** [m] changes the program state at most in the object behind [r]. *)
Definition touches {G T A} (r : Ref G T) (m : M G A) : Prop :=
  forall s, exists t, snd (m s) = rset r t s.

(** [m] keeps the property [I] of the program state. *)
Definition preserves {S A} (I : S -> Prop) (m : M S A) : Prop :=
  forall s, I s -> I (snd (m s)).








(** The answer the file system gives to the [n]th operation from now. *)
Definition fsAnswerAt (n : nat) (w : World) : FsAnswer :=
  feed (fileSystem w) (cursor (fileSystem w) + n).

(** The world after the file system answered [n] operations. *)
Definition afterFsAnswers (n : nat) (w : World) : World :=
  mkWorld (csprng w) (mathRandom w) (clock w) (toString36 w)
    (mkOracle (feed (fileSystem w)) (cursor (fileSystem w) + n)).

(** The runtime after [saveSession] wrote [content] to the session file
    of [dataDir]. *)
Definition afterSave (dataDir : string) (content : FileText) (rt : Runtime) : Runtime :=
  mkRuntime (afterFsAnswers 2 (world rt))
    (<[path_join dataDir SESSION_FILE := RegularFile content]> (files rt))
    (console rt).

(** The runtime after the file system answered [n] operations and left
    the files alone. *)
Definition afterFsOnly (n : nat) (rt : Runtime) : Runtime :=
  mkRuntime (afterFsAnswers n (world rt)) (files rt) (console rt).

(** The record the session store holds for [sender] has no state set up
    from the base key of [m]: decrypting [m] runs the key agreement. *)
Definition handshakePending (m : PreKeySignalMessage) (sender : string)
    (stores : SignalStores) : bool :=
  match fst (InMemorySessionStore.getSession (ProtocolAddress_new sender 1)
               (Store.session stores)) with
  | Ok existing =>
      match promoteMatchingSession (PreKeySignalMessage_baseKey m)
              (match existing with Some r => r | None => SessionRecord_empty end) with
      | Some _ => false
      | None => true
      end
  | Throw _ => false
  end.

(** The messaging operations of the layer on one collection. *)
Inductive Messaging :=
| Encrypt (plaintext : Text) (recipient : string)
| Decrypt (ciphertext : Uint8Array) (messageType : CiphertextMessageType)
    (sender : string).

Definition runMessaging (op : Messaging) (stores : SignalStores) : SignalStores :=
  match op with
  | Encrypt plaintext recipient =>
      snd (encryptMessage plaintext recipient self stores)
  | Decrypt ct ty sender => snd (decryptMessage ct ty sender self stores)
  end.

Definition runAllMessaging (ops : list Messaging) (stores : SignalStores) : SignalStores :=
  fold_left (fun st op => runMessaging op st) ops stores.

Module Fixture.
Import Types Identities Session AppTypes Storage.

(** Nine digits of the base-36 expansion of the fraction [m / 2^53]. *)
Fixpoint base36_digits (digits : nat) (m : N) : string :=
  match digits with
  | O => EmptyString
  | S digits' =>
      let d := (m * 36 / 2 ^ 53)%N in
      let c := if (d <? 10)%N then ascii_of_N (48 + d) else ascii_of_N (87 + d) in
      String c (base36_digits digits' (m * 36 mod 2 ^ 53)%N)
  end.

(** An environment whose secure generator does not repeat itself over
    the bytes a session needs and whose file system never fails. *)
Definition world0 : World :=
  mkWorld
    (mkOracle (fun n => byte_of_N (N.of_nat n mod 251)) 0)
    (mkOracle (fun n => (N.of_nat n * 1234567891234567 + 4503599627370496)%N) 0)
    (mkOracle (fun n => (1700000000000 + N.of_nat n)%N) 0)
    (fun m => ("0." ++ base36_digits 9 m)%string)
    (mkOracle (fun _ => FsDone) 0).

Definition runtime0 : Runtime := mkRuntime world0 ∅ [].

Definition dataDir : string := "/app/data".

Definition noBundle : IdentityBundle :=
  mkIdentityBundle 0
    (mkIdentityKeyPair (mkPrivateKey []) (mkPublicKey []))
    (mkSignedPreKeyData 0 0 (mkPublicKey []) (mkPrivateKey []) [])
    []
    (mkKyberPreKeyData 0 0 (mkKEMPublicKey []) (mkKEMSecretKey []) []).

Definition noSessionData : SessionData :=
  mkSessionData 0 0 ""
    (serializeIdentityBundle noBundle) (serializeIdentityBundle noBundle)
    (serializeStores (newStores noBundle)) (serializeStores (newStores noBundle)) [].

Definition noContext : SessionContext :=
  mkSessionContext noSessionData (newStores noBundle) (newStores noBundle).

Definition valueOr {A} (d : A) (r : Result A) : A :=
  match r with Ok a => a | Throw _ => d end.

(** [createNewSession('/app/data', 'llama3.2')] in [runtime0]. *)
Definition created : Result SessionContext * Runtime :=
  createNewSession dataDir DEFAULT_MODEL runtime0.

Definition context0 : SessionContext := valueOr noContext (fst created).
Definition runtime1 : Runtime := snd created.

End Fixture.

Module Scenario.
Import Fixture.

(** The two bundles [createNewSession] generated in [runtime0]. *)
Definition userBundle : IdentityBundle :=
  valueOr noBundle (fst (createIdentityBundle world0)).
Definition assistantBundle : IdentityBundle :=
  valueOr noBundle (fst (createIdentityBundle (snd (createIdentityBundle world0)))).

(** The freshly created session: both collections and the environment. *)
Definition fresh : Heap :=
  mkHeap runtime1 (ctx_userStores context0) (ctx_assistantStores context0).

(** [stores.kyberPreKey.saveKyberPreKey] with a record built from the
    bundle's own Kyber pair. *)
Definition saveBundleKyberKey (bundle : IdentityBundle) (stores : Ref Heap SignalStores)
  : M Heap unit :=
  KyberPreKeyStore_saveKyberPreKey (kyberPreKeyStore stores)
    (kpk_id (kyberPreKey bundle))
    (KyberPreKeyRecord_new
       (kpk_id (kyberPreKey bundle))
       (kpk_timestamp (kyberPreKey bundle))
       (mkKEMKeyPair (kpk_publicKey (kyberPreKey bundle))
          (kpk_secretKey (kyberPreKey bundle)))
       (kpk_signature (kyberPreKey bundle))).

(** The fresh session after both Kyber stores were given the bundles'
    own pairs. *)
Definition repaired : Heap :=
  snd ((saveBundleKyberKey userBundle userStoresOf ;;;
        saveBundleKyberKey assistantBundle assistantStoresOf) fresh).

(** One party encrypts, the other decrypts at once. *)
Definition userToAssistant (plaintext : Text) : M Heap Text :=
  encrypted <- encryptMessage plaintext "assistant" userStoresOf ;;
  decryptMessage (ciphertext encrypted) (messageType encrypted) "user"
    assistantStoresOf.

Definition assistantToUser (plaintext : Text) : M Heap Text :=
  encrypted <- encryptMessage plaintext "user" assistantStoresOf ;;
  decryptMessage (ciphertext encrypted) (messageType encrypted) "assistant"
    userStoresOf.

Definition storedKyberKeyPair (id : N) (stores : SignalStores) : option KEMKeyPair :=
  match fst (InMemoryKyberPreKeyStore.getKyberPreKey id (Store.kyberPreKey stores)) with
  | Ok record => Some (KyberPreKeyRecord_keyPair record)
  | Throw _ => None
  end.

Definition KEMPublicKey_eqb (a b : KEMPublicKey) : bool :=
  bytes_eqb (KEMPublicKey_serialize a) (KEMPublicKey_serialize b).
Definition KEMSecretKey_eqb (a b : KEMSecretKey) : bool :=
  bytes_eqb (KEMSecretKey_serialize a) (KEMSecretKey_serialize b).

End Scenario.

Module Submission.
Import Fixture.

(** The chat view mounted on the freshly created session, with "hello"
    typed into the input. *)
Definition mounted : State :=
  mkState runtime1 (ctx_sessionData context0) (ctx_userStores context0)
    (ctx_assistantStores context0) [] false None "hello".

Definition streamChat (_model : string) (_messages : list ChatMessage)
  : Result (list Text) :=
  Ok [text "hi"; text " there"].

(** The state after Enter was pressed and [handleSubmit] has returned. *)
Definition submitted : State := snd (handleSubmit dataDir streamChat mounted).

Definition durable (s : State) : option SessionData :=
  match files (st_runtime s) !! path_join dataDir SESSION_FILE with
  | Some (RegularFile (TextOfSession data)) => Some data
  | _ => None
  end.

(** The serialized session of [idx], compared as text. *)
Definition sameSessionEntry (idx : string) (a b : SerializedStores) : bool :=
  match ser_session a !! idx, ser_session b !! idx with
  | Some x, Some y => String.eqb x y
  | None, None => true
  | _, _ => false
  end.

End Submission.

Module Handshake.
Import Fixture Scenario.

Definition noMessage : PreKeySignalMessage :=
  mkPreKeySignalMessage 0 0 0 (mkPublicKey []) (mkPublicKey []) []
    (mkSignalMessage 0 [] []).

(** In the repaired session the user encrypts "hello" ... *)
Definition first : EncryptionResult :=
  valueOr (mkEncryptionResult [] Whisper)
    (fst (encryptMessage "hello" "assistant" self (heapUser repaired))).

Definition parsed : PreKeySignalMessage :=
  valueOr noMessage (PreKeySignalMessage_deserialize (ciphertext first)).

(** ... and the assistant's collection decrypts it. *)
Definition receiver : SignalStores := heapAssistant repaired.
Definition received : Result Text * SignalStores :=
  decryptMessage (ciphertext first) PreKey "user" self receiver.


End Handshake.

Module Restart.
Import Fixture Scenario.

(** The session [createNewSession] made, with the Kyber store of each
    party holding the pair of its own bundle: what a session creation
    without the defect of [populateStores] hands to the chat view. *)
Definition sessionData0 : SessionData :=
  let data := ctx_sessionData context0 in
  mkSessionData (version data) (AppTypes.created data) (model data)
    (userIdentity data) (assistantIdentity data)
    (serializeStores (heapUser repaired))
    (serializeStores (heapAssistant repaired)) (messages data).

(** The chat view mounted on it, with "hello" typed into the input. *)
Definition mounted : State :=
  mkState runtime1 sessionData0 (heapUser repaired) (heapAssistant repaired)
    [] false None "hello".



(** A start of the program with the default model and the same data
    directory: the effect [init] of the application runs, and the chat
    view is mounted on the session it reports as ready. *)
Definition config : App.AppConfig := App.mkAppConfig DEFAULT_MODEL dataDir false false.

Definition listModels (_baseUrl : string) : Result (list string) := Ok [].

Definition start (rt : Runtime) : App.Process :=
  snd (App.init config listModels (App.mkProcess rt [] App.Loading)).

Definition mount (p : App.Process) : State :=
  match App.proc_state p with
  | App.Ready sessionData userStores assistantStores =>
      mkState (App.proc_runtime p) sessionData userStores assistantStores
        [] false None []
  | _ =>
      mkState (App.proc_runtime p) noSessionData (newStores noBundle)
        (newStores noBundle) [] false None []
  end.



(** The program started on the file of the session [createNewSession]
    made, after one message was exchanged in it. *)
Definition createdStart : State := mount (start (st_runtime Submission.submitted)).
Definition createdLoad : Result unit * State :=
  loadMessages dataDir DEFAULT_MODEL createdStart.







End Restart.

(* ------------------------------------------------------------------- *)
(** ** Characters of a string                                           *)
(* ------------------------------------------------------------------- *)

(** Whether the character [c] occurs in [s]. *)
Fixpoint hasChar (c : ascii) (s : string) : bool :=
  match s with
  | EmptyString => false
  | String a rest => Ascii.eqb a c || hasChar c rest
  end.

(** The decimal digits. *)
Definition isDigit (c : ascii) : bool :=
  (48 <=? nat_of_ascii c)%nat && (nat_of_ascii c <=? 57)%nat.

(* ------------------------------------------------------------------- *)
(** ** Key presses at the prompt                                        *)
(* ------------------------------------------------------------------- *)

Module Prompt.
Import ChatViewInput.

(** Ctrl+R as Ink reports it. *)
Definition isCtrlR (press : string * Key) : bool :=
  key_ctrl (snd press) && String.eqb (fst press) "r".

(** The handler run on key presses one after the other, a press being
    the pair of [inputChar] and [key]; a handler that throws ends the
    run. *)
Definition pressAll {I} (handler : I -> Key -> M View unit) (presses : list (I * Key))
  : M View unit :=
  for_of presses (fun press => handler (fst press) (snd press)).

(** A key without modifier or function, and Backspace. *)
Definition plainKey : Key := mkKey false false false false false false false false.
Definition backspaceKey : Key := mkKey false false false false false true false false.

(** The hook state with another input. *)
Definition withInput (h : State) (x : Text) : State :=
  mkState (st_runtime h) (st_sessionData h) (st_userStores h)
    (st_assistantStores h) (st_messages h) (st_isLoading h) (st_error h) x.

(** The cursor stays inside the text. *)
Definition cursorInText (v : View) : Prop :=
  (cursorPos v <= List.length (st_input (hooks v)))%nat.

End Prompt.

(* ------------------------------------------------------------------- *)
(** ** Groups and lines of a rendered message                           *)
(* ------------------------------------------------------------------- *)

Module Rendering.
Import MessageItem.

(** A group is one code block, or inline segments only. *)
Definition wellGrouped (g : Group) : Prop :=
  group_segments g <> []
  /\ ((exists seg, group_segments g = [seg] /\ isCodeblock seg = true)
      \/ forallb (fun seg => negb (isCodeblock seg)) (group_segments g) = true).

(** The segments of the groups, one group after the other. *)
Definition segmentsOf (groups : list Group) : list TextSegment :=
  List.concat (List.map group_segments groups).

(** The key of a group starts with its kind and the number of the
    group. *)
Definition keyed (g : nat) (key : string) : Prop :=
  exists kind tail,
    (kind = "text-" \/ kind = "code-")
    /\ key = (kind ++ pretty g ++ "-" ++ tail)%string.

(** The words of some lines that are not empty, in order. *)
Definition wordsOf (lines : list Text) : list Text :=
  List.filter truthy (List.concat (List.map splitSpace lines)).

(** A wrapped line is not empty, and fits unless it is one word. *)
Definition wrappedLine (maxWidth : nat) (line : Text) : Prop :=
  line <> [] /\ ((List.length line <= maxWidth)%nat \/ 32%N ∉ line).

End Rendering.


(* ===================================================================== *)
(** * Properties                                                          *)
(* ===================================================================== *)

(* ------------------------------------------------------------------- *)
(** ** Base64 round trip                                                *)
(* ------------------------------------------------------------------- *)

Lemma byte_of_to_N (b : byte) : byte_of_N (Byte.to_N b) = b.
Proof. unfold byte_of_N. now rewrite Byte.of_to_N. Qed.

Lemma to_N_lt_256 (b : byte) : (Byte.to_N b < 256)%N.
Proof. pose proof (Byte.to_N_bounded b). lia. Qed.

(** Induction on byte strings three bytes at a time. *)
Lemma list_ind3 {A} (P : list A -> Prop) :
  P [] -> (forall a, P [a]) -> (forall a b, P [a; b]) ->
  (forall a b c l, P l -> P (a :: b :: c :: l)) ->
  forall l, P l.
Proof.
  intros H0 H1 H2 H3.
  assert (H : forall l, P l /\ (forall a, P (a :: l)) /\ (forall a b, P (a :: b :: l))).
  { induction l as [|x l (IH0 & IH1 & IH2)]; [auto|].
    split; [apply IH1|]. split; [intros a; apply IH2|].
    intros a b. now apply H3. }
  intros l. apply H.
Qed.

Lemma sextet_ok_all : forallb sextet_ok (map N.of_nat (seq 0 64)) = true.
Proof. vm_compute. reflexivity. Qed.

Lemma sextets_char (v : N) (rest : string) :
  (v < 64)%N -> sextets (String (base64_char v) rest) = v :: sextets rest.
Proof.
  intros Hv.
  assert (Hok : sextet_ok v = true).
  { pose proof sextet_ok_all as Hall.
    rewrite forallb_forall in Hall. apply Hall.
    apply in_map_iff. exists (N.to_nat v). split; [lia|].
    apply in_seq. lia. }
  unfold sextet_ok in Hok.
  apply andb_true_iff in Hok as [Hpad Hval].
  apply negb_true_iff in Hpad.
  cbn [sextets]. rewrite Hpad.
  destruct (base64_value (base64_char v)) as [u|]; [|discriminate].
  apply N.eqb_eq in Hval. now subst.
Qed.

Local Ltac Zify.zify_post_hook ::= Z.to_euclidean_division_equations.

Lemma sextet0_lt a : (a < 256)%N -> (sextet0 a < 64)%N.
Proof. unfold sextet0. lia. Qed.

Lemma sextet1_lt a b : (b < 256)%N -> (sextet1 a b < 64)%N.
Proof. unfold sextet1. lia. Qed.

Lemma sextet2_lt b c : (c < 256)%N -> (sextet2 b c < 64)%N.
Proof. unfold sextet2. lia. Qed.

Lemma sextet3_lt c : (sextet3 c < 64)%N.
Proof. unfold sextet3. lia. Qed.

Lemma octet0_sextets a b :
  (a < 256)%N -> (b < 256)%N -> octet0 (sextet0 a) (sextet1 a b) = a.
Proof. unfold octet0, sextet0, sextet1. lia. Qed.

Lemma octet1_sextets a b c :
  (b < 256)%N -> (c < 256)%N -> octet1 (sextet1 a b) (sextet2 b c) = b.
Proof. unfold octet1, sextet1, sextet2. lia. Qed.

Lemma octet2_sextets b c :
  (c < 256)%N -> octet2 (sextet2 b c) (sextet3 c) = c.
Proof. unfold octet2, sextet2, sextet3. lia. Qed.

Lemma zero_lt_256 : (0 < 256)%N.
Proof. lia. Qed.

(** Decoding what [toString('base64')] produced gives the bytes back. *)
Lemma fromBase64_toBase64 (bs : Uint8Array) : fromBase64 (toBase64 bs) = bs.
Proof.
  unfold fromBase64.
  induction bs as [|a|a b|a b c l IH] using list_ind3.
  - reflexivity.
  - cbn [toBase64].
    pose proof (to_N_lt_256 a) as Ha.
    rewrite !sextets_char by auto using sextet0_lt, sextet1_lt, zero_lt_256.
    cbn [sextets octets]. change (Ascii.eqb "=" "=") with true. cbn [octets].
    now rewrite octet0_sextets, byte_of_to_N by (auto; lia).
  - cbn [toBase64].
    pose proof (to_N_lt_256 a) as Ha. pose proof (to_N_lt_256 b) as Hb.
    rewrite !sextets_char by auto using sextet0_lt, sextet1_lt, sextet2_lt, zero_lt_256.
    cbn [sextets]. change (Ascii.eqb "=" "=") with true. cbn [octets].
    rewrite octet0_sextets, octet1_sextets by (auto; lia).
    now rewrite !byte_of_to_N.
  - cbn [toBase64].
    pose proof (to_N_lt_256 a) as Ha. pose proof (to_N_lt_256 b) as Hb.
    pose proof (to_N_lt_256 c) as Hc.
    rewrite !sextets_char
      by auto using sextet0_lt, sextet1_lt, sextet2_lt, sextet3_lt.
    cbn [octets].
    rewrite octet0_sextets, octet1_sextets, octet2_sextets by auto.
    rewrite !byte_of_to_N. now rewrite IH.
Qed.

(* ------------------------------------------------------------------- *)
(** ** Loops that fill a map                                            *)
(* ------------------------------------------------------------------- *)

Section FillMap.
Context {K : Type} `{Countable K} {V W : Type}.

Lemma insertAll_not_in (f : V -> W) (l : list (K * V)) (acc : gmap K W) (k : K) :
  k ∉ l.*1 -> insertAll f acc l !! k = acc !! k.
Proof.
  revert acc. induction l as [|[k' v'] l IH]; intros acc Hk; [reflexivity|].
  cbn in Hk. apply not_elem_of_cons in Hk as [Hne Hk].
  unfold insertAll in *. cbn. rewrite IH by assumption.
  now rewrite lookup_insert_ne by congruence.
Qed.

Lemma insertAll_in (f : V -> W) (l : list (K * V)) (acc : gmap K W) (k : K) (v : V) :
  NoDup l.*1 -> (k, v) ∈ l -> insertAll f acc l !! k = Some (f v).
Proof.
  revert acc. induction l as [|[k' v'] l IH]; intros acc Hnd Hin.
  - now apply elem_of_nil in Hin.
  - cbn in Hnd. apply NoDup_cons in Hnd as [Hk' Hnd].
    apply elem_of_cons in Hin as [Heq|Hin].
    + injection Heq as -> ->.
      change (insertAll f (<[k' := f v']> acc) l !! k' = Some (f v')).
      rewrite insertAll_not_in by assumption. apply lookup_insert_eq.
    + change (insertAll f (<[k' := f v']> acc) l !! k = Some (f v)).
      now apply IH.
Qed.

Lemma insertAll_map_to_list (f : V -> W) (m : gmap K V) :
  insertAll f ∅ (map_to_list m) = f <$> m.
Proof.
  apply map_eq. intros k. rewrite lookup_fmap.
  destruct (m !! k) as [v|] eqn:Hk; cbn.
  - apply insertAll_in; [apply NoDup_fst_map_to_list|].
    now apply elem_of_map_to_list.
  - rewrite insertAll_not_in; [apply lookup_empty|].
    intros Hin. apply list_elem_of_fmap in Hin as ([k' v'] & -> & Hin).
    apply elem_of_map_to_list in Hin. cbn in Hk. congruence.
Qed.

(** A loop whose body stores [f value] under [key] in the map held by the
    state computes [insertAll]. *)
Section Loop.
Context {S : Type} (proj : S -> gmap K W) (upd : gmap K W -> S -> S).
Hypothesis proj_upd : forall m s, proj (upd m s) = m.
Hypothesis upd_upd : forall m m' s, upd m (upd m' s) = upd m s.
Hypothesis upd_proj : forall s, upd (proj s) s = s.

Lemma for_of_insert (f : V -> W) (l : list (K * V)) (s : S) :
  for_of l (fun kv =>
              modify (fun this => upd (<[fst kv := f (snd kv)]> (proj this)) this)) s
  = (Ok tt, upd (insertAll f (proj s) l) s).
Proof.
  revert s. induction l as [|[k v] l IH]; intros s.
  - cbn. unfold ret. now rewrite upd_proj.
  - cbn [for_of]. unfold bind at 1. unfold modify at 1.
    rewrite IH. rewrite proj_upd, upd_upd. reflexivity.
Qed.

Lemma for_of_insert_result (g : V -> Result W) (f : V -> W) (l : list (K * V)) (s : S) :
  (forall kv, kv ∈ l -> g (snd kv) = Ok (f (snd kv))) ->
  for_of l (fun kv =>
              x <- lift (g (snd kv)) ;;
              modify (fun this => upd (<[fst kv := x]> (proj this)) this)) s
  = (Ok tt, upd (insertAll f (proj s) l) s).
Proof.
  revert s. induction l as [|[k v] l IH]; intros s Hg.
  - cbn. unfold ret. now rewrite upd_proj.
  - cbn [for_of]. unfold bind at 1. unfold bind at 1. unfold lift at 1.
    rewrite (Hg (k, v)) by apply list_elem_of_here. cbn [fst snd].
    unfold modify at 1.
    rewrite IH by (intros kv Hkv; apply Hg; now apply list_elem_of_further).
    rewrite proj_upd, upd_upd. reflexivity.
Qed.

End Loop.
End FillMap.

(* ------------------------------------------------------------------- *)
(** ** What the stores' serialize and deserialize compute               *)
(* ------------------------------------------------------------------- *)

Lemma forEach_toBase64 {K} `{Countable K} (m : gmap K Uint8Array) :
  snd (forEach m
         (fun value key => modify (fun result => <[key := toBase64 value]> result))
         (∅ : gmap K string))
  = toBase64 <$> m.
Proof.
  unfold forEach.
  pose proof (for_of_insert (fun r : gmap K string => r) (fun r _ => r)
                (fun _ _ => eq_refl) (fun _ _ _ => eq_refl) (fun _ => eq_refl)
                toBase64 (map_to_list m) ∅) as E.
  cbn beta in E. rewrite E. cbn [snd]. apply insertAll_map_to_list.
Qed.

Lemma SessionStore_serialize_eq (this : InMemorySessionStore.t) :
  InMemorySessionStore.serialize this = toBase64 <$> InMemorySessionStore.state this.
Proof. apply forEach_toBase64. Qed.

Lemma PreKeyStore_serialize_eq (this : InMemoryPreKeyStore.t) :
  InMemoryPreKeyStore.serialize this = toBase64 <$> InMemoryPreKeyStore.state this.
Proof. apply forEach_toBase64. Qed.

Lemma SignedPreKeyStore_serialize_eq (this : InMemorySignedPreKeyStore.t) :
  InMemorySignedPreKeyStore.serialize this
  = toBase64 <$> InMemorySignedPreKeyStore.state this.
Proof. apply forEach_toBase64. Qed.

Lemma KyberPreKeyStore_serialize_eq (this : InMemoryKyberPreKeyStore.t) :
  InMemoryKyberPreKeyStore.serialize this
  = toBase64 <$> InMemoryKyberPreKeyStore.state this.
Proof. apply forEach_toBase64. Qed.

Lemma SessionStore_deserialize_eq (data : gmap string string)
    (this : InMemorySessionStore.t) :
  InMemorySessionStore.deserialize data this
  = (Ok tt, InMemorySessionStore.mk (fromBase64 <$> data)).
Proof.
  unfold InMemorySessionStore.deserialize, forEach.
  unfold bind at 1. unfold modify at 1. cbn iota beta.
  pose proof (for_of_insert InMemorySessionStore.state
                (fun m _ => InMemorySessionStore.mk m)
                (fun _ _ => eq_refl) (fun _ _ _ => eq_refl)
                (fun s => match s with InMemorySessionStore.mk _ => eq_refl end)
                fromBase64 (map_to_list data) (InMemorySessionStore.mk ∅)) as E.
  cbn beta in E. rewrite E. cbn [InMemorySessionStore.state].
  now rewrite insertAll_map_to_list.
Qed.

Lemma PreKeyStore_deserialize_eq (data : gmap N string) (this : InMemoryPreKeyStore.t) :
  InMemoryPreKeyStore.deserialize data this
  = (Ok tt, InMemoryPreKeyStore.mk (fromBase64 <$> data)).
Proof.
  unfold InMemoryPreKeyStore.deserialize, forEach.
  unfold bind at 1. unfold modify at 1. cbn iota beta.
  pose proof (for_of_insert InMemoryPreKeyStore.state
                (fun m _ => InMemoryPreKeyStore.mk m)
                (fun _ _ => eq_refl) (fun _ _ _ => eq_refl)
                (fun s => match s with InMemoryPreKeyStore.mk _ => eq_refl end)
                fromBase64 (map_to_list data) (InMemoryPreKeyStore.mk ∅)) as E.
  cbn beta in E. rewrite E. cbn [InMemoryPreKeyStore.state].
  now rewrite insertAll_map_to_list.
Qed.

Lemma SignedPreKeyStore_deserialize_eq (data : gmap N string)
    (this : InMemorySignedPreKeyStore.t) :
  InMemorySignedPreKeyStore.deserialize data this
  = (Ok tt, InMemorySignedPreKeyStore.mk (fromBase64 <$> data)).
Proof.
  unfold InMemorySignedPreKeyStore.deserialize, forEach.
  unfold bind at 1. unfold modify at 1. cbn iota beta.
  pose proof (for_of_insert InMemorySignedPreKeyStore.state
                (fun m _ => InMemorySignedPreKeyStore.mk m)
                (fun _ _ => eq_refl) (fun _ _ _ => eq_refl)
                (fun s => match s with InMemorySignedPreKeyStore.mk _ => eq_refl end)
                fromBase64 (map_to_list data) (InMemorySignedPreKeyStore.mk ∅)) as E.
  cbn beta in E. rewrite E. cbn [InMemorySignedPreKeyStore.state].
  now rewrite insertAll_map_to_list.
Qed.

Lemma KyberPreKeyStore_deserialize_eq (data : gmap N string)
    (this : InMemoryKyberPreKeyStore.t) :
  InMemoryKyberPreKeyStore.deserialize data this
  = (Ok tt, InMemoryKyberPreKeyStore.mk (fromBase64 <$> data)).
Proof.
  unfold InMemoryKyberPreKeyStore.deserialize, forEach.
  unfold bind at 1. unfold modify at 1. cbn iota beta.
  pose proof (for_of_insert InMemoryKyberPreKeyStore.state
                (fun m _ => InMemoryKyberPreKeyStore.mk m)
                (fun _ _ => eq_refl) (fun _ _ _ => eq_refl)
                (fun s => match s with InMemoryKyberPreKeyStore.mk _ => eq_refl end)
                fromBase64 (map_to_list data) (InMemoryKyberPreKeyStore.mk ∅)) as E.
  cbn beta in E. rewrite E. cbn [InMemoryKyberPreKeyStore.state].
  now rewrite insertAll_map_to_list.
Qed.

Lemma fmap_fromBase64_toBase64 {K} `{Countable K} (m : gmap K Uint8Array) :
  fromBase64 <$> (toBase64 <$> m) = m.
Proof.
  apply map_eq. intros k. rewrite !lookup_fmap.
  destruct (m !! k); [|reflexivity].
  cbn [fmap option_fmap option_map]. now rewrite fromBase64_toBase64.
Qed.

Lemma PublicKey_deserialize_serialize (k : PublicKey) :
  validPublicKey k = true -> PublicKey_deserialize (PublicKey_serialize k) = Ok k.
Proof.
  destruct k as [bs]. unfold validPublicKey, PublicKey_deserialize.
  cbn [PublicKey_serialize].
  destruct bs as [|b scalar]; [discriminate|].
  destruct b; try discriminate. intros Hlen. apply Nat.eqb_eq in Hlen.
  replace (32 <=? List.length scalar)%nat with true
    by (symmetry; apply Nat.leb_le; lia).
  now rewrite <- Hlen, firstn_all.
Qed.

Lemma PrivateKey_deserialize_serialize (k : PrivateKey) :
  validPrivateKey k = true -> PrivateKey_deserialize (PrivateKey_serialize k) = Ok k.
Proof.
  destruct k as [bs]. unfold validPrivateKey, PrivateKey_deserialize. cbn.
  now intros ->.
Qed.

Lemma IdentityStore_serialize_keys (this : InMemoryIdentityKeyStore.t) :
  InMemoryIdentityKeyStore.s_identityKeys (InMemoryIdentityKeyStore.serialize this)
  = (fun k => toBase64 (PublicKey_serialize k)) <$> InMemoryIdentityKeyStore.idKeys this.
Proof.
  unfold InMemoryIdentityKeyStore.serialize.
  cbn [InMemoryIdentityKeyStore.s_identityKeys]. unfold forEach.
  pose proof (for_of_insert (fun r : gmap string string => r) (fun r _ => r)
                (fun _ _ => eq_refl) (fun _ _ _ => eq_refl) (fun _ => eq_refl)
                (fun k => toBase64 (PublicKey_serialize k))
                (map_to_list (InMemoryIdentityKeyStore.idKeys this)) ∅) as E.
  cbn beta in E. rewrite E. cbn [snd]. apply insertAll_map_to_list.
Qed.

(** The instance method keeps the receiver's own key and registration id. *)
Lemma IdentityStore_deserialize_eq (keys : gmap string PublicKey)
    (identityKey : string) (registrationId : N)
    (this : InMemoryIdentityKeyStore.t) :
  map_Forall (fun _ k => validPublicKey k = true) keys ->
  InMemoryIdentityKeyStore.deserialize
    (InMemoryIdentityKeyStore.mkSerialized identityKey registrationId
       ((fun k => toBase64 (PublicKey_serialize k)) <$> keys)) this
  = (Ok tt, InMemoryIdentityKeyStore.set_idKeys keys this).
Proof.
  intros Hvalid.
  unfold InMemoryIdentityKeyStore.deserialize, forEach.
  cbn [InMemoryIdentityKeyStore.s_identityKeys].
  unfold bind at 1. unfold modify at 1.
  pose proof (for_of_insert_result InMemoryIdentityKeyStore.idKeys
                InMemoryIdentityKeyStore.set_idKeys
                (fun _ _ => eq_refl) (fun _ _ _ => eq_refl)
                (fun s => match s with InMemoryIdentityKeyStore.mk _ _ _ => eq_refl end)
                (fun v => PublicKey_deserialize (fromBase64 v))
                (fun v => mkPublicKey (fromBase64 v))
                (map_to_list ((fun k => toBase64 (PublicKey_serialize k)) <$> keys))
                (InMemoryIdentityKeyStore.set_idKeys ∅ this)) as E.
  cbn beta in E. rewrite E.
  - cbn [InMemoryIdentityKeyStore.idKeys InMemoryIdentityKeyStore.set_idKeys
           InMemoryIdentityKeyStore.localRegistrationId
           InMemoryIdentityKeyStore.identityKey].
    rewrite insertAll_map_to_list.
    assert (Hkeys : (fun v => mkPublicKey (fromBase64 v))
                      <$> ((fun k => toBase64 (PublicKey_serialize k)) <$> keys)
                    = keys).
    { apply map_eq. intros k. rewrite !lookup_fmap.
      destruct (keys !! k) as [pk|]; [|reflexivity].
      cbn [fmap option_fmap option_map]. rewrite fromBase64_toBase64.
      now destruct pk. }
    now rewrite Hkeys.
  - intros [k v] Hin. cbn [snd].
    apply elem_of_map_to_list in Hin. rewrite lookup_fmap in Hin.
    destruct (keys !! k) as [pk|] eqn:Hk; [|discriminate].
    cbn [fmap option_fmap option_map] in Hin.
    injection Hin as <-. rewrite fromBase64_toBase64.
    rewrite PublicKey_deserialize_serialize by exact (Hvalid k pk Hk).
    now destruct pk.
Qed.

(* ------------------------------------------------------------------- *)
(** ** C8: absent ids and absent sessions                               *)
(* ------------------------------------------------------------------- *)

(** C8.  Reading an id that is not in the PreKey, SignedPreKey or
    KyberPreKey store throws the store's "... not found" error and leaves
    the store as it was, whereas reading the session of an address that
    has none returns [null] without an error. *)
Theorem C8_absent_key_throws_absent_session_is_null :
  forall (id : N) (address : ProtocolAddress),
    (forall this : InMemoryPreKeyStore.t,
        InMemoryPreKeyStore.state this !! id = None ->
        InMemoryPreKeyStore.getPreKey id this
        = (Throw (mkError ("pre-key " ++ pretty id ++ " not found")), this))
    /\ (forall this : InMemorySignedPreKeyStore.t,
           InMemorySignedPreKeyStore.state this !! id = None ->
           InMemorySignedPreKeyStore.getSignedPreKey id this
           = (Throw (mkError ("signed pre-key " ++ pretty id ++ " not found")), this))
    /\ (forall this : InMemoryKyberPreKeyStore.t,
           InMemoryKyberPreKeyStore.state this !! id = None ->
           InMemoryKyberPreKeyStore.getKyberPreKey id this
           = (Throw (mkError ("kyber pre-key " ++ pretty id ++ " not found")), this))
    /\ (forall this : InMemorySessionStore.t,
           InMemorySessionStore.state this !! addressIndex address = None ->
           InMemorySessionStore.getSession address this = (Ok None, this)).
Proof.
  intros id address. split; [|split; [|split]]; intros this Habsent.
  - unfold InMemoryPreKeyStore.getPreKey, bind, get. now rewrite Habsent.
  - unfold InMemorySignedPreKeyStore.getSignedPreKey, bind, get. now rewrite Habsent.
  - unfold InMemoryKyberPreKeyStore.getKyberPreKey, bind, get. now rewrite Habsent.
  - unfold InMemorySessionStore.getSession, bind, get. now rewrite Habsent.
Qed.

Lemma C8_witness :
  InMemoryPreKeyStore.getPreKey 7 InMemoryPreKeyStore.new
  = (Throw (mkError "pre-key 7 not found"), InMemoryPreKeyStore.new)
  /\ InMemorySignedPreKeyStore.getSignedPreKey 7 InMemorySignedPreKeyStore.new
     = (Throw (mkError "signed pre-key 7 not found"), InMemorySignedPreKeyStore.new)
  /\ InMemoryKyberPreKeyStore.getKyberPreKey 7 InMemoryKyberPreKeyStore.new
     = (Throw (mkError "kyber pre-key 7 not found"), InMemoryKyberPreKeyStore.new)
  /\ InMemorySessionStore.getSession (ProtocolAddress_new "assistant" 1)
       InMemorySessionStore.new
     = (Ok None, InMemorySessionStore.new).
Proof.
  destruct (C8_absent_key_throws_absent_session_is_null 7
              (ProtocolAddress_new "assistant" 1)) as (H1 & H2 & H3 & H4).
  split; [|split; [|split]].
  - apply (H1 InMemoryPreKeyStore.new). reflexivity.
  - apply (H2 InMemorySignedPreKeyStore.new). reflexivity.
  - apply (H3 InMemoryKyberPreKeyStore.new). reflexivity.
  - apply (H4 InMemorySessionStore.new). reflexivity.
Defined.

(* ------------------------------------------------------------------- *)
(** ** C6: the result of saveIdentity                                   *)
(* ------------------------------------------------------------------- *)

Lemma everyByteEquals_suffix (bytes pre post : Uint8Array) :
  everyByteEquals bytes (pre ++ bytes ++ post) (List.length pre) = true.
Proof.
  revert pre. induction bytes as [|b bytes IH]; intros pre; [reflexivity|].
  cbn [everyByteEquals].
  rewrite lookup_app_r by reflexivity. rewrite Nat.sub_diag. cbn.
  rewrite (Byte.byte_dec_lb (eq_refl b)).
  specialize (IH (pre ++ [b])). rewrite <- app_assoc in IH. cbn in IH.
  rewrite length_app in IH. cbn in IH.
  now rewrite Nat.add_1_r in IH.
Qed.

Lemma everyByteEquals_refl (bytes : Uint8Array) :
  everyByteEquals bytes bytes 0 = true.
Proof.
  pose proof (everyByteEquals_suffix bytes [] []) as E.
  now rewrite app_nil_r in E.
Qed.

Lemma everyByteEquals_prefix (bytes other pre : Uint8Array) :
  everyByteEquals bytes (pre ++ other) (List.length pre) = true ->
  exists post, other = bytes ++ post.
Proof.
  revert other pre. induction bytes as [|b bytes IH]; intros other pre Hall.
  - now exists other.
  - cbn [everyByteEquals] in Hall.
    rewrite lookup_app_r in Hall by reflexivity. rewrite Nat.sub_diag in Hall.
    destruct other as [|o other]; [discriminate|]. cbn in Hall.
    destruct (Byte.eqb b o) eqn:Hbo; [|discriminate].
    apply Byte.byte_dec_bl in Hbo. subst o.
    specialize (IH other (pre ++ [b])).
    rewrite <- app_assoc, length_app in IH. cbn in IH.
    rewrite Nat.add_1_r in IH.
    destruct (IH Hall) as [post ->]. now exists post.
Qed.

(** Saving a key over a byte-identical one reports no change. *)
Lemma saveIdentity_same_key (name : ProtocolAddress) (key current : PublicKey)
    (this : InMemoryIdentityKeyStore.t) :
  InMemoryIdentityKeyStore.idKeys this !! addressIndex name = Some current ->
  PublicKey_serialize current = PublicKey_serialize key ->
  fst (InMemoryIdentityKeyStore.saveIdentity name key this) = Ok NewOrUnchanged.
Proof.
  intros Hcur Hbytes.
  unfold InMemoryIdentityKeyStore.saveIdentity, bind, get, modify, ret. cbn.
  rewrite Hcur, Hbytes, everyByteEquals_refl. reflexivity.
Qed.

(** Saving a key over one with other bytes of the same length reports a
    replacement. *)
Lemma saveIdentity_other_key (name : ProtocolAddress) (key current : PublicKey)
    (this : InMemoryIdentityKeyStore.t) :
  InMemoryIdentityKeyStore.idKeys this !! addressIndex name = Some current ->
  List.length (PublicKey_serialize current) = List.length (PublicKey_serialize key) ->
  PublicKey_serialize current <> PublicKey_serialize key ->
  fst (InMemoryIdentityKeyStore.saveIdentity name key this) = Ok ReplacedExisting.
Proof.
  intros Hcur Hlen Hne.
  unfold InMemoryIdentityKeyStore.saveIdentity, bind, get, modify, ret. cbn.
  rewrite Hcur.
  destruct (everyByteEquals (PublicKey_serialize current) (PublicKey_serialize key) 0)
    eqn:Hall; [|reflexivity].
  exfalso. apply Hne.
  destruct (everyByteEquals_prefix _ _ [] Hall) as [post Hpost].
  rewrite Hpost in Hlen |- *. rewrite length_app in Hlen.
  destruct post; [now rewrite app_nil_r|cbn in Hlen; lia].
Qed.

(** C6 (what the code does).  The first key saved for an address, on a
    store that holds no key at all, is reported as [ReplacedExisting]:
    [changed] starts as [true] and is only recomputed when a key was
    already stored. *)
Theorem C6_first_save_reports_replaced :
  forall (identityKey : PrivateKey) (registrationId : N)
         (name : ProtocolAddress) (key : PublicKey),
    fst (InMemoryIdentityKeyStore.saveIdentity name key
           (InMemoryIdentityKeyStore.new identityKey registrationId))
    = Ok ReplacedExisting.
Proof.
  intros identityKey registrationId name key.
  unfold InMemoryIdentityKeyStore.saveIdentity, bind, get, modify, ret. cbn.
  now rewrite lookup_empty.
Qed.

(* ------------------------------------------------------------------- *)
(** ** C9: round trip of a store collection                             *)
(* ------------------------------------------------------------------- *)

Lemma wellFormedStores_Forall (stores : SignalStores) :
  wellFormedStores stores = true ->
  map_Forall (fun _ k => validPublicKey k = true)
    (InMemoryIdentityKeyStore.idKeys (Store.identity stores)).
Proof.
  unfold wellFormedStores. rewrite forallb_forall.
  intros Hall k pk Hk. apply (Hall (k, pk)).
  apply list_elem_of_In. now apply elem_of_map_to_list.
Qed.




(* ------------------------------------------------------------------- *)

(** ** C10: registration ids                                            *)
(* ------------------------------------------------------------------- *)

Lemma round_to_53_bits_lt (x : N) :
  (x <= (2 ^ 53 - 1) * 16380)%N -> (round_to_53_bits x < 16380 * 2 ^ 53)%N.
Proof.
  intros Hx. unfold round_to_53_bits.
  destruct (N.leb_spec (N.log2 x) 52) as [Hsmall|Hbig]; [lia|].
  assert (Hpos : (0 < x)%N).
  { destruct x; [cbn in Hbig; lia|lia]. }
  assert (Hlog : (N.log2 x < 67)%N).
  { apply N.log2_lt_pow2; [assumption|]. lia. }
  set (sh := (N.log2 x - 52)%N) in *.
  assert (Hsh : (1 <= sh <= 14)%N) by lia.
  rewrite N.shiftr_div_pow2, !N.shiftl_mul_pow2, N.mul_1_l.
  assert (HP : (2 ^ sh = 2 * 2 ^ (sh - 1))%N).
  { rewrite <- N.pow_succ_r'. f_equal. lia. }
  assert (HH : (2 ^ (sh - 1) <= 2 ^ 13)%N) by (apply N.pow_le_mono_r; lia).
  pose proof (N.Div0.mul_div_le x (2 ^ sh)) as Hq.
  rewrite N.mul_comm in Hq.
  remember (x / 2 ^ sh)%N as q eqn:Eq.
  remember (2 ^ (sh - 1))%N as half eqn:Ehalf.
  rewrite HP in *. clear Eq Ehalf HP.
  change (2 ^ 13)%N with 8192%N in HH.
  change (2 ^ 53)%N with 9007199254740992%N in *.
  destruct (N.ltb_spec half (x - q * (2 * half))) as [Hup|Hdown].
  - rewrite N.mul_succ_l. lia.
  - destruct (N.eqb_spec (x - q * (2 * half)) half) as [Htie|Hlow].
    + destruct (N.odd q); [rewrite N.mul_succ_l|]; lia.
    + lia.
Qed.

Lemma registrationId_range (r : N) :
  (r < 2 ^ 53)%N ->
  (1 <= Math_floor (double_mul r 16380) + 1 <= 16380)%N.
Proof.
  intros Hr. unfold Math_floor, double_mul.
  assert (Hlt : (round_to_53_bits (r * 16380) < 16380 * 2 ^ 53)%N).
  { apply round_to_53_bits_lt. change (2 ^ 53)%N with 9007199254740992%N in *. lia. }
  assert (Hdiv : (round_to_53_bits (r * 16380) / 2 ^ 53 < 16380)%N).
  { apply N.Div0.div_lt_upper_bound. lia. }
  lia.
Qed.

Lemma generateRegistrationId_eq (w : World) :
  generateRegistrationId w
  = (Ok (Math_floor (double_mul (nextRandom w) 16380) + 1)%N,
     mkWorld (csprng w)
       (mkOracle (feed (mathRandom w)) (S (cursor (mathRandom w)))) (clock w)
       (toString36 w) (fileSystem w)).
Proof. reflexivity. Qed.

Lemma PrivateKey_generate_ok (w : World) :
  exists k w',
    PrivateKey_generate w = (Ok k, w')
    /\ mathRandom w' = mathRandom w
    /\ validPrivateKey k = true.
Proof.
  eexists _, _. split; [reflexivity|]. split; [reflexivity|].
  unfold validPrivateKey. cbn [PrivateKey_serialize].
  now rewrite length_map, length_seq.
Qed.

Lemma KEMKeyPair_generate_ok (w : World) :
  exists kp w',
    KEMKeyPair_generate w = (Ok kp, w') /\ mathRandom w' = mathRandom w.
Proof. eexists _, _. split; reflexivity. Qed.

Lemma sign_ok (k : PrivateKey) (msg : Uint8Array) (w : World) :
  exists signature w',
    sign k msg w = (Ok signature, w') /\ mathRandom w' = mathRandom w.
Proof. eexists _, _. split; reflexivity. Qed.

Lemma Date_now_ok (w : World) :
  exists t w', Date_now w = (Ok t, w') /\ mathRandom w' = mathRandom w.
Proof. eexists _, _. split; reflexivity. Qed.

Lemma preKeyLoop_ok (count : nat) (i : N) (acc : list PreKeyData) (w : World) :
  exists l w',
    preKeyLoop count i acc w = (Ok l, w') /\ mathRandom w' = mathRandom w.
Proof.
  revert i acc w. induction count as [|count IH]; intros i acc w.
  - eexists _, _. split; reflexivity.
  - cbn [preKeyLoop].
    destruct (PrivateKey_generate_ok w) as (k & w1 & E1 & M1 & _).
    unfold bind at 1. rewrite E1.
    destruct (IH (N.succ i) (acc ++ [mkPreKeyData i (getPublicKey k) k]) w1)
      as (l & w2 & E2 & M2).
    exists l, w2. split; [exact E2|congruence].
Qed.

(** Bundle creation never throws, and its registration id is the one
    computed from the next value of [Math.random]. *)
Lemma createIdentityBundle_registrationId (w : World) :
  exists bundle w',
    createIdentityBundle w = (Ok bundle, w')
    /\ registrationId bundle
       = (Math_floor (double_mul (nextRandom w) 16380) + 1)%N.
Proof.
  unfold createIdentityBundle.
  destruct (PrivateKey_generate_ok w) as (k & w1 & E1 & M1 & _).
  unfold bind at 1. rewrite E1.
  unfold bind at 1. rewrite generateRegistrationId_eq.
  unfold bind at 1.
  match goal with |- context [PrivateKey_generate ?w2] =>
    destruct (PrivateKey_generate_ok w2) as (k2 & w3 & E3 & _) end.
  rewrite E3.
  unfold bind at 1.
  match goal with |- context [sign ?sk ?msg ?w0] =>
    destruct (sign_ok sk msg w0) as (sg1 & ws1 & Es1 & _) end.
  rewrite Es1.
  unfold bind at 1.
  match goal with |- context [preKeyLoop ?c ?i ?a ?w4] =>
    destruct (preKeyLoop_ok c i a w4) as (l & w5 & E5 & _) end.
  rewrite E5.
  unfold bind at 1.
  match goal with |- context [KEMKeyPair_generate ?w6] =>
    destruct (KEMKeyPair_generate_ok w6) as (kp & w7 & E7 & _) end.
  rewrite E7.
  unfold bind at 1.
  match goal with |- context [sign ?sk ?msg ?w0] =>
    destruct (sign_ok sk msg w0) as (sg2 & ws2 & Es2 & _) end.
  rewrite Es2.
  unfold bind at 1.
  match goal with |- context [Date_now ?w8] =>
    destruct (Date_now_ok w8) as (t1 & w9 & E9 & _) end.
  rewrite E9.
  unfold bind at 1.
  match goal with |- context [Date_now ?w10] =>
    destruct (Date_now_ok w10) as (t2 & w11 & E11 & _) end.
  rewrite E11.
  eexists _, _. split; [reflexivity|].
  cbn [registrationId]. unfold nextRandom. now rewrite M1.
Qed.

(** C10 (amended).  Bundle creation always returns, its registration id
    lies in [1, 16380], and the id is [Math.floor(Math.random() * 16380) +
    1] for the next value of [Math.random]: it is read from the state of
    [Math.random] and not from the secure generator that serves the key
    material. *)
Theorem C10_registration_id_in_range_from_Math_random :
  forall w : World,
    match createIdentityBundle w with
    | (Ok bundle, _) =>
        (1 <= registrationId bundle <= 16380)%N
        /\ registrationId bundle
           = (Math_floor (double_mul (nextRandom w) 16380) + 1)%N
    | (Throw _, _) => False
    end.
Proof.
  intros w.
  destruct (createIdentityBundle_registrationId w) as (bundle & w' & E & Hid).
  rewrite E. split; [|exact Hid].
  rewrite Hid. apply registrationId_range.
  unfold nextRandom. apply N.mod_lt. discriminate.
Qed.

(** C10 (as stated) fails: were the id selected with the secure source,
    two runs that read the same secure bytes would select the same id.
    Here the secure generator is the same and the ids differ with the
    state of [Math.random]. *)
Lemma C10_counterexample :
  let w1 := Fixture.world0 in
  let w2 := withMathRandom (mkOracle (fun _ => 0%N) 0) Fixture.world0 in
  csprng w1 = csprng w2
  /\ (registrationId <$> (match fst (createIdentityBundle w1) with
                          | Ok b => Some b | Throw _ => None end)) = Some 8191%N
  /\ (registrationId <$> (match fst (createIdentityBundle w2) with
                          | Ok b => Some b | Throw _ => None end)) = Some 1%N.
Proof.
  cbv zeta. split; [reflexivity|]. split; vm_compute; reflexivity.
Qed.

(* ------------------------------------------------------------------- *)
(** ** C4: identity bundle round trip                                   *)
(* ------------------------------------------------------------------- *)

Lemma deserializePreKey_serializePreKey (pk : PreKeyData) :
  wellFormedPreKey pk = true ->
  deserializePreKey (serializePreKey pk) = Ok pk.
Proof.
  unfold wellFormedPreKey. intros [Hpub Hpriv]%andb_true_iff.
  unfold deserializePreKey, serializePreKey.
  cbn [s_pk_id s_pk_publicKey s_pk_privateKey].
  rewrite !fromBase64_toBase64.
  rewrite PublicKey_deserialize_serialize, PrivateKey_deserialize_serialize by assumption.
  now destruct pk.
Qed.

Lemma map_result_deserializePreKey (l : list PreKeyData) :
  forallb wellFormedPreKey l = true ->
  map_result deserializePreKey (map serializePreKey l) = Ok l.
Proof.
  induction l as [|pk l IH]; intros Hall; [reflexivity|].
  cbn in Hall. apply andb_true_iff in Hall as [Hpk Hl].
  cbn [map map_result].
  now rewrite deserializePreKey_serializePreKey, IH by assumption.
Qed.

(** A call through the reference to the user's or the assistant's
    collection of a heap is the call on that collection. *)
Lemma deserializeStores_userStoresOf (data : SerializedStores) (h : Heap) :
  deserializeStores data userStoresOf h
  = (fst (deserializeStores data self (heapUser h)),
     mkHeap (runtime h) (snd (deserializeStores data self (heapUser h))) (heapAssistant h)).
Proof.
  destruct h as [rt [s i p sp k] a].
  unfold deserializeStores, bind, call, zoom, session_of, identity_of, preKey_of,
    signedPreKey_of, kyberPreKey_of, field, self, userStoresOf.
  cbn [rget rset heapUser runtime heapAssistant Store.session Store.identity Store.preKey
       Store.signedPreKey Store.kyberPreKey].
  destruct (InMemorySessionStore.deserialize (ser_session data) s) as [[[]|e] s'];
    cbn [fst snd rget rset heapUser runtime heapAssistant Store.session Store.identity
         Store.preKey Store.signedPreKey Store.kyberPreKey]; [|reflexivity].
  cbn [fst snd rget rset heapUser runtime heapAssistant Store.session Store.identity
       Store.preKey Store.signedPreKey Store.kyberPreKey].
  destruct (InMemoryIdentityKeyStore.deserialize (ser_identity data) i) as [[[]|e] i'];
    cbn [fst snd rget rset heapUser runtime heapAssistant Store.session Store.identity
         Store.preKey Store.signedPreKey Store.kyberPreKey]; [|reflexivity].
  cbn [fst snd rget rset heapUser runtime heapAssistant Store.session Store.identity
       Store.preKey Store.signedPreKey Store.kyberPreKey].
  destruct (InMemoryPreKeyStore.deserialize (ser_preKey data) p) as [[[]|e] p'];
    cbn [fst snd rget rset heapUser runtime heapAssistant Store.session Store.identity
         Store.preKey Store.signedPreKey Store.kyberPreKey]; [|reflexivity].
  cbn [fst snd rget rset heapUser runtime heapAssistant Store.session Store.identity
       Store.preKey Store.signedPreKey Store.kyberPreKey].
  destruct (InMemorySignedPreKeyStore.deserialize (ser_signedPreKey data) sp)
    as [[[]|e] sp'];
    cbn [fst snd rget rset heapUser runtime heapAssistant Store.session Store.identity
         Store.preKey Store.signedPreKey Store.kyberPreKey]; [|reflexivity].
  cbn [fst snd rget rset heapUser runtime heapAssistant Store.session Store.identity
       Store.preKey Store.signedPreKey Store.kyberPreKey].
  now destruct (InMemoryKyberPreKeyStore.deserialize (ser_kyberPreKey data) k)
    as [[[]|e] k'].
Qed.

Lemma deserializeStores_assistantStoresOf (data : SerializedStores) (h : Heap) :
  deserializeStores data assistantStoresOf h
  = (fst (deserializeStores data self (heapAssistant h)),
     mkHeap (runtime h) (heapUser h) (snd (deserializeStores data self (heapAssistant h)))).
Proof.
  destruct h as [rt u [s i p sp k]].
  unfold deserializeStores, bind, call, zoom, session_of, identity_of, preKey_of,
    signedPreKey_of, kyberPreKey_of, field, self, assistantStoresOf.
  cbn [rget rset heapUser runtime heapAssistant Store.session Store.identity Store.preKey
       Store.signedPreKey Store.kyberPreKey].
  destruct (InMemorySessionStore.deserialize (ser_session data) s) as [[[]|e] s'];
    cbn [fst snd rget rset heapUser runtime heapAssistant Store.session Store.identity
         Store.preKey Store.signedPreKey Store.kyberPreKey]; [|reflexivity].
  cbn [fst snd rget rset heapUser runtime heapAssistant Store.session Store.identity
       Store.preKey Store.signedPreKey Store.kyberPreKey].
  destruct (InMemoryIdentityKeyStore.deserialize (ser_identity data) i) as [[[]|e] i'];
    cbn [fst snd rget rset heapUser runtime heapAssistant Store.session Store.identity
         Store.preKey Store.signedPreKey Store.kyberPreKey]; [|reflexivity].
  cbn [fst snd rget rset heapUser runtime heapAssistant Store.session Store.identity
       Store.preKey Store.signedPreKey Store.kyberPreKey].
  destruct (InMemoryPreKeyStore.deserialize (ser_preKey data) p) as [[[]|e] p'];
    cbn [fst snd rget rset heapUser runtime heapAssistant Store.session Store.identity
         Store.preKey Store.signedPreKey Store.kyberPreKey]; [|reflexivity].
  cbn [fst snd rget rset heapUser runtime heapAssistant Store.session Store.identity
       Store.preKey Store.signedPreKey Store.kyberPreKey].
  destruct (InMemorySignedPreKeyStore.deserialize (ser_signedPreKey data) sp)
    as [[[]|e] sp'];
    cbn [fst snd rget rset heapUser runtime heapAssistant Store.session Store.identity
         Store.preKey Store.signedPreKey Store.kyberPreKey]; [|reflexivity].
  cbn [fst snd rget rset heapUser runtime heapAssistant Store.session Store.identity
       Store.preKey Store.signedPreKey Store.kyberPreKey].
  now destruct (InMemoryKyberPreKeyStore.deserialize (ser_kyberPreKey data) k)
    as [[[]|e] k'].
Qed.

Lemma loadSession_eq (dataDir : string) (rt : Runtime) :
  loadSession dataDir rt
  = (match files rt !! path_join dataDir SESSION_FILE with
     | None => Ok None
     | Some (Unreadable e) => Throw e
     | Some (RegularFile content) => JSON_parse content
     end, rt).
Proof.
  unfold loadSession, fs_existsSync, fs_readFileSync, bind, get, ret, lift, throw.
  cbn [fst snd].
  destruct (files rt !! path_join dataDir SESSION_FILE) as [[content|e]|] eqn:E;
    cbn [negb]; rewrite ?E; reflexivity.
Qed.

(** What [restoreSession] computes, case by case. *)
Lemma restoreSession_eq (dataDir : string) (rt : Runtime) :
  restoreSession dataDir rt
  = match files rt !! path_join dataDir SESSION_FILE with
    | None => (Ok None, rt)
    | Some (Unreadable e) => (Throw e, rt)
    | Some (RegularFile TextNotJson) =>
        (Throw (mkError "SyntaxError: JSON Parse error"), rt)
    | Some (RegularFile TextOfFalsy) => (Ok None, rt)
    | Some (RegularFile (TextOfSession sessionData)) =>
        match deserializeIdentityBundle (userIdentity sessionData) (world rt) with
        | (Throw e, w1) => (Throw e, mkRuntime w1 (files rt) (console rt))
        | (Ok userBundle, w1) =>
            match deserializeIdentityBundle (assistantIdentity sessionData) w1 with
            | (Throw e, w2) => (Throw e, mkRuntime w2 (files rt) (console rt))
            | (Ok assistantBundle, w2) =>
                match deserializeStores (userStores sessionData) self
                        (newStores userBundle) with
                | (Throw e, _) =>
                    (Ok None,
                     mkRuntime w2 (files rt)
                       (console rt ++
                          [("Failed to restore session stores, creating new session: "
                              ++ message e)%string]))
                | (Ok _, restoredUser) =>
                    match deserializeStores (assistantStores sessionData) self
                            (newStores assistantBundle) with
                    | (Throw e, _) =>
                        (Ok None,
                         mkRuntime w2 (files rt)
                           (console rt ++
                              [("Failed to restore session stores, creating new session: "
                                  ++ message e)%string]))
                    | (Ok _, restoredAssistant) =>
                        (Ok (Some (mkSessionContext sessionData restoredUser
                                     restoredAssistant)),
                         mkRuntime w2 (files rt) (console rt))
                    end
                end
            end
        end
    end.
Proof.
  unfold restoreSession. unfold bind at 1. rewrite loadSession_eq.
  destruct (files rt !! path_join dataDir SESSION_FILE) as [[[sd| |]|e]|];
    try reflexivity.
  cbn [JSON_parse].
  unfold bind at 1. unfold call at 1, zoom at 1, worldOf at 1 2. cbn [rget rset].
  destruct (deserializeIdentityBundle (userIdentity sd) (world rt)) as [[ub|e] w1];
    [|reflexivity].
  unfold bind at 1. unfold call at 1, zoom at 1, worldOf at 1 2. cbn [rget rset world files console].
  destruct (deserializeIdentityBundle (assistantIdentity sd) w1) as [[ab|e] w2];
    [|reflexivity].
  unfold withStores, try_catch. unfold bind at 1.
  rewrite deserializeStores_userStoresOf. cbn [heapUser runtime heapAssistant].
  destruct (deserializeStores (userStores sd) self (newStores ub)) as [[[]|e] us];
    cbn [fst snd].
  - unfold bind at 1. rewrite deserializeStores_assistantStoresOf.
    cbn [heapUser runtime heapAssistant].
    destruct (deserializeStores (assistantStores sd) self (newStores ab)) as [[[]|e] as_];
      cbn [fst snd].
    + destruct rt; reflexivity.
    + reflexivity.
  - reflexivity.
Qed.



(** What [deserializeIdentityBundle] returns for a serialized well-formed
    bundle. *)
Lemma deserializeIdentityBundle_serialized (bundle : IdentityBundle) (w : World) :
  wellFormedBundle bundle = true ->
  deserializeIdentityBundle (serializeIdentityBundle bundle) w
  = (forPublic <- KEMKeyPair_generate ;;
     forSecret <- KEMKeyPair_generate ;;
     ret (mkIdentityBundle
            (registrationId bundle)
            (identityKeyPair bundle)
            (signedPreKey bundle)
            (preKeys bundle)
            (mkKyberPreKeyData
               (kpk_id (kyberPreKey bundle))
               (kpk_timestamp (kyberPreKey bundle))
               (KEMKeyPair_getPublicKey forPublic)
               (KEMKeyPair_getSecretKey forSecret)
               (kpk_signature (kyberPreKey bundle))))) w.
Proof.
  intros Hwf.
  destruct bundle as [regId [idPriv idPub] [sid sts spub spriv ssig] pks
                        [kid kts kpub ksec ksig]].
  unfold wellFormedBundle in Hwf.
  cbn [identityKeyPair signedPreKey preKeys ikp_privateKey ikp_publicKey
       spk_publicKey spk_privateKey] in Hwf.
  apply andb_true_iff in Hwf as [Hwf Hpks].
  apply andb_true_iff in Hwf as [Hwf Hspriv].
  apply andb_true_iff in Hwf as [Hwf Hspub].
  apply andb_true_iff in Hwf as [Hidpriv Hidpub].
  unfold deserializeIdentityBundle, serializeIdentityBundle.
  cbn [registrationId identityKeyPair signedPreKey preKeys kyberPreKey
       ikp_privateKey ikp_publicKey spk_id spk_timestamp spk_publicKey
       spk_privateKey spk_signature kpk_id kpk_timestamp kpk_publicKey
       kpk_secretKey kpk_signature
       s_registrationId s_identityKeyPair s_signedPreKey s_preKeys s_kyberPreKey
       s_privateKey s_publicKey s_spk_id s_spk_timestamp s_spk_publicKey
       s_spk_privateKey s_spk_signature s_kpk_id s_kpk_timestamp s_kpk_publicKey
       s_kpk_secretKey s_kpk_signature].
  rewrite !fromBase64_toBase64.
  rewrite !PublicKey_deserialize_serialize, !PrivateKey_deserialize_serialize
    by assumption.
  change (map (fun pk => mkSerializedPreKey (pk_id pk)
                           (toBase64 (PublicKey_serialize (pk_publicKey pk)))
                           (toBase64 (PrivateKey_serialize (pk_privateKey pk)))) pks)
    with (map serializePreKey pks).
  rewrite map_result_deserializePreKey by assumption.
  reflexivity.
Qed.


Lemma Fixture_bundle_ok :
  match fst (createIdentityBundle Fixture.world0) with
  | Ok bundle => wellFormedBundle bundle = true
  | Throw _ => False
  end.
Proof. vm_compute. reflexivity. Qed.



(* ------------------------------------------------------------------- *)

(** ** C3 and C1: the Kyber pre-key of a fresh session                  *)
(* ------------------------------------------------------------------- *)

(** The pre-key loop of [populateStores] only fills the pre-key store. *)
Lemma for_of_savePreKey (l : list PreKeyData) (h : Heap) :
  exists preKeys',
    for_of l
      (fun preKey =>
         PreKeyStore_savePreKey (preKeyStore userStoresOf) (pk_id preKey)
           (PreKeyRecord_new (pk_id preKey) (pk_publicKey preKey) (pk_privateKey preKey))) h
    = (Ok tt,
       mkHeap (runtime h)
         (mkSignalStores (Store.session (heapUser h)) (Store.identity (heapUser h))
            preKeys' (Store.signedPreKey (heapUser h))
            (Store.kyberPreKey (heapUser h)))
         (heapAssistant h)).
Proof.
  revert h. induction l as [|pk l IH]; intros h.
  - exists (Store.preKey (heapUser h)). now destruct h as [rt [] a].
  - cbn [for_of]. unfold bind at 1.
    destruct (IH (snd (PreKeyStore_savePreKey (preKeyStore userStoresOf) (pk_id pk)
           (PreKeyRecord_new (pk_id pk) (pk_publicKey pk) (pk_privateKey pk)) h)))
      as [preKeys' E].
    exists preKeys'. 
    unfold preKeyStore, PreKeyStore_savePreKey, call, zoom, preKey_of, field,
      userStoresOf, InMemoryPreKeyStore.savePreKey, modify in *.
    cbn [rget rset fst snd heapUser runtime heapAssistant Store.session
         Store.identity Store.preKey Store.signedPreKey Store.kyberPreKey] in *.
    exact E.
Qed.

(** For every bundle and every state, [populateStores] returns and leaves
    under the bundle's Kyber pre-key id a record whose key pair was
    generated from the next 32 secure bytes; the bundle supplies only the
    id, the timestamp and the signature. *)
Lemma populateStores_stores_generated_pair (bundle : IdentityBundle) (h : Heap) :
  let seed := secureBytes (world (runtime h)) 0 32 in
  let result := populateStores heapEntropy bundle userStoresOf h in
  fst result = Ok tt
  /\ InMemoryKyberPreKeyStore.state (Store.kyberPreKey (heapUser (snd result)))
       !! kpk_id (kyberPreKey bundle)
     = Some (KyberPreKeyRecord_serialize
               (KyberPreKeyRecord_new
                  (kpk_id (kyberPreKey bundle))
                  (kpk_timestamp (kyberPreKey bundle))
                  (mkKEMKeyPair (mkKEMPublicKey (x08 :: seed)) (mkKEMSecretKey seed))
                  (kpk_signature (kyberPreKey bundle)))).
Proof.
  cbv zeta. unfold populateStores. unfold bind.
  destruct (for_of_savePreKey (preKeys bundle) h) as [preKeys' ->].
  unfold KEMKeyPair_generate, secureRandomBytes, draw.
  unfold bind, signedPreKeyStore, kyberPreKeyStore, SignedPreKeyStore_saveSignedPreKey,
    KyberPreKeyStore_saveKyberPreKey, heapEntropy, call, zoom, signedPreKey_of,
    kyberPreKey_of, field, userStoresOf, runtimeOf, worldOf,
    InMemorySignedPreKeyStore.saveSignedPreKey, InMemoryKyberPreKeyStore.saveKyberPreKey,
    modify, KEMKeyPair_generate, secureRandomBytes, draw, ret, secureBytes.
  cbn [rget rset fst snd heapUser runtime heapAssistant Store.session
       Store.identity Store.preKey Store.signedPreKey Store.kyberPreKey world
       InMemoryKyberPreKeyStore.state csprng feed cursor].
  split; [reflexivity|].
  rewrite lookup_insert_eq. rewrite Nat.add_0_r. reflexivity.
Qed.

Lemma Fixture_created_ok :
  match fst Fixture.created with Ok _ => True | Throw _ => False end.
Proof. vm_compute. exact I. Qed.

(** The session data written at creation holds the two bundles above. *)
Lemma Scenario_bundles_are_the_session's :
  userIdentity (ctx_sessionData Fixture.context0)
  = serializeIdentityBundle Scenario.userBundle
  /\ assistantIdentity (ctx_sessionData Fixture.context0)
     = serializeIdentityBundle Scenario.assistantBundle.
Proof. split; vm_compute; reflexivity. Qed.

(** C3 (what the code does).  In the freshly created session the Kyber
    store of the user holds, under the bundle's Kyber pre-key id, a key
    pair whose public key is not the one of the bundle (the one
    [establishSession] puts into the user's pre-key bundle) and whose
    secret key is not the bundle's secret key. *)
Theorem C3_stored_kyber_pair_is_not_the_bundle's :
  match Scenario.storedKyberKeyPair
          (kpk_id (kyberPreKey Scenario.userBundle))
          (ctx_userStores Fixture.context0) with
  | Some stored =>
      Scenario.KEMPublicKey_eqb (KEMKeyPair_getPublicKey stored)
        (kpk_publicKey (kyberPreKey Scenario.userBundle)) = false
      /\ Scenario.KEMSecretKey_eqb (KEMKeyPair_getSecretKey stored)
           (kpk_secretKey (kyberPreKey Scenario.userBundle)) = false
  | None => False
  end.
Proof. vm_compute. split; reflexivity. Qed.

(** With the bundles' own Kyber pairs in the stores, either party can
    send first and the other reads the plaintext. *)
Lemma repaired_session_round_trips :
  fst (Scenario.userToAssistant "hello" Scenario.repaired) = Ok (text "hello")
  /\ fst (Scenario.assistantToUser "hi back" Scenario.repaired) = Ok (text "hi back").
Proof. split; vm_compute; reflexivity. Qed.

(** C1 (what the code does).  In the freshly created session a message
    encrypted by the user is rejected when the assistant decrypts it, and
    so is a message encrypted by the assistant when the user decrypts it:
    the receiver decapsulates with the unrelated Kyber secret key that
    [populateStores] stored, derives other keys and the authentication
    fails. *)
Theorem C1_fresh_session_rejects_first_message :
  fst (Scenario.userToAssistant "hello" Scenario.fresh)
  = Throw (mkError "MAC verification failed")
  /\ fst (Scenario.assistantToUser "hello" Scenario.fresh)
     = Throw (mkError "MAC verification failed").
Proof. split; vm_compute; reflexivity. Qed.

(* ------------------------------------------------------------------- *)
(** ** Operations only touch the collection they are given              *)
(* ------------------------------------------------------------------- *)

Section Touches.
Context {G T : Type} (r : Ref G T) (Hr : LawfulRef r).

Lemma touches_ret {A} (a : A) : touches r (ret a).
Proof. intros s. exists (rget r s). cbn. now rewrite (rset_rget r Hr). Qed.

Lemma touches_throw {A} (e : JsError) : touches r (throw (A := A) e).
Proof. intros s. exists (rget r s). cbn. now rewrite (rset_rget r Hr). Qed.

Lemma touches_lift {A} (x : Result A) : touches r (lift x).
Proof. intros s. exists (rget r s). cbn. now rewrite (rset_rget r Hr). Qed.

Lemma touches_bind {A B} (m : M G A) (k : A -> M G B) :
  touches r m -> (forall a, touches r (k a)) -> touches r (bind m k).
Proof.
  intros Hm Hk s. unfold bind.
  destruct (Hm s) as [t Ht]. destruct (m s) as [[a|e] s1]; cbn in Ht; subst s1.
  - destruct (Hk a (rset r t s)) as [t' Ht']. exists t'.
    rewrite Ht'. apply (rset_rset r Hr).
  - now exists t.
Qed.

Lemma touches_call_field {U A} (proj : T -> U) (upd : U -> T -> T) (m : M U A) :
  touches r (call (field r proj upd) m).
Proof.
  intros s. unfold call, zoom, field. cbn [rget rset].
  destruct (m (proj (rget r s))) as [x u]. cbn. now eexists.
Qed.

End Touches.

Ltac touches_step :=
  first
    [ apply touches_ret; assumption
    | apply touches_throw; assumption
    | apply touches_lift; assumption
    | apply touches_call_field
    | apply touches_bind; [assumption| |intros]
    | match goal with
      | |- touches _ (match ?x with _ => _ end) => destruct x
      end ].

Ltac unfold_engine :=
  unfold Session.encryptMessage, Session.decryptMessage, signalEncrypt,
    signalDecryptPreKey, signalDecrypt, processPreKey;
  unfold sessionStore, identityStore, preKeyStore, signedPreKeyStore,
    kyberPreKeyStore;
  cbn [SessionStore_getSession SessionStore_saveSession
       IdentityKeyStore_isTrustedIdentity IdentityKeyStore_saveIdentity
       IdentityKeyStore_getIdentityKey PreKeyStore_getPreKey
       PreKeyStore_removePreKey SignedPreKeyStore_getSignedPreKey
       KyberPreKeyStore_getKyberPreKey KyberPreKeyStore_markKyberPreKeyUsed];
  unfold session_of, identity_of, preKey_of, signedPreKey_of, kyberPreKey_of.

Lemma encryptMessage_touches {G} (r : Ref G SignalStores) (plaintext : Text)
    (name : string) :
  LawfulRef r -> touches r (encryptMessage plaintext name r).
Proof. intros Hr. unfold_engine. cbv zeta. repeat touches_step. Qed.


(* ------------------------------------------------------------------- *)

(** ** C7: restoring the message history                                *)
(* ------------------------------------------------------------------- *)

Lemma userStoresRef_lawful : LawfulRef userStoresRef.
Proof. split; [reflexivity|]. now intros []. Qed.

Lemma assistantStoresRef_lawful : LawfulRef assistantStoresRef.
Proof. split; [reflexivity|]. now intros []. Qed.





Lemma saveSession_eq (dataDir : string) (data : SessionData) (rt : Runtime) :
  saveSession dataDir data rt
  = match fsAnswerAt 0 (world rt) with
    | FsFailed e _ => (Throw e, afterFsOnly 1 rt)
    | FsDone =>
        match fsAnswerAt 1 (world rt) with
        | FsDone => (Ok tt, afterSave dataDir (TextOfSession data) rt)
        | FsFailed e damaged =>
            (Throw e,
             if damaged then afterSave dataDir TextNotJson rt else afterFsOnly 2 rt)
        end
    end.
Proof.
  destruct rt as [[sec rnd clk digits [answers position]] fl con].
  unfold saveSession, fs_mkdirSync, fs_writeFileSync, fsAnswerAt, afterFsOnly,
    afterSave, afterFsAnswers, JSON_stringify.
  unfold bind at 1. unfold bind at 1. unfold call, zoom, fsAnswer, read.
  cbn [world files console fileSystem feed cursor csprng mathRandom clock toString36
       rget rset worldOf fst snd].
  rewrite Nat.add_0_r, Nat.add_1_r.
  replace (position + 2) with (S (S position)) by lia.
  destruct (answers position) as [|e damaged]; [|reflexivity].
  unfold ret, bind at 1. unfold bind at 1.
  cbn [world files console fileSystem feed cursor csprng mathRandom clock toString36
       rget rset worldOf fst snd].
  destruct (answers (S position)) as [|e damaged]; [reflexivity|].
  destruct damaged; reflexivity.
Qed.

Section LoadMessages.
Variable dataDir : string.
Variable modelProp : string.


End LoadMessages.


(** The program takes that branch on its own sessions: started on the
    file of a created session in which one message was exchanged, both
    records fail to decrypt, the history is cleared and the banner is
    set. *)
Lemma history_cleared_on_start_after_first_exchange :
  List.length (messages (st_sessionData Restart.createdStart)) = 2
  /\ fst Restart.createdLoad = Ok tt
  /\ console (st_runtime (snd Restart.createdLoad))
     = ["Failed to decrypt message: MAC verification failed";
        "Failed to decrypt message: MAC verification failed";
        "Session appears corrupted, clearing message history"]
  /\ messages (st_sessionData (snd Restart.createdLoad)) = []
  /\ st_messages (snd Restart.createdLoad) = []
  /\ st_error (snd Restart.createdLoad)
     = Some "Session corrupted. Message history cleared. Starting fresh."
  /\ Submission.durable (snd Restart.createdLoad)
     = Some (st_sessionData (snd Restart.createdLoad)).
Proof.
  do 6 (split; [vm_compute; reflexivity|]).
  vm_compute; reflexivity.
Qed.

(* ------------------------------------------------------------------- *)
(** ** C2: what the persistence step writes                             *)
(* ------------------------------------------------------------------- *)

Lemma sameSessionEntry_refl (idx : string) (a : SerializedStores) :
  Submission.sameSessionEntry idx a a = true.
Proof.
  unfold Submission.sameSessionEntry.
  destruct (ser_session a !! idx); [apply String.eqb_refl|reflexivity].
Qed.

(** C2 (what the code does).  After one submitted message (user message
    encrypted, reply encrypted, session saved without error) the saved
    session data holds the serialization of the user's collection in
    memory, but its [assistantStores] are still those written when the
    session was created and differ from the serialization of the
    assistant's collection in memory, whose ratchet has advanced. *)
Theorem C2_persistence_leaves_assistant_stores_stale :
  st_error Submission.submitted = None
  /\ List.length (messages (st_sessionData Submission.submitted)) = 2
  /\ Submission.durable Submission.submitted
     = Some (st_sessionData Submission.submitted)
  /\ userStores (st_sessionData Submission.submitted)
     = serializeStores (st_userStores Submission.submitted)
  /\ assistantStores (st_sessionData Submission.submitted)
     = assistantStores (ctx_sessionData Fixture.context0)
  /\ assistantStores (st_sessionData Submission.submitted)
     <> serializeStores (st_assistantStores Submission.submitted).
Proof.
  split; [vm_compute; reflexivity|].
  split; [vm_compute; reflexivity|].
  split; [vm_compute; reflexivity|].
  split; [vm_compute; reflexivity|].
  split; [vm_compute; reflexivity|].
  intros Heq.
  assert (Hdiff : Submission.sameSessionEntry "user::1"
                    (assistantStores (st_sessionData Submission.submitted))
                    (serializeStores (st_assistantStores Submission.submitted))
                  = false) by (vm_compute; reflexivity).
  rewrite Heq, sameSessionEntry_refl in Hdiff. discriminate.
Qed.

Section Preserves.
Context {S : Type} (I : S -> Prop).

Lemma preserves_ret {A} (a : A) : preserves I (ret a).
Proof. now intros s Hs. Qed.

Lemma preserves_throw {A} (e : JsError) : preserves I (throw (A := A) e).
Proof. now intros s Hs. Qed.

Lemma preserves_lift {A} (x : Result A) : preserves I (lift x).
Proof. now intros s Hs. Qed.

Lemma preserves_bind {A B} (m : M S A) (k : A -> M S B) :
  preserves I m -> (forall a, preserves I (k a)) -> preserves I (bind m k).
Proof.
  intros Hm Hk s Hs. unfold bind. specialize (Hm s Hs).
  destruct (m s) as [[a|e] s1]; cbn in Hm; [now apply Hk|exact Hm].
Qed.

Lemma preserves_try_catch {A} (m : M S A) (h : JsError -> M S A) :
  preserves I m -> (forall e, preserves I (h e)) -> preserves I (try_catch m h).
Proof.
  intros Hm Hh s Hs. unfold try_catch. specialize (Hm s Hs).
  destruct (m s) as [[a|e] s1]; cbn in Hm; [exact Hm|now apply Hh].
Qed.

Lemma preserves_touches {T A} (r : Ref S T) (m : M S A) :
  touches r m -> (forall t s, I s -> I (rset r t s)) -> preserves I m.
Proof. intros Hm Hr s Hs. destruct (Hm s) as [t ->]. now apply Hr. Qed.

Lemma preserves_call {T A} (r : Ref S T) (m : M T A) :
  (forall t s, I s -> I (rset r t s)) -> preserves I (call r m).
Proof.
  intros Hr s Hs. unfold call, zoom. destruct (m (rget r s)) as [x t]. now apply Hr.
Qed.

End Preserves.

(** Whatever the state, the input and the reply of the inference
    service, [handleSubmit] leaves the [assistantStores] of the session
    data as they were: the serialization of the assistant's collection
    never enters the session data after the session was created. *)
Lemma handleSubmit_keeps_serialized_assistantStores
    (dataDir : string) (streamChat : string -> list ChatMessage -> Result (list Text))
    (s : State) :
  assistantStores (st_sessionData (snd (handleSubmit dataDir streamChat s)))
  = assistantStores (st_sessionData s).
Proof.
  set (I := fun s' : State =>
              assistantStores (st_sessionData s') = assistantStores (st_sessionData s)).
  assert (Hrt : forall (t : Runtime) (s' : State), I s' -> I (rset runtimeRef t s'))
    by (intros t s' Hs'; exact Hs').
  assert (Hus : forall (t : SignalStores) (s' : State),
             I s' -> I (rset userStoresRef t s'))
    by (intros t s' Hs'; exact Hs').
  assert (Has : forall (t : SignalStores) (s' : State),
             I s' -> I (rset assistantStoresRef t s'))
    by (intros t s' Hs'; exact Hs').
  assert (Hhook : forall f : State -> State,
             (forall s', st_sessionData (f s') = st_sessionData s') ->
             preserves I (modify f)).
  { intros f Hf s' Hs'. unfold I in *. cbn. now rewrite Hf. }
  assert (Hdata : forall x : SessionData,
             assistantStores x = assistantStores (st_sessionData s) ->
             preserves I (setSessionData x)).
  { intros x Hx s' _. exact Hx. }
  assert (Hsave : forall stores : SignalStores,
             preserves I (updateSessionMessages runtimeRef dataDir sessionDataRef stores)).
  { intros stores s' Hs'. unfold updateSessionMessages.
    unfold call, zoom, bind, modify, get, ret.
    cbn [fst snd rget rset runtimeRef sessionDataRef st_sessionData st_runtime].
    destruct (saveSession _ _ _) as [[[]|e] rt']; cbn [fst snd]; unfold I in *;
      cbn [st_sessionData assistantStores]; exact Hs'. }
  assert (Hget : preserves I get) by (intros s' Hs'; exact Hs').
  change (I (snd (handleSubmit dataDir streamChat s))).
  unfold handleSubmit. unfold bind at 1. unfold get at 1. cbv zeta.
  destruct (st_isLoading s || isEmpty (trim (st_input s))); [reflexivity|].
  match goal with
  | |- I (snd (?m s)) => cut (preserves I m); [intros Hp; apply Hp; reflexivity|]
  end.
  repeat lazymatch goal with
    | |- preserves _ (updateSessionMessages _ _ _ _) => apply Hsave
    | |- preserves _ get => exact Hget
    | |- preserves _ (encryptMessage _ _ userStoresRef) =>
        apply (preserves_touches I userStoresRef);
        [apply encryptMessage_touches, userStoresRef_lawful|exact Hus]
    | |- preserves _ (encryptMessage _ _ assistantStoresRef) =>
        apply (preserves_touches I assistantStoresRef);
        [apply encryptMessage_touches, assistantStoresRef_lawful|exact Has]
    | |- preserves _ (call runtimeRef _) => apply preserves_call; exact Hrt
    | |- preserves _ (lift _) => apply preserves_lift
    | |- preserves _ (setSessionData _) => apply Hdata; reflexivity
    | |- preserves _ (setInput _) => apply Hhook; intros []; reflexivity
    | |- preserves _ (setIsLoading _) => apply Hhook; intros []; reflexivity
    | |- preserves _ (setError _) => apply Hhook; intros []; reflexivity
    | |- preserves _ (setMessages _) => apply Hhook; intros []; reflexivity
    | |- preserves _ (try_catch _ _) => apply preserves_try_catch; [|intros]
    | |- preserves _ (bind _ _) => apply preserves_bind; [|intros]
    end.
Qed.

(* ------------------------------------------------------------------- *)

(** ** C5: one-time pre-keys                                            *)
(* ------------------------------------------------------------------- *)

Ltac unfold_stores :=
  unfold call, zoom, field, self;
  cbn [rget rset];
  unfold InMemorySessionStore.getSession, InMemoryIdentityKeyStore.isTrustedIdentity,
    InMemoryIdentityKeyStore.getIdentityKey, InMemoryPreKeyStore.getPreKey,
    InMemorySignedPreKeyStore.getSignedPreKey, InMemoryKyberPreKeyStore.getKyberPreKey,
    InMemoryIdentityKeyStore.saveIdentity, InMemorySessionStore.saveSession,
    InMemoryKyberPreKeyStore.markKyberPreKeyUsed, InMemoryPreKeyStore.removePreKey;
  unfold bind, lift, ret, throw, get, modify;
  cbn [Store.session Store.identity Store.preKey Store.signedPreKey
       Store.kyberPreKey fst snd negb].

(** Case analysis on a scrutinee that contains no other case analysis. *)
Ltac case_innermost :=
  match goal with
  | |- context [match ?x with _ => _ end] =>
      lazymatch x with
      | context [match _ with _ => _ end] => fail
      | _ => destruct x eqn:?
      end
  end.

Lemma decryptMessage_consumes (stores stores' : SignalStores) ct sender m pt :
  PreKeySignalMessage_deserialize ct = Ok m ->
  handshakePending m sender stores = true ->
  decryptMessage ct PreKey sender self stores = (Ok pt, stores') ->
  is_Some (InMemoryPreKeyStore.state (Store.preKey stores)
             !! PreKeySignalMessage_preKeyId m)
  /\ InMemoryPreKeyStore.state (Store.preKey stores')
     = delete (PreKeySignalMessage_preKeyId m)
         (InMemoryPreKeyStore.state (Store.preKey stores)).
Proof.
  intros Hparse. destruct stores as [sst ist pkt spkt kpkt].
  unfold handshakePending.
  unfold_engine. cbn [CiphertextMessageType_eqb]. rewrite Hparse.
  unfold_stores.
  repeat (case_innermost; cbn [fst snd Store.preKey InMemoryPreKeyStore.state]);
    intros Hp Hrun; try discriminate.
  all: injection Hrun as <- <-; cbn [Store.preKey InMemoryPreKeyStore.state];
    split; [eauto|reflexivity].
Qed.

Lemma decryptMessage_preKeys_shrink (stores : SignalStores) ct ty name :
  InMemoryPreKeyStore.state (Store.preKey (snd (decryptMessage ct ty name self stores)))
  ⊆ InMemoryPreKeyStore.state (Store.preKey stores).
Proof.
  destruct stores as [sst ist pkt spkt kpkt].
  unfold_engine. unfold_stores.
  repeat (case_innermost; cbn [fst snd Store.preKey InMemoryPreKeyStore.state]);
    try reflexivity.
  all: apply delete_subseteq.
Qed.

Lemma encryptMessage_preKeys_same (stores : SignalStores) plaintext name :
  Store.preKey (snd (encryptMessage plaintext name self stores)) = Store.preKey stores.
Proof.
  destruct stores as [sst ist pkt spkt kpkt].
  unfold_engine. unfold_stores.
  repeat (case_innermost; cbn [fst snd Store.preKey]); reflexivity.
Qed.

Lemma runAllMessaging_preKeys_shrink (ops : list Messaging) (stores : SignalStores) :
  InMemoryPreKeyStore.state (Store.preKey (runAllMessaging ops stores))
  ⊆ InMemoryPreKeyStore.state (Store.preKey stores).
Proof.
  revert stores. induction ops as [|op ops IH]; intros stores; [reflexivity|].
  cbn [runAllMessaging fold_left]. etransitivity; [apply IH|].
  destruct op as [pt name|ct ty name]; cbn [runMessaging].
  - now rewrite encryptMessage_preKeys_same.
  - apply decryptMessage_preKeys_shrink.
Qed.

(** When a handshake message is decrypted successfully and the key
    agreement was run for it, the one-time pre-key it names was in the
    PreKey store and is removed from it: [getPreKey] for that id then
    throws the "not found" error, and it keeps throwing after any further
    [encryptMessage] and [decryptMessage] calls on the collection, since
    these never add a pre-key. *)
Lemma consumed_pre_key_stays_removed_by_messaging :
  forall (stores stores' : SignalStores) (ct : Uint8Array) (sender : string)
         (m : PreKeySignalMessage) (plaintext : Text),
    PreKeySignalMessage_deserialize ct = Ok m ->
    handshakePending m sender stores = true ->
    decryptMessage ct PreKey sender self stores = (Ok plaintext, stores') ->
    is_Some (InMemoryPreKeyStore.state (Store.preKey stores)
               !! PreKeySignalMessage_preKeyId m)
    /\ forall later : list Messaging,
         InMemoryPreKeyStore.getPreKey (PreKeySignalMessage_preKeyId m)
           (Store.preKey (runAllMessaging later stores'))
         = (Throw (mkError ("pre-key " ++ pretty (PreKeySignalMessage_preKeyId m)
                              ++ " not found")),
            Store.preKey (runAllMessaging later stores')).
Proof.
  intros stores stores' ct sender m plaintext Hparse Hpending Hrun.
  destruct (decryptMessage_consumes _ _ _ _ _ _ Hparse Hpending Hrun) as [Hwas Hgone].
  split; [exact Hwas|]. intros later.
  assert (Habsent : InMemoryPreKeyStore.state
                      (Store.preKey (runAllMessaging later stores'))
                      !! PreKeySignalMessage_preKeyId m = None).
  { eapply lookup_weaken_None; [|apply runAllMessaging_preKeys_shrink].
    rewrite Hgone. apply lookup_delete_eq. }
  unfold InMemoryPreKeyStore.getPreKey, bind, get. now rewrite Habsent.
Qed.


(* ===================================================================== *)
(** * Further properties of the program                                   *)
(* ===================================================================== *)

(** ** Key generation *)

Lemma getPublicKey_valid (k : PrivateKey) :
  validPrivateKey k = true -> validPublicKey (getPublicKey k) = true.
Proof. now destruct k. Qed.

Lemma PrivateKey_generate_eq (w : World) :
  PrivateKey_generate w
  = (Ok (mkPrivateKey (secureBytes w 0 32)), afterSecureBytes 32 w).
Proof.
  unfold PrivateKey_generate, secureRandomBytes, draw, bind, ret, secureBytes,
    afterSecureBytes.
  cbn. now rewrite Nat.add_0_r.
Qed.

Lemma secureBytes_length (w : World) (skip n : nat) :
  List.length (secureBytes w skip n) = n.
Proof. unfold secureBytes. now rewrite length_map, length_seq. Qed.

Lemma afterSecureBytes_add (n m : nat) (w : World) :
  afterSecureBytes n (afterSecureBytes m w) = afterSecureBytes (m + n) w.
Proof. unfold afterSecureBytes. cbn. now rewrite Nat.add_assoc. Qed.

(** The pre-key loop appends [count] pre-keys numbered from [i] on, each
    a freshly generated private key with its public half. *)
Lemma preKeyLoop_spec (count : nat) (i : N) (acc : list PreKeyData) (w : World) :
  exists l,
    preKeyLoop count i acc w = (Ok (acc ++ l), afterSecureBytes (32 * count) w)
    /\ map pk_id l = map (fun k => (i + N.of_nat k)%N) (seq 0 count)
    /\ Forall (fun pk => pk_publicKey pk = getPublicKey (pk_privateKey pk)
                         /\ validPrivateKey (pk_privateKey pk) = true) l.
Proof.
  revert i acc w. induction count as [|count IH]; intros i acc w.
  - exists []. cbn [preKeyLoop]. unfold ret. rewrite app_nil_r.
    split; [|split; [reflexivity|constructor]].
    f_equal. destruct w as [[f c] m k]. unfold afterSecureBytes. cbn.
    now rewrite Nat.add_0_r.
  - cbn [preKeyLoop]. unfold bind. rewrite PrivateKey_generate_eq.
    destruct (IH (N.succ i)
                (acc ++ [mkPreKeyData i (getPublicKey (mkPrivateKey (secureBytes w 0 32)))
                           (mkPrivateKey (secureBytes w 0 32))])
                (afterSecureBytes 32 w)) as (l & E & Hids & Hall).
    exists (mkPreKeyData i (getPublicKey (mkPrivateKey (secureBytes w 0 32)))
              (mkPrivateKey (secureBytes w 0 32)) :: l).
    split; [|split].
    + rewrite E, <- app_assoc, afterSecureBytes_add. cbn [app]. do 2 f_equal. lia.
    + cbn [map seq pk_id]. rewrite Hids. f_equal; [lia|].
      rewrite <- seq_shift, map_map. apply map_ext. intros k. lia.
    + constructor; [|exact Hall]. cbn [pk_publicKey pk_privateKey].
      split; [reflexivity|]. unfold validPrivateKey. cbn [PrivateKey_serialize].
      now rewrite secureBytes_length.
Qed.

Lemma KEMKeyPair_generate_eq (w : World) :
  KEMKeyPair_generate w
  = (Ok (mkKEMKeyPair (mkKEMPublicKey (x08 :: secureBytes w 0 32))
           (mkKEMSecretKey (secureBytes w 0 32))),
     afterSecureBytes 32 w).
Proof.
  unfold KEMKeyPair_generate, secureRandomBytes, draw, bind, ret, secureBytes,
    afterSecureBytes.
  cbn. now rewrite Nat.add_0_r.
Qed.

Lemma bytes_eqb_refl (bs : Uint8Array) : bytes_eqb bs bs = true.
Proof.
  induction bs as [|b bs IH]; [reflexivity|]. cbn.
  now rewrite (Byte.byte_dec_lb (eq_refl b)), IH.
Qed.

Lemma sign_eq (k : PrivateKey) (msg : Uint8Array) (w : World) :
  sign k msg w
  = (Ok (secureBytes w 0 64 ++ frame [PublicKey_serialize (getPublicKey k); msg]),
     afterSecureBytes 64 w).
Proof.
  unfold sign, secureRandomBytes, draw, bind, ret, secureBytes, afterSecureBytes.
  cbn. now rewrite Nat.add_0_r.
Qed.

(** A signature made with a private key verifies under its public key. *)
Lemma verify_sign (k : PrivateKey) (msg signature : Uint8Array) (w w' : World) :
  sign k msg w = (Ok signature, w') -> verify (getPublicKey k) msg signature = true.
Proof.
  rewrite sign_eq. intros E.
  assert (signature
          = secureBytes w 0 64 ++ frame [PublicKey_serialize (getPublicKey k); msg])
    as -> by congruence.
  unfold verify.
  rewrite drop_app_length' by (now rewrite secureBytes_length).
  apply bytes_eqb_refl.
Qed.

(** What [createIdentityBundle] returns, for every state of the environment. *)
Lemma createIdentityBundle_spec (w : World) :
  match createIdentityBundle w with
  | (Ok bundle, w') =>
      map pk_id (preKeys bundle) = [1; 2; 3; 4; 5; 6; 7; 8; 9; 10]%N
      /\ Forall (fun pk => pk_publicKey pk = getPublicKey (pk_privateKey pk))
           (preKeys bundle)
      /\ spk_id (signedPreKey bundle) = 1%N
      /\ kpk_id (kyberPreKey bundle) = 1%N
      /\ ikp_publicKey (identityKeyPair bundle)
         = getPublicKey (ikp_privateKey (identityKeyPair bundle))
      /\ spk_publicKey (signedPreKey bundle)
         = getPublicKey (spk_privateKey (signedPreKey bundle))
      /\ verify (ikp_publicKey (identityKeyPair bundle))
           (PublicKey_serialize (spk_publicKey (signedPreKey bundle)))
           (spk_signature (signedPreKey bundle)) = true
      /\ verify (ikp_publicKey (identityKeyPair bundle))
           (KEMPublicKey_serialize (kpk_publicKey (kyberPreKey bundle)))
           (kpk_signature (kyberPreKey bundle)) = true
      /\ (exists (w0 w1 : World),
            KEMKeyPair_generate w0
            = (Ok (mkKEMKeyPair (kpk_publicKey (kyberPreKey bundle))
                     (kpk_secretKey (kyberPreKey bundle))), w1))
      /\ wellFormedBundle bundle = true
      /\ csprng w' = mkOracle (feed (csprng w)) (cursor (csprng w) + 544)
      /\ mathRandom w' = mkOracle (feed (mathRandom w)) (S (cursor (mathRandom w)))
      /\ clock w' = mkOracle (feed (clock w)) (S (S (cursor (clock w))))
      /\ toString36 w' = toString36 w
      /\ fileSystem w' = fileSystem w
  | (Throw _, _) => False
  end.
Proof.
  unfold createIdentityBundle.
  unfold bind at 1. rewrite PrivateKey_generate_eq. cbv beta iota.
  unfold bind at 1. rewrite generateRegistrationId_eq. cbv beta iota.
  unfold bind at 1. rewrite PrivateKey_generate_eq. cbv beta iota.
  unfold bind at 1.
  match goal with |- context [sign ?k ?msg ?w1] =>
    pose proof (verify_sign k msg _ _ _ (sign_eq k msg w1)) as Hsigned;
    rewrite (sign_eq k msg w1) end.
  cbv beta iota.
  unfold bind at 1.
  match goal with |- context [preKeyLoop 10 1 [] ?w1] =>
    destruct (preKeyLoop_spec 10 1 [] w1) as (l & -> & Hids & Hall) end.
  cbv beta iota.
  unfold bind at 1.
  match goal with |- context [KEMKeyPair_generate ?w1] =>
    pose proof (KEMKeyPair_generate_eq w1) as Hgenerated;
    rewrite (KEMKeyPair_generate_eq w1) end.
  cbv beta iota.
  unfold bind at 1.
  match goal with |- context [sign ?k ?msg ?w1] =>
    pose proof (verify_sign k msg _ _ _ (sign_eq k msg w1)) as Hkyber;
    rewrite (sign_eq k msg w1) end.
  cbv beta iota.
  unfold bind, Date_now, read, ret.
  cbn [csprng mathRandom clock toString36 fileSystem feed cursor afterSecureBytes app
       preKeys signedPreKey kyberPreKey identityKeyPair spk_id kpk_id ikp_publicKey
       ikp_privateKey spk_publicKey spk_privateKey spk_signature kpk_signature
       kpk_publicKey kpk_secretKey KEMKeyPair_getPublicKey KEMKeyPair_getSecretKey].
  split; [exact Hids|].
  split; [eapply Forall_impl; [exact Hall|]; now intros pk [Hpk _]|].
  do 4 (split; [reflexivity|]).
  split; [exact Hsigned|].
  split; [exact Hkyber|].
  split; [eexists _, _; exact Hgenerated|].
  split.
  - unfold wellFormedBundle.
    cbn [preKeys signedPreKey identityKeyPair ikp_publicKey ikp_privateKey
         spk_publicKey spk_privateKey].
    assert (Hv : forall w0, validPrivateKey (mkPrivateKey (secureBytes w0 0 32)) = true).
    { intros w0. unfold validPrivateKey. cbn [PrivateKey_serialize].
      now rewrite secureBytes_length. }
    rewrite !getPublicKey_valid, !Hv by apply Hv. cbn [andb].
    apply forallb_forall. intros pk Hpk. rewrite Forall_forall in Hall.
    destruct (Hall pk) as [Hpub Hpriv]; [now apply list_elem_of_In|].
    unfold wellFormedPreKey. rewrite Hpub, getPublicKey_valid, Hpriv by exact Hpriv.
    reflexivity.
  - split; [f_equal; lia|]. repeat split.
Qed.

(** ** Addresses and store slots *)

Lemma hasChar_app (c : ascii) (s t : string) :
  hasChar c (String.append s t) = hasChar c s || hasChar c t.
Proof.
  induction s as [|a s IH]; [reflexivity|].
  simpl. now rewrite IH, orb_assoc.
Qed.

Lemma pretty_N_char_digit (x : N) : isDigit (pretty_N_char x) = true.
Proof.
  unfold pretty_N_char.
  destruct x as [|p]; [reflexivity|].
  do 4 (destruct p as [p|p|]; try reflexivity).
Qed.

Lemma pretty_N_char_other (c : ascii) (x : N) :
  isDigit c = false -> Ascii.eqb (pretty_N_char x) c = false.
Proof.
  intros Hc. destruct (Ascii.eqb_spec (pretty_N_char x) c) as [E|]; [|reflexivity].
  rewrite <- E, pretty_N_char_digit in Hc. discriminate.
Qed.

Lemma pretty_N_go_other (c : ascii) (x : N) (s : string) :
  isDigit c = false -> hasChar c s = false -> hasChar c (pretty_N_go x s) = false.
Proof.
  intros Hc. revert s. induction x as [x IH] using (well_founded_ind N.lt_wf_0). intros s Hs.
  destruct (decide (0 < x)%N) as [Hpos|Hzero].
  - rewrite pretty_N_go_step by assumption.
    apply IH; [apply N.div_lt; lia|].
    cbn [hasChar]. now rewrite pretty_N_char_other.
  - assert (x = 0%N) as -> by lia. now rewrite pretty_N_go_0.
Qed.

(** A decimal numeral holds digits only. *)
Lemma pretty_N_other (c : ascii) (x : N) :
  isDigit c = false -> hasChar c (pretty x) = false.
Proof.
  intros Hc. unfold pretty, pretty_N. destruct (decide (x = 0%N)).
  - cbn [hasChar]. destruct (Ascii.eqb_spec "0" c) as [E|]; [|reflexivity].
    now rewrite <- E in Hc.
  - now apply pretty_N_go_other.
Qed.

Lemma append_String (c : ascii) (s t : string) :
  String.append (String c s) t = String c (String.append s t).
Proof. reflexivity. Qed.

Lemma append_empty (t : string) : String.append "" t = t.
Proof. reflexivity. Qed.

Lemma append_colons_inj (n1 n2 d1 d2 : string) :
  hasChar ":" d1 = false -> hasChar ":" d2 = false ->
  String.append n1 (String.append "::" d1) = String.append n2 (String.append "::" d2) ->
  n1 = n2 /\ d1 = d2.
Proof.
  intros H1 H2. revert n2.
  rewrite !append_String, !append_empty.
  assert (Hc : forall x y, hasChar ":" (String.append x (String ":" (String ":" y))) = true).
  { intros x y. rewrite hasChar_app. simpl. apply orb_true_r. }
  induction n1 as [|c1 n1 IH]; intros [|c2 n2] E; rewrite ?append_String, ?append_empty in E.
  - injection E as E. now subst.
  - injection E as Ec E. destruct n2 as [|c3 n2]; rewrite ?append_String, ?append_empty in E.
    + injection E as E. subst d1. simpl in H1. discriminate.
    + injection E as Ec' E. rewrite E, Hc in H1. discriminate.
  - injection E as Ec E. destruct n1 as [|c3 n1]; rewrite ?append_String, ?append_empty in E.
    + injection E as E. subst d2. simpl in H2. discriminate.
    + injection E as Ec' E. rewrite <- E, Hc in H2. discriminate.
  - injection E as Ec E. subst c2. destruct (IH _ E) as [-> ->]. now split.
Qed.

Lemma addressIndex_inj (a b : ProtocolAddress) :
  addressIndex a = addressIndex b -> a = b.
Proof.
  intros E. destruct a as [n1 d1], b as [n2 d2]. unfold addressIndex in E. cbn in E.
  apply append_colons_inj in E; try (now apply pretty_N_other).
  destruct E as [-> E]. now apply (inj pretty) in E as ->.
Qed.

(** X1.  Two different addresses never share an index, whatever the name
    holds: the device id is printed without a colon, so the last [::] of
    an index separates the two parts. *)
Theorem X1_addressIndex_separates (a b : ProtocolAddress) :
  a <> b -> addressIndex a <> addressIndex b.
Proof. intros Hne E. apply Hne. now apply addressIndex_inj. Qed.

Lemma X1_addressIndex_separates_witness :
  ProtocolAddress_new "user" 1 <> ProtocolAddress_new "assistant" 1
  /\ addressIndex (ProtocolAddress_new "user" 1)
     <> addressIndex (ProtocolAddress_new "assistant" 1).
Proof.
  split; [discriminate|].
  apply (X1_addressIndex_separates (ProtocolAddress_new "user" 1)
           (ProtocolAddress_new "assistant" 1)).
  discriminate.
Defined.

(** ** The session store *)

(** X2.  After [saveSession(a, record)], [getSession(a)] re-reads the
    serialization of [record], and [getSession] of every other address
    returns what it returned before. *)
Theorem X2_saveSession_then_getSession (a b : ProtocolAddress) (record : SessionRecord)
    (this : InMemorySessionStore.t) :
  let saved := snd (InMemorySessionStore.saveSession a record this) in
  InMemorySessionStore.getSession a saved
  = (match SessionRecord_deserialize (SessionRecord_serialize record) with
     | Ok r => Ok (Some r)
     | Throw e => Throw e
     end, saved)
  /\ (a <> b ->
      fst (InMemorySessionStore.getSession b saved)
      = fst (InMemorySessionStore.getSession b this)).
Proof.
  cbv zeta. unfold InMemorySessionStore.saveSession, InMemorySessionStore.getSession,
    modify, bind, get, lift, ret.
  cbn [snd fst InMemorySessionStore.state]. split.
  - rewrite lookup_insert_eq.
    now destruct (SessionRecord_deserialize (SessionRecord_serialize record)).
  - intros Hne. rewrite lookup_insert_ne.
    + destruct (InMemorySessionStore.state this !! addressIndex b) as [bs|]; [|reflexivity].
      now destruct (SessionRecord_deserialize bs).
    + intros E. apply Hne. now apply addressIndex_inj.
Qed.

Lemma X2_witness :
  let a := ProtocolAddress_new "assistant" 1 in
  let b := ProtocolAddress_new "user" 1 in
  let saved := snd (InMemorySessionStore.saveSession a SessionRecord_empty
                      InMemorySessionStore.new) in
  a <> b
  /\ fst (InMemorySessionStore.getSession b saved)
     = fst (InMemorySessionStore.getSession b InMemorySessionStore.new).
Proof.
  cbv zeta. split; [discriminate|].
  apply (X2_saveSession_then_getSession (ProtocolAddress_new "assistant" 1)
           (ProtocolAddress_new "user" 1) SessionRecord_empty InMemorySessionStore.new).
  discriminate.
Defined.

(** X3.  [getExistingSessions] leaves the store as it is and is all or
    nothing: when it returns, it returns one record per requested address
    and every requested address has a stored session; an address without
    a session makes it throw. *)
Theorem X3_getExistingSessions_all_or_nothing (addresses : list ProtocolAddress)
    (this : InMemorySessionStore.t) :
  snd (InMemorySessionStore.getExistingSessions addresses this) = this
  /\ match fst (InMemorySessionStore.getExistingSessions addresses this) with
     | Ok records =>
         List.length records = List.length addresses
         /\ Forall (fun a => is_Some (InMemorySessionStore.state this !! addressIndex a))
              addresses
     | Throw _ =>
         Exists (fun a =>
                   match InMemorySessionStore.state this !! addressIndex a with
                   | None => True
                   | Some bs =>
                       match SessionRecord_deserialize bs with
                       | Ok _ => False
                       | Throw _ => True
                       end
                   end) addresses
     end.
Proof.
  unfold InMemorySessionStore.getExistingSessions, bind, get, lift.
  cbn [fst snd]. split; [reflexivity|].
  induction addresses as [|a rest IH]; cbn [map_result].
  - split; [reflexivity|constructor].
  - destruct (InMemorySessionStore.state this !! addressIndex a) as [bs|] eqn:Ha.
    + destruct (SessionRecord_deserialize bs) as [r|e] eqn:Hr.
      * destruct (map_result _ rest) as [rs|e].
        -- destruct IH as [Hlen Hall]. split; [cbn; now rewrite Hlen|].
           constructor; [rewrite Ha; now eexists|exact Hall].
        -- now apply Exists_cons_tl.
      * apply Exists_cons_hd. now rewrite Ha, Hr.
    + apply Exists_cons_hd. now rewrite Ha.
Qed.

(** ** The pre-key store *)

(** X4.  [removePreKey(id)] makes [getPreKey(id)] throw the store's
    "not found" error whatever the store held, changes the answer for no
    other id, and removing a second time changes nothing more; an id that
    is not stored is removed without effect. *)
Theorem X4_removePreKey_laws (id other : N) (this : InMemoryPreKeyStore.t) :
  let removed := snd (InMemoryPreKeyStore.removePreKey id this) in
  fst (InMemoryPreKeyStore.removePreKey id this) = Ok tt
  /\ InMemoryPreKeyStore.getPreKey id removed
     = (Throw (mkError ("pre-key " ++ pretty id ++ " not found")), removed)
  /\ snd (InMemoryPreKeyStore.removePreKey id removed) = removed
  /\ (InMemoryPreKeyStore.state this !! id = None -> removed = this)
  /\ (other <> id ->
      fst (InMemoryPreKeyStore.getPreKey other removed)
      = fst (InMemoryPreKeyStore.getPreKey other this)).
Proof.
  cbv zeta. unfold InMemoryPreKeyStore.removePreKey, InMemoryPreKeyStore.getPreKey,
    modify, bind, get, lift, throw.
  cbn [fst snd InMemoryPreKeyStore.state].
  split; [reflexivity|]. split; [now rewrite lookup_delete_eq|].
  split; [now rewrite delete_delete_eq|]. split.
  - intros Habsent. destruct this as [m]. cbn in *. now rewrite delete_id.
  - intros Hne. rewrite lookup_delete_ne by congruence.
    now destruct (InMemoryPreKeyStore.state this !! other).
Qed.

Lemma X4_witness :
  let this := snd (InMemoryPreKeyStore.savePreKey 2
                     (PreKeyRecord_new 2 (mkPublicKey []) (mkPrivateKey []))
                     InMemoryPreKeyStore.new) in
  let removed := snd (InMemoryPreKeyStore.removePreKey 1 this) in
  InMemoryPreKeyStore.state this !! 1%N = None
  /\ removed = this
  /\ 2%N <> 1%N
  /\ fst (InMemoryPreKeyStore.getPreKey 2 removed)
     = fst (InMemoryPreKeyStore.getPreKey 2 this).
Proof.
  cbv zeta.
  destruct (X4_removePreKey_laws 1 2
              (snd (InMemoryPreKeyStore.savePreKey 2
                      (PreKeyRecord_new 2 (mkPublicKey []) (mkPrivateKey []))
                      InMemoryPreKeyStore.new))) as (_ & _ & _ & Habsent & Hother).
  split; [vm_compute; reflexivity|].
  split; [apply Habsent; vm_compute; reflexivity|].
  split; [discriminate|].
  apply Hother. discriminate.
Defined.

(** ** The identity store *)

(** X5.  When a key is already stored for the address, [saveIdentity]
    replaces it by the new key and reports [NewOrUnchanged] exactly when
    the bytes of the stored key are an initial part of the bytes of the
    new key (for keys of one length: when they are equal), and
    [ReplacedExisting] otherwise. *)
Theorem X5_saveIdentity_over_stored_key (name : ProtocolAddress) (key current : PublicKey)
    (this : InMemoryIdentityKeyStore.t) :
  InMemoryIdentityKeyStore.idKeys this !! addressIndex name = Some current ->
  let result := InMemoryIdentityKeyStore.saveIdentity name key this in
  InMemoryIdentityKeyStore.getIdentity name (snd result) = (Ok (Some key), snd result)
  /\ (fst result = Ok NewOrUnchanged
      <-> exists rest, PublicKey_serialize key = PublicKey_serialize current ++ rest)
  /\ (fst result = Ok ReplacedExisting
      <-> ~ exists rest, PublicKey_serialize key = PublicKey_serialize current ++ rest).
Proof.
  intros Hcur. cbv zeta.
  unfold InMemoryIdentityKeyStore.saveIdentity, InMemoryIdentityKeyStore.getIdentity,
    bind, get, modify, ret.
  cbn [fst snd InMemoryIdentityKeyStore.idKeys InMemoryIdentityKeyStore.set_idKeys].
  rewrite Hcur, lookup_insert_eq. split; [reflexivity|].
  destruct (everyByteEquals (PublicKey_serialize current) (PublicKey_serialize key) 0)
    eqn:Hall; cbn [negb].
  - apply (everyByteEquals_prefix _ _ []) in Hall.
    split; split.
    + intros _. exact Hall.
    + reflexivity.
    + discriminate.
    + intros Hno. now destruct Hno.
  - assert (Hno : ~ exists rest,
                      PublicKey_serialize key = PublicKey_serialize current ++ rest).
    { intros [rest Hrest]. rewrite Hrest in Hall.
      pose proof (everyByteEquals_suffix (PublicKey_serialize current) [] rest) as E.
      cbn in E. congruence. }
    split; split.
    + discriminate.
    + intros Hyes. now destruct Hno.
    + intros _. exact Hno.
    + reflexivity.
Qed.

Lemma X5_witness :
  let name := ProtocolAddress_new "assistant" 1 in
  let key := mkPublicKey [x05; x01] in
  let this := snd (InMemoryIdentityKeyStore.saveIdentity name (mkPublicKey [x05])
                     (InMemoryIdentityKeyStore.new (mkPrivateKey []) 7)) in
  InMemoryIdentityKeyStore.idKeys this !! addressIndex name = Some (mkPublicKey [x05])
  /\ fst (InMemoryIdentityKeyStore.saveIdentity name key this) = Ok NewOrUnchanged.
Proof.
  cbv zeta. split; [vm_compute; reflexivity|].
  apply (X5_saveIdentity_over_stored_key (ProtocolAddress_new "assistant" 1)
           (mkPublicKey [x05; x01]) (mkPublicKey [x05])
           (snd (InMemoryIdentityKeyStore.saveIdentity (ProtocolAddress_new "assistant" 1)
                   (mkPublicKey [x05])
                   (InMemoryIdentityKeyStore.new (mkPrivateKey []) 7)))).
  - vm_compute. reflexivity.
  - exists [x01]. reflexivity.
Defined.

(** The loop of both [deserialize] functions of the identity store, run
    on the entries [l]: it succeeds exactly when every value parses, and
    whatever it leaves in the map is either an entry it read or one that
    was there before. *)
Lemma identity_loop_spec (l : list (string * string)) (this : InMemoryIdentityKeyStore.t) :
  let loop :=
    for_of l (fun kv =>
                pk <- lift (PublicKey_deserialize (fromBase64 (snd kv))) ;;
                modify (fun this => InMemoryIdentityKeyStore.set_idKeys
                                      (<[fst kv := pk]> (InMemoryIdentityKeyStore.idKeys this))
                                      this)) this in
  InMemoryIdentityKeyStore.identityKey (snd loop) = InMemoryIdentityKeyStore.identityKey this
  /\ InMemoryIdentityKeyStore.localRegistrationId (snd loop)
     = InMemoryIdentityKeyStore.localRegistrationId this
  /\ (fst loop = Ok tt
      <-> Forall (fun kv => exists pk,
                    PublicKey_deserialize (fromBase64 (snd kv)) = Ok pk) l)
  /\ (forall k pk,
        InMemoryIdentityKeyStore.idKeys (snd loop) !! k = Some pk ->
        InMemoryIdentityKeyStore.idKeys this !! k = Some pk
        \/ exists v, (k, v) ∈ l /\ PublicKey_deserialize (fromBase64 v) = Ok pk).
Proof.
  cbv zeta. revert this. induction l as [|[k v] l IH]; intros this.
  - cbn. repeat split; auto. 
  - cbn [for_of fst snd]. unfold bind at 1 3 5 7. unfold bind at 1 2 3 4.
    unfold lift at 1 2 3 4.
    destruct (PublicKey_deserialize (fromBase64 v)) as [pk|e] eqn:Hv.
    + unfold modify at 1 2 3 4.
      specialize (IH (InMemoryIdentityKeyStore.set_idKeys
                        (<[k := pk]> (InMemoryIdentityKeyStore.idKeys this)) this)).
      destruct IH as (Hkey & Hreg & Hok & Hin).
      split; [exact Hkey|]. split; [exact Hreg|]. split.
      * rewrite Hok. split.
        -- intros Hall. constructor; [now exists pk|exact Hall].
        -- intros Hall. now inversion Hall.
      * intros k' pk' Hk'. destruct (Hin k' pk' Hk') as [Hold|(v' & Hv' & Hpk')].
        -- cbn in Hold. destruct (decide (k' = k)) as [->|Hne].
           ++ rewrite lookup_insert_eq in Hold. injection Hold as <-.
              right. exists v. split; [apply list_elem_of_here|exact Hv].
           ++ rewrite lookup_insert_ne in Hold by congruence. now left.
        -- right. exists v'. split; [now apply list_elem_of_further|exact Hpk'].
    + cbn [fst snd]. repeat split; auto.
      * discriminate.
      * intros Hall. inversion Hall as [|? ? [pk Hpk] ?]; subst. cbn [snd] in Hpk. congruence.
Qed.



(** X7.  The instance [deserialize] of the identity store never merges:
    it keeps the receiver's own private key and registration id, returns
    exactly when every value of the data parses as a public key, and,
    whether it returns or throws, every peer key the store holds
    afterwards was read from the data. *)
Theorem X7_identity_deserialize_replaces (data : InMemoryIdentityKeyStore.Serialized)
    (this : InMemoryIdentityKeyStore.t) :
  let result := InMemoryIdentityKeyStore.deserialize data this in
  InMemoryIdentityKeyStore.identityKey (snd result)
  = InMemoryIdentityKeyStore.identityKey this
  /\ InMemoryIdentityKeyStore.localRegistrationId (snd result)
     = InMemoryIdentityKeyStore.localRegistrationId this
  /\ (fst result = Ok tt
      <-> map_Forall (fun _ v => exists pk, PublicKey_deserialize (fromBase64 v) = Ok pk)
            (InMemoryIdentityKeyStore.s_identityKeys data))
  /\ (forall k pk,
        InMemoryIdentityKeyStore.idKeys (snd result) !! k = Some pk ->
        exists v, InMemoryIdentityKeyStore.s_identityKeys data !! k = Some v
                  /\ PublicKey_deserialize (fromBase64 v) = Ok pk).
Proof.
  cbv zeta. unfold InMemoryIdentityKeyStore.deserialize, forEach.
  unfold bind at 1 3 5 7. unfold modify at 1 3 5 7.
  pose proof (identity_loop_spec
                (map_to_list (InMemoryIdentityKeyStore.s_identityKeys data))
                (InMemoryIdentityKeyStore.set_idKeys ∅ this)) as Hloop.
  cbv zeta in Hloop. destruct Hloop as (Hkey & Hreg & Hok & Hin).
  split; [exact Hkey|]. split; [exact Hreg|]. split.
  - rewrite Hok. rewrite map_Forall_to_list. rewrite !Forall_forall.
    split; intros Hall [k v] Hkv; apply (Hall (k, v) Hkv). 
  - intros k pk Hk. destruct (Hin k pk Hk) as [Hold|(v & Hv & Hpk)].
    + cbn in Hold. now rewrite lookup_empty in Hold.
    + exists v. split; [now apply elem_of_map_to_list|exact Hpk].
Qed.

(** ** Identity bundles *)

(** X8.  [createIdentityBundle] always returns.  The bundle holds ten
    one-time pre-keys numbered 1 to 10, a signed pre-key and a Kyber
    pre-key both numbered 1; every curve public key is the public half
    of the private key stored next to it, and the two Kyber keys are the
    halves of one pair made by [KEMKeyPair.generate]; the signatures
    over the serialized signed pre-key and Kyber public keys verify
    under the identity public key; all curve keys are keys the engine
    hands out.  Creation reads one value of [Math.random] and the clock
    twice, and the file system not at all. *)
Theorem X8_createIdentityBundle_shape (w : World) :
  match createIdentityBundle w with
  | (Ok bundle, w') =>
      map pk_id (preKeys bundle) = [1; 2; 3; 4; 5; 6; 7; 8; 9; 10]%N
      /\ Forall (fun pk => pk_publicKey pk = getPublicKey (pk_privateKey pk))
           (preKeys bundle)
      /\ spk_id (signedPreKey bundle) = 1%N
      /\ kpk_id (kyberPreKey bundle) = 1%N
      /\ ikp_publicKey (identityKeyPair bundle)
         = getPublicKey (ikp_privateKey (identityKeyPair bundle))
      /\ spk_publicKey (signedPreKey bundle)
         = getPublicKey (spk_privateKey (signedPreKey bundle))
      /\ verify (ikp_publicKey (identityKeyPair bundle))
           (PublicKey_serialize (spk_publicKey (signedPreKey bundle)))
           (spk_signature (signedPreKey bundle)) = true
      /\ verify (ikp_publicKey (identityKeyPair bundle))
           (KEMPublicKey_serialize (kpk_publicKey (kyberPreKey bundle)))
           (kpk_signature (kyberPreKey bundle)) = true
      /\ (exists (w0 w1 : World),
            KEMKeyPair_generate w0
            = (Ok (mkKEMKeyPair (kpk_publicKey (kyberPreKey bundle))
                     (kpk_secretKey (kyberPreKey bundle))), w1))
      /\ wellFormedBundle bundle = true
      /\ mathRandom w' = mkOracle (feed (mathRandom w)) (S (cursor (mathRandom w)))
      /\ clock w' = mkOracle (feed (clock w)) (S (S (cursor (clock w))))
      /\ fileSystem w' = fileSystem w
  | (Throw _, _) => False
  end.
Proof.
  pose proof (createIdentityBundle_spec w) as H.
  destruct (createIdentityBundle w) as [[bundle|e] w']; [|exact H].
  destruct H as (H1 & H2 & H3 & H4 & H5 & H6 & H7 & H8 & H9 & H10 & _ & H12 & H13
                 & _ & H15).
  repeat (split; [assumption|]). assumption.
Qed.


(** The pre-key loop of [populateStores] stores one serialized record per
    pre-key of the list, in order, under the pre-key's id. *)
Lemma for_of_savePreKey_eq (l : list PreKeyData) (h : Heap) :
  for_of l
    (fun preKey =>
       PreKeyStore_savePreKey (preKeyStore userStoresOf) (pk_id preKey)
         (PreKeyRecord_new (pk_id preKey) (pk_publicKey preKey) (pk_privateKey preKey))) h
  = (Ok tt,
     mkHeap (runtime h)
       (mkSignalStores (Store.session (heapUser h)) (Store.identity (heapUser h))
          (InMemoryPreKeyStore.mk
             (insertAll
                (fun pk => PreKeyRecord_serialize
                             (PreKeyRecord_new (pk_id pk) (pk_publicKey pk)
                                (pk_privateKey pk)))
                (InMemoryPreKeyStore.state (Store.preKey (heapUser h)))
                (map (fun pk => (pk_id pk, pk)) l)))
          (Store.signedPreKey (heapUser h))
          (Store.kyberPreKey (heapUser h)))
       (heapAssistant h)).
Proof.
  revert h. induction l as [|pk l IH]; intros h.
  - now destruct h as [rt [s i [p] sp k] a].
  - cbn [for_of]. unfold bind at 1.
    unfold preKeyStore at 1, PreKeyStore_savePreKey at 1, call at 1, zoom at 1,
      preKey_of at 1, field at 1, userStoresOf at 1 2,
      InMemoryPreKeyStore.savePreKey at 1, modify at 1.
    cbn [rget rset]. rewrite IH. reflexivity.
Qed.

(** X9.  For a bundle whose one-time pre-keys have different ids,
    [populateStores] returns and afterwards the pre-key store holds the
    serialized record of every pre-key of the bundle under its id and
    the signed pre-key store the serialized signed pre-key under its id;
    other ids of the pre-key store, the session store, the identity
    store and the other party's collection are as before, and 32 bytes
    were read from the secure generator. *)
Theorem X9_populateStores_fills_key_stores (bundle : IdentityBundle) (h : Heap) :
  NoDup (map pk_id (preKeys bundle)) ->
  let result := populateStores heapEntropy bundle userStoresOf h in
  let stores := heapUser (snd result) in
  fst result = Ok tt
  /\ (forall pk, pk ∈ preKeys bundle ->
        InMemoryPreKeyStore.state (Store.preKey stores) !! pk_id pk
        = Some (PreKeyRecord_serialize
                  (PreKeyRecord_new (pk_id pk) (pk_publicKey pk) (pk_privateKey pk))))
  /\ (forall id, id ∉ map pk_id (preKeys bundle) ->
        InMemoryPreKeyStore.state (Store.preKey stores) !! id
        = InMemoryPreKeyStore.state (Store.preKey (heapUser h)) !! id)
  /\ InMemorySignedPreKeyStore.state (Store.signedPreKey stores)
     = <[spk_id (signedPreKey bundle) :=
           SignedPreKeyRecord_serialize
             (SignedPreKeyRecord_new
                (spk_id (signedPreKey bundle)) (spk_timestamp (signedPreKey bundle))
                (spk_publicKey (signedPreKey bundle)) (spk_privateKey (signedPreKey bundle))
                (spk_signature (signedPreKey bundle)))]>
         (InMemorySignedPreKeyStore.state (Store.signedPreKey (heapUser h)))
  /\ Store.session stores = Store.session (heapUser h)
  /\ Store.identity stores = Store.identity (heapUser h)
  /\ heapAssistant (snd result) = heapAssistant h
  /\ runtime (snd result)
     = mkRuntime (afterSecureBytes 32 (world (runtime h))) (files (runtime h))
         (console (runtime h)).
Proof.
  intros Hnd. cbv zeta. unfold populateStores. unfold bind.
  rewrite for_of_savePreKey_eq.
  unfold signedPreKeyStore, kyberPreKeyStore, SignedPreKeyStore_saveSignedPreKey,
    KyberPreKeyStore_saveKyberPreKey, heapEntropy, call, zoom, signedPreKey_of,
    kyberPreKey_of, field, userStoresOf, runtimeOf, worldOf,
    InMemorySignedPreKeyStore.saveSignedPreKey, InMemoryKyberPreKeyStore.saveKyberPreKey,
    modify.
  cbn [rget rset fst snd heapUser runtime heapAssistant Store.session
       Store.identity Store.preKey Store.signedPreKey Store.kyberPreKey world files console
       InMemoryPreKeyStore.state InMemorySignedPreKeyStore.state].
  rewrite KEMKeyPair_generate_eq.
  cbn [rget rset fst snd heapUser runtime heapAssistant Store.session
       Store.identity Store.preKey Store.signedPreKey Store.kyberPreKey world files console
       InMemoryPreKeyStore.state InMemorySignedPreKeyStore.state].
  split; [reflexivity|].
  assert (Hfst : (map (fun pk => (pk_id pk, pk)) (preKeys bundle)).*1
                 = map pk_id (preKeys bundle)).
  { generalize (preKeys bundle). intros l. induction l as [|pk l IH]; [reflexivity|].
    cbn. now f_equal. }
  split.
  { intros pk Hpk.
    apply (insertAll_in
             (fun pk => PreKeyRecord_serialize
                          (PreKeyRecord_new (pk_id pk) (pk_publicKey pk) (pk_privateKey pk)))).
    - now rewrite Hfst.
    - apply list_elem_of_In, in_map_iff. exists pk. split; [reflexivity|].
      now apply list_elem_of_In. }
  split.
  { intros id Hid. apply insertAll_not_in. now rewrite Hfst. }
  repeat split; reflexivity.
Qed.

Lemma X9_witness :
  let h := mkHeap Fixture.runtime0 (newStores Scenario.userBundle)
             (newStores Scenario.assistantBundle) in
  NoDup (map pk_id (preKeys Scenario.userBundle))
  /\ fst (populateStores heapEntropy Scenario.userBundle userStoresOf h) = Ok tt.
Proof.
  cbv zeta.
  assert (Hnd : NoDup (map pk_id (preKeys Scenario.userBundle))).
  { apply (bool_decide_unpack (NoDup (map pk_id (preKeys Scenario.userBundle)))).
    vm_compute. exact I. }
  split; [exact Hnd|].
  apply (X9_populateStores_fills_key_stores Scenario.userBundle
           (mkHeap Fixture.runtime0 (newStores Scenario.userBundle)
              (newStores Scenario.assistantBundle)) Hnd).
Defined.

(** X10.  [deserializeIdentityBundle] reads the secure generator only
    after every stored key has parsed: when it throws, the environment
    is as before, and when it returns, the environment is the one two
    calls of [KEMKeyPair.generate] in a row leave, the bundle's Kyber
    public key being the public half of the first pair and its Kyber
    secret key the secret half of the second; neither [Math.random] nor
    the clock was used. *)
Theorem X10_deserializeIdentityBundle_entropy (data : SerializedIdentityBundle)
    (w : World) :
  match deserializeIdentityBundle data w with
  | (Ok bundle, w') =>
      (exists (forPublic forSecret : KEMKeyPair) (w1 : World),
         KEMKeyPair_generate w = (Ok forPublic, w1)
         /\ KEMKeyPair_generate w1 = (Ok forSecret, w')
         /\ kpk_publicKey (kyberPreKey bundle) = KEMKeyPair_getPublicKey forPublic
         /\ kpk_secretKey (kyberPreKey bundle) = KEMKeyPair_getSecretKey forSecret)
      /\ registrationId bundle = s_registrationId data
      /\ List.length (preKeys bundle) = List.length (s_preKeys data)
      /\ mathRandom w' = mathRandom w
      /\ clock w' = clock w
  | (Throw _, w') => w' = w
  end.
Proof.
  unfold deserializeIdentityBundle, bind, lift, ret.
  destruct (PrivateKey_deserialize _); [|reflexivity].
  destruct (PublicKey_deserialize _); [|reflexivity].
  destruct (PublicKey_deserialize _); [|reflexivity].
  destruct (PrivateKey_deserialize _); [|reflexivity].
  destruct (map_result deserializePreKey (s_preKeys data)) as [pks|e] eqn:Hpks;
    [|reflexivity].
  rewrite !KEMKeyPair_generate_eq.
  split.
  { eexists _, _, _. rewrite !KEMKeyPair_generate_eq. repeat split. }
  split; [reflexivity|].
  split; [|split; reflexivity].
  cbn [preKeys]. clear -Hpks. revert pks Hpks.
  induction (s_preKeys data) as [|pk l IH]; intros pks Hpks; cbn in Hpks.
  - now injection Hpks as <-.
  - destruct (deserializePreKey pk); [|discriminate].
    destruct (map_result deserializePreKey l) as [ys|]; [|discriminate].
    injection Hpks as <-. cbn. f_equal. now apply IH.
Qed.

(** ** Sessions *)

(** X11.  [establishSession] reads [preKeys[0]] of both bundles before
    it calls the engine: when either bundle has no one-time pre-key it
    throws and no store has changed. *)
Theorem X11_establishSession_needs_a_pre_key {G : Type}
    (entropy : forall A, M World A -> M G A)
    (userIdentity assistantIdentity : IdentityBundle)
    (userStores assistantStores : Ref G SignalStores) (s : G) :
  preKeys userIdentity = [] \/ preKeys assistantIdentity = [] ->
  exists e,
    establishSession entropy userIdentity assistantIdentity userStores assistantStores s
    = (Throw e, s).
Proof.
  intros Hempty. unfold establishSession, buildPreKeyBundle, firstPreKey.
  destruct (preKeys userIdentity) as [|u us].
  - eexists. reflexivity.
  - destruct Hempty as [Hu|Ha]; [discriminate|]. rewrite Ha.
    eexists. reflexivity.
Qed.

Lemma X11_witness :
  (preKeys Fixture.noBundle = [] \/ preKeys Scenario.assistantBundle = [])
  /\ exists e,
       establishSession heapEntropy Fixture.noBundle Scenario.assistantBundle
         userStoresOf assistantStoresOf Scenario.fresh
       = (Throw e, Scenario.fresh).
Proof.
  split; [left; reflexivity|].
  apply (X11_establishSession_needs_a_pre_key heapEntropy Fixture.noBundle
           Scenario.assistantBundle userStoresOf assistantStoresOf Scenario.fresh).
  left. reflexivity.
Defined.

(** Neither messaging operation changes the signed pre-key store, the
    Kyber pre-key store, the collection's own identity key or its
    registration id. *)
Lemma encryptMessage_keeps_long_term_keys (stores : SignalStores) plaintext name :
  let stores' := snd (encryptMessage plaintext name self stores) in
  Store.signedPreKey stores' = Store.signedPreKey stores
  /\ Store.kyberPreKey stores' = Store.kyberPreKey stores
  /\ InMemoryIdentityKeyStore.identityKey (Store.identity stores')
     = InMemoryIdentityKeyStore.identityKey (Store.identity stores)
  /\ InMemoryIdentityKeyStore.localRegistrationId (Store.identity stores')
     = InMemoryIdentityKeyStore.localRegistrationId (Store.identity stores).
Proof.
  cbv zeta. destruct stores as [sst [keys regId idKey] pkt spkt kpkt].
  unfold_engine. unfold_stores.
  repeat (case_innermost;
          cbn [fst snd Store.signedPreKey Store.kyberPreKey Store.identity
               InMemoryIdentityKeyStore.identityKey
               InMemoryIdentityKeyStore.localRegistrationId
               InMemoryIdentityKeyStore.set_idKeys InMemoryIdentityKeyStore.idKeys]);
    repeat split; reflexivity.
Qed.

Lemma decryptMessage_keeps_long_term_keys (stores : SignalStores) ct ty name :
  let stores' := snd (decryptMessage ct ty name self stores) in
  Store.signedPreKey stores' = Store.signedPreKey stores
  /\ Store.kyberPreKey stores' = Store.kyberPreKey stores
  /\ InMemoryIdentityKeyStore.identityKey (Store.identity stores')
     = InMemoryIdentityKeyStore.identityKey (Store.identity stores)
  /\ InMemoryIdentityKeyStore.localRegistrationId (Store.identity stores')
     = InMemoryIdentityKeyStore.localRegistrationId (Store.identity stores).
Proof.
  cbv zeta. destruct stores as [sst [keys regId idKey] pkt spkt kpkt].
  unfold_engine. unfold_stores.
  repeat (case_innermost;
          cbn [fst snd Store.signedPreKey Store.kyberPreKey Store.identity
               InMemoryIdentityKeyStore.identityKey
               InMemoryIdentityKeyStore.localRegistrationId
               InMemoryIdentityKeyStore.set_idKeys InMemoryIdentityKeyStore.idKeys]);
    repeat split; reflexivity.
Qed.

(** X12.  No sequence of [encryptMessage] and [decryptMessage] calls on
    a collection changes its signed pre-key store, its Kyber pre-key
    store, its own identity key or its registration id: the Kyber
    pre-key stays in the store however often it was used
    ([markKyberPreKeyUsed] does nothing). *)
Theorem X12_messaging_keeps_long_term_keys (ops : list Messaging) (stores : SignalStores) :
  let stores' := runAllMessaging ops stores in
  Store.signedPreKey stores' = Store.signedPreKey stores
  /\ Store.kyberPreKey stores' = Store.kyberPreKey stores
  /\ InMemoryIdentityKeyStore.identityKey (Store.identity stores')
     = InMemoryIdentityKeyStore.identityKey (Store.identity stores)
  /\ InMemoryIdentityKeyStore.localRegistrationId (Store.identity stores')
     = InMemoryIdentityKeyStore.localRegistrationId (Store.identity stores).
Proof.
  cbv zeta. revert stores. induction ops as [|op ops IH]; intros stores.
  - repeat split; reflexivity.
  - cbn [runAllMessaging fold_left].
    destruct (IH (runMessaging op stores)) as (H1 & H2 & H3 & H4).
    unfold runAllMessaging in *. rewrite H1, H2, H3, H4.
    destruct op as [pt name|ct ty name]; cbn [runMessaging].
    + apply encryptMessage_keeps_long_term_keys.
    + apply decryptMessage_keeps_long_term_keys.
Qed.

(** X13.  Only a handshake decrypt can consume a one-time pre-key:
    [encryptMessage], and [decryptMessage] of a message of any type other
    than PreKey, leave the pre-key store exactly as it was. *)
Theorem X13_only_handshake_decrypt_consumes (stores : SignalStores) (plaintext : Text)
    (name : string) (ct : Uint8Array) (ty : CiphertextMessageType) :
  Store.preKey (snd (encryptMessage plaintext name self stores)) = Store.preKey stores
  /\ (ty <> PreKey ->
      Store.preKey (snd (decryptMessage ct ty name self stores)) = Store.preKey stores).
Proof.
  split; [apply encryptMessage_preKeys_same|].
  intros Hty. destruct stores as [sst ist pkt spkt kpkt].
  assert (Hno : CiphertextMessageType_eqb ty PreKey = false) by now destruct ty.
  unfold_engine. rewrite Hno. unfold_stores.
  repeat (case_innermost; cbn [fst snd Store.preKey]); reflexivity.
Qed.

Lemma X13_witness :
  Whisper <> PreKey
  /\ Store.preKey (snd (decryptMessage [] Whisper "user" self
                          (ctx_assistantStores Fixture.context0)))
     = Store.preKey (ctx_assistantStores Fixture.context0).
Proof.
  split; [discriminate|].
  apply (X13_only_handshake_decrypt_consumes (ctx_assistantStores Fixture.context0)
           "" "user" [] Whisper).
  discriminate.
Defined.

(** X14.  Without a stored session for the peer, [encryptMessage] throws
    and so does [decryptMessage] of any message that is not a handshake
    message; the collection is left exactly as it was. *)
Theorem X14_no_session_no_messaging (stores : SignalStores) (plaintext : Text)
    (name : string) (ct : Uint8Array) (ty : CiphertextMessageType) :
  InMemorySessionStore.state (Store.session stores)
    !! addressIndex (ProtocolAddress_new name 1) = None ->
  (exists e, encryptMessage plaintext name self stores = (Throw e, stores))
  /\ (ty <> PreKey ->
      exists e, decryptMessage ct ty name self stores = (Throw e, stores)).
Proof.
  intros Hnone. destruct stores as [sst ist pkt spkt kpkt].
  cbn [Store.session] in Hnone. split.
  - unfold_engine. unfold_stores. rewrite Hnone. eexists. reflexivity.
  - intros Hty.
    assert (Hno : CiphertextMessageType_eqb ty PreKey = false) by now destruct ty.
    unfold_engine. rewrite Hno. unfold_stores.
    destruct (SignalMessage_deserialize ct); [|eexists; reflexivity].
    rewrite Hnone. eexists. reflexivity.
Qed.

Lemma X14_witness :
  let stores := newStores Scenario.userBundle in
  InMemorySessionStore.state (Store.session stores)
    !! addressIndex (ProtocolAddress_new "assistant" 1) = None
  /\ exists e, encryptMessage "hello" "assistant" self stores = (Throw e, stores).
Proof.
  cbv zeta.
  assert (Hnone : InMemorySessionStore.state (Store.session (newStores Scenario.userBundle))
                    !! addressIndex (ProtocolAddress_new "assistant" 1) = None)
    by reflexivity.
  split; [exact Hnone|].
  exact (proj1 (X14_no_session_no_messaging (newStores Scenario.userBundle)
                  "hello" "assistant" [] Whisper Hnone)).
Defined.

(** ** Persistence *)

(** X15.  [restoreSession] never writes a session file.  Without a
    session file in the data directory it returns [null] and nothing at
    all has changed.  A session file that cannot be read makes it throw
    the error of the read, one that does not hold JSON makes it throw,
    and one that holds a falsy value makes it return [null], each time
    with nothing changed.  With session data in the file it throws only
    when one of the two identity bundles of the file does not parse;
    store data that cannot be read make it return [null] after exactly
    one line on the error console; and a context it returns carries the
    session data of the file. *)
Theorem X15_restoreSession_effects (dataDir : string) (rt : Runtime) :
  let result := restoreSession dataDir rt in
  files (snd result) = files rt
  /\ match files rt !! path_join dataDir SESSION_FILE with
     | None => result = (Ok None, rt)
     | Some (Unreadable e) => result = (Throw e, rt)
     | Some (RegularFile TextNotJson) => exists e, result = (Throw e, rt)
     | Some (RegularFile TextOfFalsy) => result = (Ok None, rt)
     | Some (RegularFile (TextOfSession sessionData)) =>
         match fst result with
         | Ok (Some context) =>
             ctx_sessionData context = sessionData
             /\ console (snd result) = console rt
         | Ok None => exists line, console (snd result) = console rt ++ [line]
         | Throw e =>
             console (snd result) = console rt
             /\ (fst (deserializeIdentityBundle (userIdentity sessionData) (world rt))
                 = Throw e
                 \/ exists userBundle w1,
                      deserializeIdentityBundle (userIdentity sessionData) (world rt)
                      = (Ok userBundle, w1)
                      /\ fst (deserializeIdentityBundle (assistantIdentity sessionData) w1)
                         = Throw e)
         end
     end.
Proof.
  cbv zeta. rewrite restoreSession_eq.
  destruct (files rt !! path_join dataDir SESSION_FILE) as [[[sd| |]|e]|];
    try (split; reflexivity); [|split; [reflexivity|eexists; reflexivity]].
  destruct (deserializeIdentityBundle (userIdentity sd) (world rt)) as [[ub|e] w1] eqn:Hu.
  - destruct (deserializeIdentityBundle (assistantIdentity sd) w1) as [[ab|e] w2] eqn:Ha.
    + destruct (deserializeStores (userStores sd) self (newStores ub)) as [[[]|e] us].
      * destruct (deserializeStores (assistantStores sd) self (newStores ab))
          as [[[]|e] as_]; cbn [fst snd files console ctx_sessionData].
        -- repeat split; reflexivity.
        -- split; [reflexivity|]. eexists. reflexivity.
      * cbn [fst snd files console]. split; [reflexivity|]. eexists. reflexivity.
    + cbn [fst snd files console]. split; [reflexivity|]. split; [reflexivity|].
      right. exists ub, w1. rewrite Ha. split; reflexivity.
  - cbn [fst snd files console]. split; [reflexivity|]. split; [reflexivity|].
    now left.
Qed.

(** Deserializing the serialized form of a collection into a target gives
    the source's stores with the target's own identity key and
    registration id. *)
Lemma deserializeStores_serializeStores (stores target : SignalStores) :
  wellFormedStores stores = true ->
  deserializeStores (serializeStores stores) self target
  = (Ok tt,
     mkSignalStores
       (Store.session stores)
       (InMemoryIdentityKeyStore.mk
          (InMemoryIdentityKeyStore.idKeys (Store.identity stores))
          (InMemoryIdentityKeyStore.localRegistrationId (Store.identity target))
          (InMemoryIdentityKeyStore.identityKey (Store.identity target)))
       (Store.preKey stores)
       (Store.signedPreKey stores)
       (Store.kyberPreKey stores)).
Proof.
  intros Hwf. apply wellFormedStores_Forall in Hwf.
  destruct stores as [[ss] [keys regId idKey] [pk] [spk] [kpk]].
  destruct target as [tss [tkeys tregId tidKey] tpk tspk tkpk].
  cbn [Store.identity InMemoryIdentityKeyStore.idKeys] in Hwf.
  unfold deserializeStores, serializeStores.
  cbn [ser_session ser_identity ser_preKey ser_signedPreKey ser_kyberPreKey
       Store.session Store.identity Store.preKey Store.signedPreKey Store.kyberPreKey].
  rewrite SessionStore_serialize_eq, PreKeyStore_serialize_eq,
    SignedPreKeyStore_serialize_eq, KyberPreKeyStore_serialize_eq.
  pose proof (IdentityStore_serialize_keys
                (InMemoryIdentityKeyStore.mk keys regId idKey)) as Hid.
  unfold InMemoryIdentityKeyStore.serialize in *.
  cbn [InMemoryIdentityKeyStore.s_identityKeys InMemoryIdentityKeyStore.idKeys
       InMemoryIdentityKeyStore.identityKey
       InMemoryIdentityKeyStore.localRegistrationId] in *.
  rewrite Hid.
  unfold bind, call, zoom, session_of, identity_of, preKey_of, signedPreKey_of,
    kyberPreKey_of, field, self.
  cbn [rget rset Store.session Store.identity Store.preKey Store.signedPreKey
       Store.kyberPreKey].
  rewrite SessionStore_deserialize_eq.
  rewrite (IdentityStore_deserialize_eq keys _ _ _ Hwf).
  rewrite PreKeyStore_deserialize_eq, SignedPreKeyStore_deserialize_eq,
    KyberPreKeyStore_deserialize_eq.
  cbn [InMemorySessionStore.state InMemoryPreKeyStore.state
       InMemorySignedPreKeyStore.state InMemoryKyberPreKeyStore.state].
  rewrite !fmap_fromBase64_toBase64. reflexivity.
Qed.

(** The world after [KEMKeyPair.generate] has returned. *)
Lemma KEMKeyPair_generate_world (w : World) :
  snd (KEMKeyPair_generate w) = afterSecureBytes 32 w.
Proof. now rewrite KEMKeyPair_generate_eq. Qed.

(** X16.  A session file that holds the serialized form of two
    well-formed bundles and of two store collections built for these
    bundles is restored exactly: [restoreSession] returns the session
    data of the file with both collections as they were serialized,
    writes nothing and logs nothing; the environment is the one four
    calls of [KEMKeyPair.generate] in a row leave (the Kyber keys of the
    two bundles, which are in neither collection). *)
Theorem X16_restoreSession_restores_stores (dataDir : string) (rt : Runtime)
    (sessionData : SessionData) (userBundle assistantBundle : IdentityBundle)
    (user assistant : SignalStores) :
  files rt !! path_join dataDir SESSION_FILE
  = Some (RegularFile (TextOfSession sessionData)) ->
  userIdentity sessionData = serializeIdentityBundle userBundle ->
  assistantIdentity sessionData = serializeIdentityBundle assistantBundle ->
  userStores sessionData = serializeStores user ->
  assistantStores sessionData = serializeStores assistant ->
  wellFormedBundle userBundle = true ->
  wellFormedBundle assistantBundle = true ->
  wellFormedStores user = true ->
  wellFormedStores assistant = true ->
  Store.identity user
  = InMemoryIdentityKeyStore.mk (InMemoryIdentityKeyStore.idKeys (Store.identity user))
      (registrationId userBundle) (ikp_privateKey (identityKeyPair userBundle)) ->
  Store.identity assistant
  = InMemoryIdentityKeyStore.mk (InMemoryIdentityKeyStore.idKeys (Store.identity assistant))
      (registrationId assistantBundle)
      (ikp_privateKey (identityKeyPair assistantBundle)) ->
  restoreSession dataDir rt
  = (Ok (Some (mkSessionContext sessionData user assistant)),
     mkRuntime
       (snd ((KEMKeyPair_generate ;;; KEMKeyPair_generate ;;;
              KEMKeyPair_generate ;;; KEMKeyPair_generate) (world rt)))
       (files rt) (console rt)).
Proof.
  intros Hfile Hub Hab Hus Has Hwub Hwab Hwus Hwas Hidu Hida.
  rewrite restoreSession_eq, Hfile, Hub, Hab, Hus, Has.
  rewrite deserializeIdentityBundle_serialized by assumption.
  unfold bind, ret. rewrite !KEMKeyPair_generate_eq.
  rewrite deserializeIdentityBundle_serialized by assumption.
  unfold bind, ret. rewrite !KEMKeyPair_generate_eq.
  rewrite !deserializeStores_serializeStores by assumption.
  unfold newStores. cbn [Store.identity InMemoryIdentityKeyStore.new
                         InMemoryIdentityKeyStore.localRegistrationId
                         InMemoryIdentityKeyStore.identityKey
                         registrationId identityKeyPair snd].
  rewrite <- Hidu, <- Hida.
  now destruct user, assistant.
Qed.

Lemma X16_witness :
  restoreSession Fixture.dataDir Fixture.runtime1
  = (Ok (Some (mkSessionContext (ctx_sessionData Fixture.context0)
                 (ctx_userStores Fixture.context0)
                 (ctx_assistantStores Fixture.context0))),
     mkRuntime
       (snd ((KEMKeyPair_generate ;;; KEMKeyPair_generate ;;;
              KEMKeyPair_generate ;;; KEMKeyPair_generate) (world Fixture.runtime1)))
       (files Fixture.runtime1) (console Fixture.runtime1)).
Proof.
  apply (X16_restoreSession_restores_stores Fixture.dataDir Fixture.runtime1
           (ctx_sessionData Fixture.context0) Scenario.userBundle
           Scenario.assistantBundle (ctx_userStores Fixture.context0)
           (ctx_assistantStores Fixture.context0)).
  all: vm_compute; reflexivity.
Defined.

(** ** Creating a session *)


Lemma encapsulate_eq (pk : KEMPublicKey) (w : World) :
  exists kem, encapsulate pk w = (Ok kem, afterSecureBytes 32 w).
Proof.
  unfold encapsulate, secureRandomBytes, draw, bind, ret, afterSecureBytes.
  cbn. eexists. reflexivity.
Qed.

Ltac simp_heap :=
  cbn [fst snd rget rset heapUser runtime heapAssistant world files console
       Store.session Store.identity Store.preKey Store.signedPreKey Store.kyberPreKey
       negb].

(** The key agreement of the initiator returns when both signatures of
    the bundle verify and the session store holds no session for the
    address; it changes the collection it is given and reads the secure
    generator, and nothing else. *)
Lemma processPreKeyBundle_user_ok (bundle : PreKeyBundle) (address : ProtocolAddress)
    (h : Heap) :
  verify (PreKeyBundle_identityKey bundle)
    (PublicKey_serialize (PreKeyBundle_signedPreKeyPublic bundle))
    (PreKeyBundle_signedPreKeySignature bundle) = true ->
  verify (PreKeyBundle_identityKey bundle)
    (KEMPublicKey_serialize (PreKeyBundle_kyberPreKeyPublic bundle))
    (PreKeyBundle_kyberPreKeySignature bundle) = true ->
  InMemorySessionStore.state (Store.session (heapUser h)) !! addressIndex address = None ->
  exists h',
    processPreKeyBundle heapEntropy bundle address (sessionStore userStoresOf)
      (identityStore userStoresOf) h = (Ok tt, h')
    /\ heapAssistant h' = heapAssistant h
    /\ files (runtime h') = files (runtime h)
    /\ console (runtime h') = console (runtime h)
    /\ fileSystem (world (runtime h')) = fileSystem (world (runtime h)).
Proof.
  intros Hs Hk Hnone. destruct h as [[w f c] [s i p sp k] a].
  cbn [heapUser Store.session] in Hnone.
  unfold processPreKeyBundle. cbv zeta.
  unfold sessionStore, identityStore.
  cbn [SessionStore_getSession SessionStore_saveSession
       IdentityKeyStore_isTrustedIdentity IdentityKeyStore_saveIdentity
       IdentityKeyStore_getIdentityKey].
  unfold session_of, identity_of, heapEntropy, userStoresOf, runtimeOf, worldOf.
  unfold_stores. simp_heap.
  rewrite Hs, Hk. simp_heap. rewrite Hnone. simp_heap.
  rewrite PrivateKey_generate_eq. simp_heap.
  destruct (encapsulate_eq (PreKeyBundle_kyberPreKeyPublic bundle)
              (afterSecureBytes 32 w)) as [kem ->].
  simp_heap.
  eexists. split; [reflexivity|]. repeat split; reflexivity.
Qed.

Lemma processPreKeyBundle_assistant_ok (bundle : PreKeyBundle) (address : ProtocolAddress)
    (h : Heap) :
  verify (PreKeyBundle_identityKey bundle)
    (PublicKey_serialize (PreKeyBundle_signedPreKeyPublic bundle))
    (PreKeyBundle_signedPreKeySignature bundle) = true ->
  verify (PreKeyBundle_identityKey bundle)
    (KEMPublicKey_serialize (PreKeyBundle_kyberPreKeyPublic bundle))
    (PreKeyBundle_kyberPreKeySignature bundle) = true ->
  InMemorySessionStore.state (Store.session (heapAssistant h)) !! addressIndex address
  = None ->
  exists h',
    processPreKeyBundle heapEntropy bundle address (sessionStore assistantStoresOf)
      (identityStore assistantStoresOf) h = (Ok tt, h')
    /\ heapUser h' = heapUser h
    /\ files (runtime h') = files (runtime h)
    /\ console (runtime h') = console (runtime h)
    /\ fileSystem (world (runtime h')) = fileSystem (world (runtime h)).
Proof.
  intros Hs Hk Hnone. destruct h as [[w f c] u [s i p sp k]].
  cbn [heapAssistant Store.session] in Hnone.
  unfold processPreKeyBundle. cbv zeta.
  unfold sessionStore, identityStore.
  cbn [SessionStore_getSession SessionStore_saveSession
       IdentityKeyStore_isTrustedIdentity IdentityKeyStore_saveIdentity
       IdentityKeyStore_getIdentityKey].
  unfold session_of, identity_of, heapEntropy, assistantStoresOf, runtimeOf, worldOf.
  unfold_stores. simp_heap.
  rewrite Hs, Hk. simp_heap. rewrite Hnone. simp_heap.
  rewrite PrivateKey_generate_eq. simp_heap.
  destruct (encapsulate_eq (PreKeyBundle_kyberPreKeyPublic bundle)
              (afterSecureBytes 32 w)) as [kem ->].
  simp_heap.
  eexists. split; [reflexivity|]. repeat split; reflexivity.
Qed.

Lemma for_of_savePreKey_assistant (l : list PreKeyData) (h : Heap) :
  exists preKeys',
    for_of l
      (fun preKey =>
         PreKeyStore_savePreKey (preKeyStore assistantStoresOf) (pk_id preKey)
           (PreKeyRecord_new (pk_id preKey) (pk_publicKey preKey) (pk_privateKey preKey))) h
    = (Ok tt,
       mkHeap (runtime h) (heapUser h)
         (mkSignalStores (Store.session (heapAssistant h))
            (Store.identity (heapAssistant h)) preKeys'
            (Store.signedPreKey (heapAssistant h))
            (Store.kyberPreKey (heapAssistant h)))).
Proof.
  revert h. induction l as [|pk l IH]; intros h.
  - exists (Store.preKey (heapAssistant h)). now destruct h as [rt u []].
  - cbn [for_of]. unfold bind at 1.
    destruct (IH (snd (PreKeyStore_savePreKey (preKeyStore assistantStoresOf) (pk_id pk)
           (PreKeyRecord_new (pk_id pk) (pk_publicKey pk) (pk_privateKey pk)) h)))
      as [preKeys' E].
    exists preKeys'.
    unfold preKeyStore, PreKeyStore_savePreKey, call, zoom, preKey_of, field,
      assistantStoresOf, InMemoryPreKeyStore.savePreKey, modify in *.
    cbn [rget rset fst snd heapUser runtime heapAssistant Store.session
         Store.identity Store.preKey Store.signedPreKey Store.kyberPreKey] in *.
    exact E.
Qed.

(** [populateStores] returns, and the session store of the collection it
    fills, the other collection, the files and the console are as before. *)
Lemma populateStores_user_ok (bundle : IdentityBundle) (h : Heap) :
  exists h',
    populateStores heapEntropy bundle userStoresOf h = (Ok tt, h')
    /\ Store.session (heapUser h') = Store.session (heapUser h)
    /\ heapAssistant h' = heapAssistant h
    /\ files (runtime h') = files (runtime h)
    /\ console (runtime h') = console (runtime h)
    /\ fileSystem (world (runtime h')) = fileSystem (world (runtime h)).
Proof.
  unfold populateStores. unfold bind.
  destruct (for_of_savePreKey (preKeys bundle) h) as [preKeys' ->].
  unfold KEMKeyPair_generate, secureRandomBytes, draw.
  unfold bind, signedPreKeyStore, kyberPreKeyStore, SignedPreKeyStore_saveSignedPreKey,
    KyberPreKeyStore_saveKyberPreKey, heapEntropy, call, zoom, signedPreKey_of,
    kyberPreKey_of, field, userStoresOf, runtimeOf, worldOf,
    InMemorySignedPreKeyStore.saveSignedPreKey, InMemoryKyberPreKeyStore.saveKyberPreKey,
    modify, ret.
  simp_heap. eexists. split; [reflexivity|]. repeat split; reflexivity.
Qed.

Lemma populateStores_assistant_ok (bundle : IdentityBundle) (h : Heap) :
  exists h',
    populateStores heapEntropy bundle assistantStoresOf h = (Ok tt, h')
    /\ Store.session (heapAssistant h') = Store.session (heapAssistant h)
    /\ heapUser h' = heapUser h
    /\ files (runtime h') = files (runtime h)
    /\ console (runtime h') = console (runtime h)
    /\ fileSystem (world (runtime h')) = fileSystem (world (runtime h)).
Proof.
  unfold populateStores. unfold bind.
  destruct (for_of_savePreKey_assistant (preKeys bundle) h) as [preKeys' ->].
  unfold KEMKeyPair_generate, secureRandomBytes, draw.
  unfold bind, signedPreKeyStore, kyberPreKeyStore, SignedPreKeyStore_saveSignedPreKey,
    KyberPreKeyStore_saveKyberPreKey, heapEntropy, call, zoom, signedPreKey_of,
    kyberPreKey_of, field, assistantStoresOf, runtimeOf, worldOf,
    InMemorySignedPreKeyStore.saveSignedPreKey, InMemoryKyberPreKeyStore.saveKyberPreKey,
    modify, ret.
  simp_heap. eexists. split; [reflexivity|]. repeat split; reflexivity.
Qed.

(** The pre-key bundle [establishSession] builds from a generated
    identity bundle passes both signature checks of the engine. *)
Lemma createIdentityBundle_bundle_ok (w : World) :
  exists bundle w',
    createIdentityBundle w = (Ok bundle, w')
    /\ (exists first rest, preKeys bundle = first :: rest)
    /\ verify (ikp_publicKey (identityKeyPair bundle))
         (PublicKey_serialize (spk_publicKey (signedPreKey bundle)))
         (spk_signature (signedPreKey bundle)) = true
    /\ verify (ikp_publicKey (identityKeyPair bundle))
         (KEMPublicKey_serialize (kpk_publicKey (kyberPreKey bundle)))
         (kpk_signature (kyberPreKey bundle)) = true
    /\ fileSystem w' = fileSystem w.
Proof.
  pose proof (createIdentityBundle_spec w) as H.
  destruct (createIdentityBundle w) as [[bundle|e] w']; [|contradiction].
  destruct H as (Hids & _ & _ & _ & _ & _ & Hsig & Hksig & _ & _ & _ & _ & _ & _ & Hfs).
  exists bundle, w'. split; [reflexivity|]. split.
  - destruct (preKeys bundle) as [|first rest]; [discriminate|]. now exists first, rest.
  - repeat split; assumption.
Qed.

(** [createNewSession] builds the session in memory, which cannot fail,
    and then saves it: it returns the context it built when the save
    succeeds and throws the error of the save otherwise. *)
Lemma createNewSession_spec (dataDir modelName : string) (rt : Runtime) :
  exists (context : SessionContext) (w' : World),
    let sessionData := ctx_sessionData context in
    createNewSession dataDir modelName rt
    = match saveSession dataDir sessionData (mkRuntime w' (files rt) (console rt)) with
      | (Ok _, rt') => (Ok context, rt')
      | (Throw e, rt') => (Throw e, rt')
      end
    /\ fileSystem w' = fileSystem (world rt)
    /\ version sessionData = 1%N
    /\ model sessionData = modelName
    /\ messages sessionData = []
    /\ userStores sessionData = serializeStores (ctx_userStores context)
    /\ assistantStores sessionData = serializeStores (ctx_assistantStores context)
    /\ exists userBundle w1 assistantBundle w2,
         createIdentityBundle (world rt) = (Ok userBundle, w1)
         /\ createIdentityBundle w1 = (Ok assistantBundle, w2)
         /\ userIdentity sessionData = serializeIdentityBundle userBundle
         /\ assistantIdentity sessionData = serializeIdentityBundle assistantBundle.
Proof.
  destruct rt as [w f c].
  unfold createNewSession.
  destruct (createIdentityBundle_bundle_ok w)
    as (ub & w1 & Eu & (u1 & us & Hu) & Hus & Huk & Hw1).
  destruct (createIdentityBundle_bundle_ok w1)
    as (ab & w2 & Ea & (a1 & as_ & Ha) & Has & Hak & Hw2).
  unfold bind at 1. unfold call at 1, zoom at 1, worldOf at 1 2. cbn [rget rset world].
  rewrite Eu. unfold bind at 1. unfold call at 1, zoom at 1, worldOf at 1 2.
  cbn [rget rset world files console]. rewrite Ea.
  unfold withStores.
  unfold bind at 1.
  destruct (populateStores_user_ok ub
              (mkHeap (mkRuntime w2 f c) (newStores ub) (newStores ab)))
    as (h1 & -> & Hs1 & Ha1 & Hf1 & Hc1 & Hy1).
  unfold bind at 1.
  destruct (populateStores_assistant_ok ab h1) as (h2 & -> & Hs2 & Hu2 & Hf2 & Hc2 & Hy2).
  unfold bind at 1.
  assert (Hes : exists h3,
             establishSession heapEntropy ub ab userStoresOf assistantStoresOf h2
             = (Ok tt, h3)
             /\ files (runtime h3) = files (runtime h2)
             /\ console (runtime h3) = console (runtime h2)
             /\ fileSystem (world (runtime h3)) = fileSystem (world (runtime h2))).
  { unfold establishSession, buildPreKeyBundle, firstPreKey. rewrite Hu, Ha.
    unfold bind, ret. cbv beta iota.
    match goal with |- context [processPreKeyBundle heapEntropy ?b ?a
                                  (sessionStore userStoresOf) _ h2] =>
      destruct (processPreKeyBundle_user_ok b a h2) as (h' & -> & Hah & Hfh & Hch & Hyh)
    end.
    - exact Has.
    - exact Hak.
    - rewrite Hu2, Hs1. reflexivity.
    - cbv beta iota.
      match goal with |- context [processPreKeyBundle heapEntropy ?b ?a
                                    (sessionStore assistantStoresOf) _ h'] =>
        destruct (processPreKeyBundle_assistant_ok b a h')
          as (h3 & -> & _ & Hf3 & Hc3 & Hy3)
      end.
      + exact Hus.
      + exact Huk.
      + rewrite Hah, Hs2, Ha1. reflexivity.
      + exists h3. split; [reflexivity|]. repeat split; congruence. }
  destruct Hes as (h3 & -> & Hf3 & Hc3 & Hy3).
  destruct h3 as [[w3 f3 c3] u3 a3].
  cbn [runtime world files console] in *.
  assert (f3 = f) as -> by congruence.
  assert (c3 = c) as -> by congruence.
  unfold bind at 1.
  unfold heapEntropy at 1, call at 1 2, zoom at 1 2, runtimeOf at 1 2, worldOf at 1 2.
  cbn [rget rset runtime world files console heapUser heapAssistant].
  destruct (Date_now w3) as [[now|e] w4] eqn:Enow; [|discriminate Enow].
  assert (Hw4 : fileSystem w4 = fileSystem w3).
  { unfold Date_now, read in Enow. now injection Enow as _ <-. }
  cbn [fst snd].
  exists (mkSessionContext
            (mkSessionData 1 now modelName (serializeIdentityBundle ub)
               (serializeIdentityBundle ab) (serializeStores u3) (serializeStores a3) [])
            u3 a3), w4.
  cbv zeta.
  cbn [ctx_sessionData ctx_userStores ctx_assistantStores version model messages
       userStores assistantStores userIdentity assistantIdentity].
  split.
  { unfold bind at 1. unfold get at 1. cbv beta iota.
    cbn [heapUser heapAssistant].
    unfold bind at 1. unfold call at 1, zoom at 1, runtimeOf at 1 2.
    cbn [rget rset runtime heapUser heapAssistant].
    destruct (saveSession dataDir _ _) as [[[]|e] rt']; reflexivity. }
  split; [congruence|].
  repeat (split; [reflexivity|]).
  exists ub, w1, ab, w2. repeat split; reflexivity || assumption.
Qed.

(** What [createNewSession] does, by the answers of the file system. *)
Lemma createNewSession_cases (dataDir modelName : string) (rt : Runtime) :
  let result := createNewSession dataDir modelName rt in
  let sessionPath := path_join dataDir SESSION_FILE in
  console (snd result) = console rt
  /\ match fsAnswerAt 0 (world rt), fsAnswerAt 1 (world rt) with
     | FsFailed e _, _ => fst result = Throw e /\ files (snd result) = files rt
     | FsDone, FsFailed e damaged =>
         fst result = Throw e
         /\ files (snd result)
            = if damaged then <[sessionPath := RegularFile TextNotJson]> (files rt)
              else files rt
     | FsDone, FsDone =>
         exists context : SessionContext,
           let sessionData := ctx_sessionData context in
           fst result = Ok context
           /\ files (snd result)
              = <[sessionPath := RegularFile (TextOfSession sessionData)]> (files rt)
           /\ version sessionData = 1%N
           /\ model sessionData = modelName
           /\ messages sessionData = []
           /\ userStores sessionData = serializeStores (ctx_userStores context)
           /\ assistantStores sessionData = serializeStores (ctx_assistantStores context)
           /\ exists userBundle w1 assistantBundle w2,
                createIdentityBundle (world rt) = (Ok userBundle, w1)
                /\ createIdentityBundle w1 = (Ok assistantBundle, w2)
                /\ userIdentity sessionData = serializeIdentityBundle userBundle
                /\ assistantIdentity sessionData
                   = serializeIdentityBundle assistantBundle
     end.
Proof.
  cbv zeta.
  destruct (createNewSession_spec dataDir modelName rt)
    as (context & w' & E & Hfs & Hversion & Hmodel & Hmessages & Hus & Has & Hbundles).
  cbv zeta in E. rewrite E, saveSession_eq. clear E.
  unfold fsAnswerAt, afterFsOnly, afterSave. cbn [world files console].
  rewrite Hfs.
  destruct (feed (fileSystem (world rt)) (cursor (fileSystem (world rt)) + 0))
    as [|e damaged].
  - destruct (feed (fileSystem (world rt)) (cursor (fileSystem (world rt)) + 1))
      as [|e damaged].
    + cbn [fst snd files console]. split; [reflexivity|].
      exists context. cbv zeta. repeat (split; [reflexivity || assumption|]).
      exact Hbundles.
    + destruct damaged; cbn [fst snd files console]; repeat split.
  - cbn [fst snd files console]. repeat split.
Qed.

(** X17.  [createNewSession] throws only when the file system fails:
    when the data directory cannot be made it throws that error and no
    file has changed; when the session file cannot be written it throws
    that error and no file has changed but the session file, which may
    be left damaged.  Otherwise it returns, the session file of the
    data directory holds the session data it returns and no other file
    has changed; the session data have version 1, the given model and no
    messages, hold the serialized form of two bundles generated one
    after the other, and their two serialized store collections are the
    serializations of the two collections returned.  In no case is
    anything written to the error console. *)
Theorem X17_createNewSession_outcome (dataDir modelName : string) (rt : Runtime) :
  let result := createNewSession dataDir modelName rt in
  let sessionPath := path_join dataDir SESSION_FILE in
  console (snd result) = console rt
  /\ match fsAnswerAt 0 (world rt), fsAnswerAt 1 (world rt) with
     | FsFailed e _, _ => fst result = Throw e /\ files (snd result) = files rt
     | FsDone, FsFailed e damaged =>
         fst result = Throw e
         /\ files (snd result)
            = if damaged then <[sessionPath := RegularFile TextNotJson]> (files rt)
              else files rt
     | FsDone, FsDone =>
         exists context : SessionContext,
           let sessionData := ctx_sessionData context in
           fst result = Ok context
           /\ files (snd result)
              = <[sessionPath := RegularFile (TextOfSession sessionData)]> (files rt)
           /\ version sessionData = 1%N
           /\ model sessionData = modelName
           /\ messages sessionData = []
           /\ userStores sessionData = serializeStores (ctx_userStores context)
           /\ assistantStores sessionData = serializeStores (ctx_assistantStores context)
           /\ exists userBundle w1 assistantBundle w2,
                createIdentityBundle (world rt) = (Ok userBundle, w1)
                /\ createIdentityBundle w1 = (Ok assistantBundle, w2)
                /\ userIdentity sessionData = serializeIdentityBundle userBundle
                /\ assistantIdentity sessionData
                   = serializeIdentityBundle assistantBundle
     end.
Proof. exact (createNewSession_cases dataDir modelName rt). Qed.

(** ** Submitting a message *)

Ltac simp_state :=
  cbn [fst snd rget rset st_runtime st_sessionData st_userStores st_assistantStores
       st_messages st_isLoading st_error st_input world files console
       csprng mathRandom clock feed cursor
       userStoresRef assistantStoresRef runtimeRef worldOf].

Ltac simp_state_in H :=
  cbn [fst snd rget rset st_runtime st_sessionData st_userStores st_assistantStores
       st_messages st_isLoading st_error st_input world files console
       csprng mathRandom clock feed cursor
       userStoresRef assistantStoresRef runtimeRef worldOf] in H.

Lemma bind_unfold {S A B} (m : M S A) (k : A -> M S B) (s : S) :
  bind m k s
  = match m s with
    | (Ok a, s1) => k a s1
    | (Throw e, s1) => (Throw e, s1)
    end.
Proof. reflexivity. Qed.

Lemma try_catch_unfold {S A} (m : M S A) (h : JsError -> M S A) (s : S) :
  try_catch m h s
  = match m s with
    | (Ok a, s1) => (Ok a, s1)
    | (Throw e, s1) => h e s1
    end.
Proof. reflexivity. Qed.

(** Reading the environment from the component never fails and changes
    the environment only. *)
Lemma generateId_in_state (s : State) :
  exists id w,
    call runtimeRef (call worldOf generateId) s
    = (Ok id,
       mkState (mkRuntime w (files (st_runtime s)) (console (st_runtime s)))
         (st_sessionData s) (st_userStores s) (st_assistantStores s) (st_messages s)
         (st_isLoading s) (st_error s) (st_input s)).
Proof. eexists _, _. reflexivity. Qed.

Lemma Date_now_in_state (s : State) :
  exists t w,
    call runtimeRef (call worldOf Date_now) s
    = (Ok t,
       mkState (mkRuntime w (files (st_runtime s)) (console (st_runtime s)))
         (st_sessionData s) (st_userStores s) (st_assistantStores s) (st_messages s)
         (st_isLoading s) (st_error s) (st_input s)).
Proof. eexists _, _. reflexivity. Qed.

Ltac simp_data_in H :=
  cbn [version created model userIdentity assistantIdentity userStores assistantStores
       messages] in H.

Ltac encrypt_in E ref law :=
  match type of E with
  | context [encryptMessage ?p ?n ref ?S1] =>
      let t := fresh "t" in
      let Ht := fresh "Ht" in
      let s2 := fresh "s2" in
      destruct (encryptMessage_touches ref p n law S1) as [t Ht];
      destruct (encryptMessage p n ref S1) as [[?enc|?e] s2];
      cbn [snd] in Ht; subst s2; cbv beta iota in E; simp_state_in E
  end.

Ltac step_in E :=
  first
    [ rewrite bind_unfold in E
    | rewrite try_catch_unfold in E ];
  lazymatch type of E with
  | context [call runtimeRef (call worldOf generateId) ?S1] =>
      let id := fresh "id" in let w := fresh "w" in let H := fresh in
      destruct (generateId_in_state S1) as (id & w & H); rewrite H in E; clear H
  | context [call runtimeRef (call worldOf Date_now) ?S1] =>
      let t := fresh "t" in let w := fresh "w" in let H := fresh in
      destruct (Date_now_in_state S1) as (t & w & H); rewrite H in E; clear H
  | _ => idtac
  end;
  cbv beta iota in E; simp_state_in E.

(** [updateSessionMessages] on the session data of the component: the
    user's stores of the session data are replaced in memory, then the
    session data are saved. *)
Lemma updateSessionMessages_in_state (dataDir : string) (stores : SignalStores)
    (s : State) :
  updateSessionMessages runtimeRef dataDir sessionDataRef stores s
  = (fst (saveSession dataDir
            (mkSessionData (version (st_sessionData s)) (created (st_sessionData s))
               (model (st_sessionData s)) (userIdentity (st_sessionData s))
               (assistantIdentity (st_sessionData s)) (serializeStores stores)
               (assistantStores (st_sessionData s)) (messages (st_sessionData s)))
            (st_runtime s)),
     mkState
       (snd (saveSession dataDir
               (mkSessionData (version (st_sessionData s)) (created (st_sessionData s))
                  (model (st_sessionData s)) (userIdentity (st_sessionData s))
                  (assistantIdentity (st_sessionData s)) (serializeStores stores)
                  (assistantStores (st_sessionData s)) (messages (st_sessionData s)))
               (st_runtime s)))
       (mkSessionData (version (st_sessionData s)) (created (st_sessionData s))
          (model (st_sessionData s)) (userIdentity (st_sessionData s))
          (assistantIdentity (st_sessionData s)) (serializeStores stores)
          (assistantStores (st_sessionData s)) (messages (st_sessionData s)))
       (st_userStores s) (st_assistantStores s) (st_messages s) (st_isLoading s)
       (st_error s) (st_input s)).
Proof.
  unfold updateSessionMessages, call, zoom, bind, modify, get, ret.
  cbn [fst snd rget rset runtimeRef sessionDataRef st_runtime st_sessionData
       st_userStores st_assistantStores st_messages st_isLoading st_error st_input].
  now destruct (saveSession dataDir _ (st_runtime s)) as [[[]|e] rt'].
Qed.

(** X18. [handleSubmit] never throws.  When a response is loading or the
    trimmed input is empty it changes nothing.  Otherwise it ends with
    the loading flag off and the input empty, and either an error is
    shown and no file was written, except that a failed write may have
    left the session file damaged, or the session file holds the new
    session data, whose user stores are the serialized user stores in
    memory, and exactly one user and one assistant record and message
    were appended, the user message being the trimmed input. *)
Theorem X18_handleSubmit_outcome (dataDir : string)
    (streamChat : string -> list ChatMessage -> Result (list Text)) (s : State) :
  let result := handleSubmit dataDir streamChat s in
  let s' := snd result in
  let sessionPath := path_join dataDir SESSION_FILE in
  fst result = Ok tt
  /\ (st_isLoading s || isEmpty (trim (st_input s)) = true -> s' = s)
  /\ (st_isLoading s || isEmpty (trim (st_input s)) = false ->
      st_isLoading s' = false
      /\ st_input s' = []
      /\ match st_error s' with
         | Some _ =>
             files (st_runtime s') = files (st_runtime s)
             \/ files (st_runtime s')
                = <[sessionPath := RegularFile TextNotJson]> (files (st_runtime s))
         | None =>
             files (st_runtime s')
             = <[sessionPath := RegularFile (TextOfSession (st_sessionData s'))]>
                 (files (st_runtime s))
             /\ userStores (st_sessionData s') = serializeStores (st_userStores s')
             /\ (exists userRecord assistantRecord,
                   messages (st_sessionData s')
                   = messages (st_sessionData s) ++ [userRecord; assistantRecord]
                   /\ emr_sender userRecord = user
                   /\ emr_sender assistantRecord = assistant)
             /\ (exists userMessage assistantMessage,
                   st_messages s' = st_messages s ++ [userMessage; assistantMessage]
                   /\ cm_role userMessage = user
                   /\ cm_content userMessage = trim (st_input s)
                   /\ cm_role assistantMessage = assistant)
         end).
Proof.
  cbv zeta.
  destruct (handleSubmit dataDir streamChat s) as [r s'] eqn:E. cbn [fst snd].
  unfold handleSubmit in E.
  unfold setInput, setIsLoading, setError, setMessages, setSessionData, modify, get, ret,
    lift in E.
  step_in E.
  destruct (st_isLoading s || isEmpty (trim (st_input s))) eqn:Hguard.
  - injection E as <- <-. split; [reflexivity|]. split; [reflexivity|discriminate].
  - do 5 step_in E.
    do 3 step_in E.
    encrypt_in E userStoresRef userStoresRef_lawful.
    + do 2 step_in E.
      match type of E with
      | context [streamChat ?m ?ms] => destruct (streamChat m ms) as [chunks|e2]
      end; cbv beta iota in E.
      * step_in E. encrypt_in E assistantStoresRef assistantStoresRef_lawful.
        -- do 6 step_in E.
           rewrite updateSessionMessages_in_state, saveSession_eq in E.
           simp_state_in E. simp_data_in E.
           unfold afterFsOnly, afterSave in E.
           destruct (fsAnswerAt 0 _) as [|e0 damaged0].
           ++ destruct (fsAnswerAt 1 _) as [|e1 damaged1].
              ** simp_state_in E. injection E as <- <-. simp_state.
                 split; [reflexivity|]. split; [discriminate|]. intros _.
                 split; [reflexivity|]. split; [reflexivity|].
                 cbn [userStores messages].
                 split; [reflexivity|]. split; [reflexivity|].
                 split.
                 --- eexists _, _. split; [reflexivity|]. split; reflexivity.
                 --- eexists _, _. split; [rewrite <- app_assoc; reflexivity|].
                     repeat split; reflexivity.
              ** simp_state_in E. injection E as <- <-. simp_state.
                 split; [reflexivity|]. split; [discriminate|]. intros _.
                 split; [reflexivity|]. split; [reflexivity|].
                 destruct damaged1; [right|left]; reflexivity.
           ++ simp_state_in E. injection E as <- <-. simp_state.
              split; [reflexivity|]. split; [discriminate|]. intros _.
              split; [reflexivity|]. split; [reflexivity|]. left. reflexivity.
        -- injection E as <- <-. simp_state.
           split; [reflexivity|]. split; [discriminate|]. intros _.
           split; [reflexivity|]. split; [reflexivity|]. left. reflexivity.
      * injection E as <- <-. simp_state.
        split; [reflexivity|]. split; [discriminate|]. intros _.
        split; [reflexivity|]. split; [reflexivity|]. left. reflexivity.
    + injection E as <- <-. simp_state.
      split; [reflexivity|]. split; [discriminate|]. intros _.
      split; [reflexivity|]. split; [reflexivity|]. left. reflexivity.
Qed.

Lemma X18_witness :
  st_isLoading Submission.mounted || isEmpty (trim (st_input Submission.mounted)) = false
  /\ st_isLoading Submission.submitted = false
  /\ st_input Submission.submitted = [].
Proof.
  split; [reflexivity|].
  pose proof (proj2 (proj2 (X18_handleSubmit_outcome Fixture.dataDir Submission.streamChat
                              Submission.mounted)) eq_refl) as H.
  split; [exact (proj1 H)|exact (proj1 (proj2 H))].
Defined.

Import ChatViewInput Prompt.

(** ** The prompt of the chat view *)

(** *** Reset with confirmation *)

Lemma onResetKey_eq (onReset : M View unit) (inputChar : string) (key : Key) (v : View) :
  onResetKey onReset inputChar key v
  = if key_ctrl key && String.eqb inputChar "r" then
      if showResetConfirm v then onReset (mkView (hooks v) (cursorPos v) false)
      else (Ok tt, mkView (hooks v) (cursorPos v) true)
    else if key_escape key && showResetConfirm v then
      (Ok tt, mkView (hooks v) (cursorPos v) false)
    else (Ok tt, v).
Proof.
  unfold onResetKey, bind, get, setShowResetConfirm, modify, ret.
  destruct (key_ctrl key && String.eqb inputChar "r").
  - now destruct (showResetConfirm v).
  - now destruct (key_escape key && showResetConfirm v).
Qed.

Lemma pressAll_cons {I} (handler : I -> Key -> M View unit) (press : I * Key)
    (presses : list (I * Key)) (v : View) :
  pressAll handler (press :: presses) v
  = match handler (fst press) (snd press) v with
    | (Ok _, v') => pressAll handler presses v'
    | (Throw e, v') => (Throw e, v')
    end.
Proof. reflexivity. Qed.

(** With the confirmation showing and no Ctrl+R among the key presses,
    [onReset] is not run. *)
Lemma pressAll_without_CtrlR (onReset1 onReset2 : M View unit)
    (presses : list (string * Key)) (v : View) :
  List.length (filter (fun p => isCtrlR p = true) presses) = 0%nat ->
  pressAll (onResetKey onReset1) presses v = pressAll (onResetKey onReset2) presses v.
Proof.
  revert v. induction presses as [|[ch key] presses IH]; intros v Hcount; [reflexivity|].
  cbn [filter list_filter] in Hcount.
  destruct (decide (isCtrlR (ch, key) = true)) as [Hr|Hr]; [discriminate|].
  apply not_true_is_false in Hr. unfold isCtrlR in Hr. cbn [fst snd] in Hr.
  rewrite !pressAll_cons, !onResetKey_eq. cbn [fst snd]. rewrite Hr.
  destruct (key_escape key && showResetConfirm v); apply IH; exact Hcount.
Qed.

Lemma pressAll_one_CtrlR (onReset1 onReset2 : M View unit)
    (presses : list (string * Key)) (v : View) :
  (List.length (filter (fun p => isCtrlR p = true) presses) <= 1)%nat ->
  showResetConfirm v = false ->
  pressAll (onResetKey onReset1) presses v = pressAll (onResetKey onReset2) presses v.
Proof.
  revert v. induction presses as [|[ch key] presses IH]; intros v Hcount Hv; [reflexivity|].
  cbn [filter list_filter] in Hcount.
  rewrite !pressAll_cons, !onResetKey_eq. cbn [fst snd]. rewrite Hv, andb_false_r.
  destruct (decide (isCtrlR (ch, key) = true)) as [Hr|Hr].
  - unfold isCtrlR in Hr. cbn [fst snd] in Hr. rewrite Hr.
    apply pressAll_without_CtrlR. simpl in Hcount.
    apply Nat.succ_le_mono, Nat.le_0_r in Hcount. exact Hcount.
  - apply not_true_is_false in Hr. unfold isCtrlR in Hr. cbn [fst snd] in Hr.
    rewrite Hr. now apply IH.
Qed.

(** X19.  A reset needs a confirmation: from a view that does not show
    the confirmation, key presses with at most one Ctrl+R among them
    never run [onReset]; and once Escape was pressed while the
    confirmation was showing, the same holds again.  Two Ctrl+R in a
    row, from a view that does not show the confirmation, run [onReset]
    once, with the confirmation hidden. *)
Theorem X19_reset_needs_confirmation (onReset1 onReset2 : M View unit)
    (presses : list (string * Key)) (escape : string * Key) (v : View) :
  (List.length (filter (fun p => isCtrlR p = true) presses) <= 1)%nat ->
  (showResetConfirm v = false ->
   pressAll (onResetKey onReset1) presses v = pressAll (onResetKey onReset2) presses v)
  /\ (key_escape (snd escape) = true -> isCtrlR escape = false ->
      pressAll (onResetKey onReset1) (escape :: presses) v
      = pressAll (onResetKey onReset2) (escape :: presses) v)
  /\ (showResetConfirm v = false ->
      pressAll (onResetKey onReset1)
        [("r", mkKey true false false false false false false false);
         ("r", mkKey true false false false false false false false)] v
      = match onReset1 (mkView (hooks v) (cursorPos v) false) with
        | (Ok _, v') => (Ok tt, v')
        | (Throw e, v') => (Throw e, v')
        end).
Proof.
  intros Hcount. split; [now apply pressAll_one_CtrlR|]. split.
  - intros Hesc Hnot. destruct escape as [ch key]. cbn [snd] in Hesc.
    unfold isCtrlR in Hnot. cbn [fst snd] in Hnot.
    rewrite !pressAll_cons, !onResetKey_eq. cbn [fst snd]. rewrite Hnot, Hesc.
    cbn [andb].
    destruct (showResetConfirm v) eqn:Hv; now apply pressAll_one_CtrlR.
  - intros Hv. rewrite !pressAll_cons, !onResetKey_eq. cbn [fst snd key_ctrl andb].
    change (String.eqb "r" "r") with true. cbv iota. rewrite Hv.
    rewrite !pressAll_cons, !onResetKey_eq.
    cbn [fst snd key_ctrl andb showResetConfirm hooks cursorPos].
    change (String.eqb "r" "r") with true. cbv iota.
    now destruct (onReset1 _) as [[[]|e] v'].
Qed.

Lemma X19_witness :
  let ctrlR := ("r", mkKey true false false false false false false false) in
  let v := mkView Submission.mounted 5 false in
  (List.length (filter (fun p => isCtrlR p = true) [("a", plainKey); ctrlR]) <= 1)%nat
  /\ showResetConfirm v = false
  /\ pressAll (onResetKey (throw (mkError "reset"))) [("a", plainKey); ctrlR] v
     = pressAll (onResetKey (ret tt)) [("a", plainKey); ctrlR] v.
Proof.
  cbv zeta.
  assert (Hcount : (List.length
                      (filter (fun p => isCtrlR p = true)
                         [("a", plainKey);
                          ("r", mkKey true false false false false false false false)])
                    <= 1)%nat) by (vm_compute; lia).
  split; [exact Hcount|]. split; [reflexivity|].
  exact (proj1 (X19_reset_needs_confirmation (throw (mkError "reset")) (ret tt)
                  [("a", plainKey);
                   ("r", mkKey true false false false false false false false)]
                  ("", plainKey) (mkView Submission.mounted 5 false) Hcount) eq_refl).
Defined.

(** *** Editing the prompt *)

Lemma slice_sliceFrom (s : Text) (k : nat) : slice s 0 k ++ sliceFrom s k = s.
Proof. unfold slice, sliceFrom. rewrite Nat.sub_0_r, drop_0. apply take_drop. Qed.

Lemma slice_length (s : Text) (k : nat) :
  (k <= List.length s)%nat -> List.length (slice s 0 k) = k.
Proof.
  intros H. unfold slice. rewrite Nat.sub_0_r, drop_0, length_take. lia.
Qed.

Lemma sliceFrom_length (s : Text) (k : nat) :
  List.length (sliceFrom s k) = (List.length s - k)%nat.
Proof. unfold sliceFrom. apply length_drop. Qed.

(** Cutting a concatenation at the end of its first part. *)
Lemma slice_app (a b : Text) : slice (a ++ b) 0 (List.length a) = a.
Proof. unfold slice. rewrite Nat.sub_0_r, drop_0. apply take_app_length. Qed.

Lemma sliceFrom_app (a b : Text) (n : nat) :
  sliceFrom (a ++ b) (List.length a + n) = sliceFrom b n.
Proof. unfold sliceFrom. apply drop_app_add. Qed.

Lemma onEditKey_eq (dataDir : string)
    (streamChat : string -> list ChatMessage -> Result (list Text))
    (ch : Text) (key : Key) (v : View) :
  onEditKey dataDir streamChat ch key v
  = let input := st_input (hooks v) in
    let c := cursorPos v in
    if st_isLoading (hooks v) then (Ok tt, v)
    else if key_ctrl key || key_meta key then (Ok tt, v)
    else if key_return key then
      (Ok tt, mkView (snd (handleSubmit dataDir streamChat (hooks v))) 0 (showResetConfirm v))
    else if key_delete key || key_backspace key then
      if (0 <? c)%nat then
        (Ok tt, mkView (withInput (hooks v) (slice input 0 (c - 1) ++ sliceFrom input c))
                  (c - 1) (showResetConfirm v))
      else (Ok tt, v)
    else if key_leftArrow key then
      (Ok tt, mkView (hooks v) (Nat.max 0 (c - 1)) (showResetConfirm v))
    else if key_rightArrow key then
      (Ok tt, mkView (hooks v) (Nat.min (List.length input) (c + 1)) (showResetConfirm v))
    else if negb (isEmpty ch) && negb (key_ctrl key) && negb (key_meta key) then
      (Ok tt, mkView (withInput (hooks v) (slice input 0 c ++ ch ++ sliceFrom input c))
                (c + 1) (showResetConfirm v))
    else (Ok tt, v).
Proof.
  cbv zeta. unfold onEditKey. rewrite bind_unfold. unfold get at 1.
  cbv beta iota.
  destruct (st_isLoading (hooks v)); [reflexivity|].
  destruct (key_ctrl key || key_meta key); [reflexivity|].
  destruct (key_return key).
  { rewrite bind_unfold, try_catch_unfold.
    unfold call, zoom, hooksRef, rget, rset, bind, get, put, ret, setCursorPos, modify.
    cbn [hooks cursorPos showResetConfirm].
    destruct (handleSubmit dataDir streamChat (hooks v)) as [[u|e] h']; reflexivity. }
  destruct (key_delete key || key_backspace key).
  { destruct (0 <? cursorPos v)%nat; [|reflexivity].
    unfold updateInput, call, zoom, hooksRef, rget, rset, bind, get, put, ret,
      setCursorPos, modify, withInput.
    cbn [hooks cursorPos showResetConfirm]. reflexivity. }
  destruct (key_leftArrow key); [reflexivity|].
  destruct (key_rightArrow key); [reflexivity|].
  destruct (negb (isEmpty ch) && negb (key_ctrl key) && negb (key_meta key));
    [|reflexivity].
  unfold updateInput, call, zoom, hooksRef, rget, rset, bind, get, put, ret,
    setCursorPos, modify, withInput.
  cbn [hooks cursorPos showResetConfirm]. reflexivity.
Qed.

Lemma onEditKey_step (dataDir : string)
    (streamChat : string -> list ChatMessage -> Result (list Text))
    (ch : Text) (key : Key) (v : View) :
  cursorInText v ->
  exists v', onEditKey dataDir streamChat ch key v = (Ok tt, v')
    /\ cursorInText v'
    /\ showResetConfirm v' = showResetConfirm v
    /\ (st_isLoading (hooks v) || key_ctrl key || key_meta key = true -> v' = v).
Proof.
  unfold cursorInText. intros Hc. rewrite onEditKey_eq. cbv zeta.
  destruct (st_isLoading (hooks v)); [now exists v|].
  destruct (key_ctrl key || key_meta key) eqn:Hmod.
  { exists v. repeat split; auto. }
  assert (Hno : false || key_ctrl key || key_meta key = true -> False).
  { rewrite orb_false_l, Hmod. discriminate. }
  destruct (key_return key).
  { eexists. split; [reflexivity|]. cbn [cursorPos hooks showResetConfirm].
    repeat split; [lia|]. intros H. now destruct Hno. }
  destruct (key_delete key || key_backspace key).
  { destruct (0 <? cursorPos v)%nat eqn:Hpos.
    - apply Nat.ltb_lt in Hpos.
      eexists. split; [reflexivity|]. cbn [cursorPos hooks showResetConfirm withInput st_input].
      repeat split.
      + rewrite length_app, slice_length, sliceFrom_length by lia. lia.
      + intros H. now destruct Hno.
    - exists v. repeat split; auto. }
  destruct (key_leftArrow key).
  { eexists. split; [reflexivity|]. cbn [cursorPos hooks showResetConfirm].
    repeat split; [lia|]. intros H. now destruct Hno. }
  destruct (key_rightArrow key).
  { eexists. split; [reflexivity|]. cbn [cursorPos hooks showResetConfirm].
    repeat split; [lia|]. intros H. now destruct Hno. }
  destruct (negb (isEmpty ch) && negb (key_ctrl key) && negb (key_meta key)) eqn:Hch.
  - eexists. split; [reflexivity|]. cbn [cursorPos hooks showResetConfirm withInput st_input].
    repeat split.
    + rewrite !length_app, slice_length, sliceFrom_length by lia.
      destruct ch as [|a ch]; [discriminate|]. cbn [List.length]. lia.
    + intros H. now destruct Hno.
  - exists v. repeat split; auto.
Qed.

(** X20. Whatever keys are pressed, the edit handler of the prompt
    returns normally, leaves the cursor within the text if it was
    there, the text being measured in UTF-16 code units as the handler
    does, and does not touch the reset confirmation; while a response
    is loading the key presses change nothing at all. *)
Theorem X20_editing_keeps_cursor_in_text (dataDir : string)
    (streamChat : string -> list ChatMessage -> Result (list Text))
    (presses : list (Text * Key)) (v : View) :
  cursorInText v ->
  exists v', pressAll (onEditKey dataDir streamChat) presses v = (Ok tt, v')
    /\ cursorInText v'
    /\ showResetConfirm v' = showResetConfirm v
    /\ (st_isLoading (hooks v) = true -> v' = v).
Proof.
  revert v. induction presses as [|[ch key] presses IH]; intros v Hc.
  - exists v. now repeat split.
  - rewrite pressAll_cons. cbn [fst snd].
    destruct (onEditKey_step dataDir streamChat ch key v Hc) as (v1 & -> & Hc1 & Hs1 & Hl1).
    destruct (IH v1 Hc1) as (v' & E & Hc' & Hs' & Hl').
    exists v'. repeat split; [exact E|exact Hc'|congruence|].
    intros Hl. assert (v1 = v) as -> by (apply Hl1; now rewrite Hl).
    now apply Hl'.
Qed.

Lemma X20_witness :
  cursorInText (mkView Submission.mounted 0 false)
  /\ exists v', pressAll (onEditKey "/data" Submission.streamChat)
                  [(text "h", plainKey); (text "i", plainKey); ([], backspaceKey)]
                  (mkView Submission.mounted 0 false) = (Ok tt, v')
       /\ cursorInText v'.
Proof.
  assert (Hc : cursorInText (mkView Submission.mounted 0 false)) by (unfold cursorInText; cbn; lia).
  split; [exact Hc|].
  destruct (X20_editing_keeps_cursor_in_text "/data" Submission.streamChat
              [(text "h", plainKey); (text "i", plainKey); ([], backspaceKey)]
              (mkView Submission.mounted 0 false) Hc) as (v' & E & Hc' & _).
  exists v'. now split.
Defined.

(** X21. A key press with text and no modifier inserts the text at the
    cursor and moves the cursor one place to the right, whatever the
    length of the text; when the text is one UTF-16 code unit long and
    the cursor was within the input, Backspace right after it restores
    the prompt. *)
Theorem X21_typing_then_backspace (dataDir : string)
    (streamChat : string -> list ChatMessage -> Result (list Text))
    (ch : Text) (key back : Key) (v : View) :
  st_isLoading (hooks v) = false ->
  key_ctrl key || key_meta key || key_return key || key_delete key
    || key_backspace key || key_leftArrow key || key_rightArrow key = false ->
  ch <> [] ->
  exists v1,
    onEditKey dataDir streamChat ch key v = (Ok tt, v1)
    /\ st_input (hooks v1)
       = slice (st_input (hooks v)) 0 (cursorPos v) ++ ch
           ++ sliceFrom (st_input (hooks v)) (cursorPos v)
    /\ cursorPos v1 = (cursorPos v + 1)%nat
    /\ (List.length ch = 1%nat -> cursorInText v ->
        key_ctrl back || key_meta back || key_return back = false ->
        key_delete back || key_backspace back = true ->
        onEditKey dataDir streamChat [] back v1 = (Ok tt, v)).
Proof.
  intros Hl Hkey Hch.
  repeat (apply orb_false_elim in Hkey; destruct Hkey as [Hkey ?]).
  rewrite onEditKey_eq. cbv zeta. rewrite Hl, Hkey, H4.
  cbn [orb negb andb]. rewrite H3.
  replace (key_delete key || key_backspace key) with false
    by (now rewrite H2, H1).
  rewrite H0, H. rewrite andb_true_r.
  destruct ch as [|u rest] eqn:Ech; [contradiction|]. rewrite <- Ech in *.
  replace (isEmpty ch) with false by now rewrite Ech.
  cbn [negb].
  eexists. split; [reflexivity|]. cbn [hooks cursorPos withInput st_input].
  repeat split.
  intros Hlen Hc Hb1 Hb2. unfold cursorInText in Hc.
  apply orb_false_elim in Hb1. destruct Hb1 as [Hb1 Hb3].
  rewrite onEditKey_eq. cbv zeta.
  cbn [hooks cursorPos withInput st_input st_isLoading showResetConfirm].
  rewrite Hl, Hb1, Hb3, Hb2.
  replace (0 <? cursorPos v + 1)%nat with true by (symmetry; apply Nat.ltb_lt; lia).
  replace (cursorPos v + 1 - 1)%nat with (cursorPos v) by lia.
  set (a := slice (st_input (hooks v)) 0 (cursorPos v)).
  set (b := sliceFrom (st_input (hooks v)) (cursorPos v)).
  assert (Ha : List.length a = cursorPos v) by (apply slice_length; exact Hc).
  assert (E1 : slice (a ++ ch ++ b) 0 (cursorPos v) = a).
  { rewrite <- Ha at 1. apply slice_app. }
  assert (E2 : sliceFrom (a ++ ch ++ b) (cursorPos v + 1) = b).
  { rewrite <- Ha at 1. rewrite sliceFrom_app.
    rewrite <- Hlen. replace (List.length ch) with (List.length ch + 0)%nat by lia.
    rewrite sliceFrom_app. reflexivity. }
  rewrite E1, E2. unfold a, b. rewrite slice_sliceFrom.
  destruct v as [[] c sc]. reflexivity.
Qed.

Lemma X21_witness :
  exists v1,
    onEditKey "/data" Submission.streamChat (text "x") plainKey
      (mkView Submission.mounted 0 false)
      = (Ok tt, v1)
    /\ cursorPos v1 = 1%nat
    /\ onEditKey "/data" Submission.streamChat [] backspaceKey v1
       = (Ok tt, mkView Submission.mounted 0 false).
Proof.
  destruct (X21_typing_then_backspace "/data" Submission.streamChat (text "x") plainKey
              backspaceKey (mkView Submission.mounted 0 false) eq_refl eq_refl)
    as (v1 & E & _ & Hc & Hback); [discriminate|].
  exists v1. split; [exact E|]. split; [exact Hc|].
  apply Hback; [reflexivity| |reflexivity|reflexivity].
  unfold cursorInText. cbn. lia.
Defined.

Import App.

(** ** The application component *)

Lemma restoreSession_found (dataDir : string) (rt : Runtime) :
  match restoreSession dataDir rt with
  | (Ok (Some context), rt') =>
      files rt' = files rt
      /\ files rt !! path_join dataDir SESSION_FILE
         = Some (RegularFile (TextOfSession (ctx_sessionData context)))
  | (_, rt') => files rt' = files rt
  end.
Proof.
  rewrite restoreSession_eq.
  destruct (files rt !! path_join dataDir SESSION_FILE) as [[[sd| |]|e]|];
    try reflexivity.
  destruct (deserializeIdentityBundle (userIdentity sd) (world rt)) as [[ub|e] w1];
    [|reflexivity].
  destruct (deserializeIdentityBundle (assistantIdentity sd) w1) as [[ab|e] w2];
    [|reflexivity].
  destruct (deserializeStores (userStores sd) self (newStores ub)) as [[[]|e] us];
    [|reflexivity].
  destruct (deserializeStores (assistantStores sd) self (newStores ab)) as [[[]|e] as_];
    [|reflexivity].
  split; reflexivity.
Qed.

Lemma init_eq (config : AppConfig) (listModels : string -> Result (list string))
    (p : Process) :
  let fresh := fun q : Process =>
    match createNewSession (cfg_dataDir config) (cfg_model config) (proc_runtime q) with
    | (Ok context, rt') => (Ok tt, mkProcess rt' (proc_log q) (readyWith context))
    | (Throw e, rt') => (Ok tt, mkProcess rt' (proc_log q) (Error (message e)))
    end in
  init config listModels p
  = if cfg_listModels config then
      match listModels (cfg_model config) with
      | Ok models => (Ok tt, mkProcess (proc_runtime p) (proc_log p) (ListingModels models))
      | Throw e => (Ok tt, mkProcess (proc_runtime p) (proc_log p) (Error (message e)))
      end
    else if cfg_reset config then fresh p
    else
      match restoreSession (cfg_dataDir config) (proc_runtime p) with
      | (Ok (Some found), rt1) =>
          if String.eqb (model (ctx_sessionData found)) (cfg_model config) then
            (Ok tt, mkProcess rt1 (proc_log p) (readyWith found))
          else
            fresh (mkProcess rt1
                     (proc_log p ++
                        [("Model changed from " ++ model (ctx_sessionData found) ++ " to "
                            ++ cfg_model config ++ ", creating new session")%string])
                     (proc_state p))
      | (Ok None, rt1) => fresh (mkProcess rt1 (proc_log p) (proc_state p))
      | (Throw e, rt1) => (Ok tt, mkProcess rt1 (proc_log p) (Error (message e)))
      end.
Proof.
  cbv zeta. unfold init. rewrite try_catch_unfold.
  assert (Hnew : forall q,
             (context <- call runtimeOfProcess
                           (createNewSession (cfg_dataDir config) (cfg_model config)) ;;
              setState (readyWith context)) q
             = match createNewSession (cfg_dataDir config) (cfg_model config)
                       (proc_runtime q) with
               | (Ok context, rt') => (Ok tt, mkProcess rt' (proc_log q) (readyWith context))
               | (Throw e, rt') => (Throw e, mkProcess rt' (proc_log q) (proc_state q))
               end).
  { intros q. rewrite bind_unfold. unfold call, zoom, runtimeOfProcess. cbn [rget rset].
    destruct (createNewSession (cfg_dataDir config) (cfg_model config) (proc_runtime q))
      as [[context|e] rt']; reflexivity. }
  destruct (cfg_listModels config).
  { rewrite bind_unfold. unfold lift, setState, modify.
    destruct (listModels (cfg_model config)) as [models|e]; reflexivity. }
  destruct (cfg_reset config).
  { rewrite Hnew.
    destruct (createNewSession (cfg_dataDir config) (cfg_model config) (proc_runtime p))
      as [[context|e] rt']; reflexivity. }
  rewrite bind_unfold. unfold call at 1, zoom, runtimeOfProcess at 1 2. cbn [rget rset].
  destruct (restoreSession (cfg_dataDir config) (proc_runtime p)) as [[[found|]|e] rt1].
  - destruct (String.eqb (model (ctx_sessionData found)) (cfg_model config)); [reflexivity|].
    rewrite bind_unfold. unfold console_log at 1, modify at 1. rewrite Hnew.
    cbn [proc_runtime proc_log proc_state].
    destruct (createNewSession (cfg_dataDir config) (cfg_model config) rt1)
      as [[context|e] rt']; reflexivity.
  - rewrite Hnew. cbn [proc_runtime proc_log proc_state].
    destruct (createNewSession (cfg_dataDir config) (cfg_model config) rt1)
      as [[context|e] rt']; reflexivity.
  - reflexivity.
Qed.

(** A session that was created is in the session file; when the
    creation throws, no file has changed but the session file, which may
    be left damaged. *)
Lemma createNewSession_outcome (dataDir modelName : string) (rt : Runtime) :
  match createNewSession dataDir modelName rt with
  | (Ok context, rt') =>
      files rt'
      = <[path_join dataDir SESSION_FILE
          := RegularFile (TextOfSession (ctx_sessionData context))]> (files rt)
      /\ model (ctx_sessionData context) = modelName
      /\ messages (ctx_sessionData context) = []
      /\ userStores (ctx_sessionData context) = serializeStores (ctx_userStores context)
      /\ assistantStores (ctx_sessionData context)
         = serializeStores (ctx_assistantStores context)
  | (Throw _, rt') =>
      files rt' = files rt
      \/ files rt'
         = <[path_join dataDir SESSION_FILE := RegularFile TextNotJson]> (files rt)
  end.
Proof.
  pose proof (createNewSession_cases dataDir modelName rt) as H. cbv zeta in H.
  destruct H as [_ H].
  destruct (createNewSession dataDir modelName rt) as [[context|e] rt'];
    cbn [fst snd] in H.
  - destruct (fsAnswerAt 0 (world rt)) as [|e0 d0]; [|now destruct H].
    destruct (fsAnswerAt 1 (world rt)) as [|e1 d1]; [|now destruct H].
    destruct H as (context' & [= <-] & Hf & _ & Hm & Hmsg & Hu & Ha & _).
    repeat split; assumption.
  - destruct (fsAnswerAt 0 (world rt)) as [|e0 d0]; [|left; apply H].
    destruct (fsAnswerAt 1 (world rt)) as [|e1 d1].
    + now destruct H as (context' & [=] & _).
    + destruct H as [_ H]. destruct d1; [right|left]; exact H.
Qed.

(** X22. The effect run on mount never throws and never leaves the
    component loading.  With [listModels] set it only asks the service
    for the models: the session file is neither read nor written.
    Otherwise a ready state carries session data of the configured
    model that are the content of the session file, and either the files
    are as before (the session was restored, which the reset flag rules
    out) or the session has no messages; an error state leaves the
    files as they were, except that a failed write of a new session may
    have left the session file damaged. *)
Theorem X22_init_outcome (config : AppConfig)
    (listModels : string -> Result (list string)) (p : Process) :
  let result := init config listModels p in
  let p' := snd result in
  let sessionPath := path_join (cfg_dataDir config) SESSION_FILE in
  fst result = Ok tt
  /\ (cfg_listModels config = true ->
      proc_runtime p' = proc_runtime p
      /\ proc_log p' = proc_log p
      /\ proc_state p' = match listModels (cfg_model config) with
                         | Ok models => ListingModels models
                         | Throw e => Error (message e)
                         end)
  /\ (cfg_listModels config = false ->
      match proc_state p' with
      | Ready sessionData _ _ =>
          model sessionData = cfg_model config
          /\ files (proc_runtime p') !! sessionPath
             = Some (RegularFile (TextOfSession sessionData))
          /\ (files (proc_runtime p') = files (proc_runtime p) /\ cfg_reset config = false
              \/ messages sessionData = [])
      | Error _ =>
          files (proc_runtime p') = files (proc_runtime p)
          \/ files (proc_runtime p')
             = <[sessionPath := RegularFile TextNotJson]> (files (proc_runtime p))
      | Loading | ListingModels _ => False
      end).
Proof.
  cbv zeta. rewrite init_eq. cbv zeta.
  destruct (cfg_listModels config).
  { destruct (listModels (cfg_model config)) as [models|e];
      cbn [fst snd proc_runtime proc_log proc_state];
      (split; [reflexivity|]); (split; [auto|discriminate]). }
  assert (Hfresh : forall (rt1 : Runtime) (log : list string) (state : AppState),
             files rt1 = files (proc_runtime p) ->
             let result :=
               match createNewSession (cfg_dataDir config) (cfg_model config) rt1 with
               | (Ok context, rt') => (Ok tt, mkProcess rt' log (readyWith context))
               | (Throw e, rt') => (Ok tt, mkProcess rt' log (Error (message e)))
               end in
             fst result = Ok tt
             /\ (false = true ->
                 proc_runtime (snd result) = proc_runtime p
                 /\ proc_log (snd result) = proc_log p
                 /\ proc_state (snd result)
                    = match listModels (cfg_model config) with
                      | Ok models => ListingModels models
                      | Throw e => Error (message e)
                      end)
             /\ (false = false ->
                 match proc_state (snd result) with
                 | Ready sessionData _ _ =>
                     model sessionData = cfg_model config
                     /\ files (proc_runtime (snd result))
                          !! path_join (cfg_dataDir config) SESSION_FILE
                        = Some (RegularFile (TextOfSession sessionData))
                     /\ (files (proc_runtime (snd result)) = files (proc_runtime p)
                         /\ cfg_reset config = false
                         \/ messages sessionData = [])
                 | Error _ =>
                     files (proc_runtime (snd result)) = files (proc_runtime p)
                     \/ files (proc_runtime (snd result))
                        = <[path_join (cfg_dataDir config) SESSION_FILE
                            := RegularFile TextNotJson]> (files (proc_runtime p))
                 | Loading | ListingModels _ => False
                 end)).
  { intros rt1 log state Hfiles. cbv zeta.
    pose proof (createNewSession_outcome (cfg_dataDir config) (cfg_model config) rt1) as H.
    destruct (createNewSession (cfg_dataDir config) (cfg_model config) rt1)
      as [[context|e] rt']; unfold readyWith; cbn [fst snd proc_state proc_runtime].
    - destruct H as (Hf & Hm & Hmsg & _).
      split; [reflexivity|]. split; [discriminate|]. intros _.
      split; [exact Hm|]. split; [rewrite Hf; apply lookup_insert_eq|now right].
    - split; [reflexivity|]. split; [discriminate|]. intros _.
      rewrite <- Hfiles. exact H. }
  destruct (cfg_reset config).
  { exact (Hfresh (proc_runtime p) (proc_log p) (proc_state p) eq_refl). }
  pose proof (restoreSession_found (cfg_dataDir config) (proc_runtime p)) as Hr.
  destruct (restoreSession (cfg_dataDir config) (proc_runtime p)) as [[[found|]|e] rt1].
  - destruct Hr as [Hfiles Hfound].
    destruct (String.eqb_spec (model (ctx_sessionData found)) (cfg_model config))
      as [Hsame|Hdiff].
    + unfold readyWith. cbn [fst snd proc_state proc_runtime].
      split; [reflexivity|]. split; [discriminate|]. intros _.
      split; [exact Hsame|]. rewrite Hfiles. split; [exact Hfound|]. left. now split.
    + cbn [proc_runtime proc_log]. exact (Hfresh rt1 _ (proc_state p) Hfiles).
  - cbn [proc_runtime proc_log]. exact (Hfresh rt1 _ (proc_state p) Hr).
  - cbn [fst snd proc_state proc_runtime].
    split; [reflexivity|]. split; [discriminate|]. intros _. now left.
Qed.

Lemma X22_witness :
  let config := mkAppConfig DEFAULT_MODEL Fixture.dataDir false false in
  let p := mkProcess Fixture.runtime1 [] Loading in
  let p' := snd (init config (fun _ => Ok []) p) in
  let sessionPath := path_join (cfg_dataDir config) SESSION_FILE in
  cfg_listModels config = false
  /\ match proc_state p' with
     | Ready sessionData _ _ =>
         model sessionData = cfg_model config
         /\ files (proc_runtime p') !! sessionPath
            = Some (RegularFile (TextOfSession sessionData))
         /\ (files (proc_runtime p') = files (proc_runtime p) /\ cfg_reset config = false
             \/ messages sessionData = [])
     | Error _ =>
         files (proc_runtime p') = files (proc_runtime p)
         \/ files (proc_runtime p')
            = <[sessionPath := RegularFile TextNotJson]> (files (proc_runtime p))
     | Loading | ListingModels _ => False
     end.
Proof.
  cbv zeta. split; [reflexivity|].
  exact (proj2 (proj2 (X22_init_outcome
                         (mkAppConfig DEFAULT_MODEL Fixture.dataDir false false)
                         (fun _ => Ok []) (mkProcess Fixture.runtime1 [] Loading)))
           eq_refl).
Defined.

(** X23. The reset callback never throws and logs nothing.  When the
    file system makes the data directory and writes the session file,
    it ends in the ready state with a newly created session of the
    configured model that has no messages, whose data replace the
    session file and hold the serialized form of the two store
    collections of the state.  When the directory cannot be made or the
    file cannot be written, it ends in the error state with the message
    of that error, and no file has changed but the session file, which
    a failed write may have left damaged.  Starting the application
    with the reset flag (and without [listModels]) does exactly the
    same. *)
Theorem X23_handleReset_fresh_session (config : AppConfig) (p : Process) :
  let result := handleReset config p in
  let rt := proc_runtime p in
  let rt' := proc_runtime (snd result) in
  let sessionPath := path_join (cfg_dataDir config) SESSION_FILE in
  fst result = Ok tt
  /\ proc_log (snd result) = proc_log p
  /\ match fsAnswerAt 0 (world rt), fsAnswerAt 1 (world rt) with
     | FsFailed e _, _ =>
         proc_state (snd result) = Error (message e) /\ files rt' = files rt
     | FsDone, FsFailed e damaged =>
         proc_state (snd result) = Error (message e)
         /\ files rt'
            = if damaged then <[sessionPath := RegularFile TextNotJson]> (files rt)
              else files rt
     | FsDone, FsDone =>
         exists sessionData userStores' assistantStores',
           proc_state (snd result) = Ready sessionData userStores' assistantStores'
           /\ model sessionData = cfg_model config
           /\ messages sessionData = []
           /\ files rt'
              = <[sessionPath := RegularFile (TextOfSession sessionData)]> (files rt)
           /\ userStores sessionData = serializeStores userStores'
           /\ assistantStores sessionData = serializeStores assistantStores'
     end
  /\ forall listModels,
       cfg_listModels config = false -> cfg_reset config = true ->
       init config listModels p = handleReset config p.
Proof.
  cbv zeta.
  assert (Hreset : handleReset config p
                   = match createNewSession (cfg_dataDir config) (cfg_model config)
                             (proc_runtime p) with
                     | (Ok context, rt') =>
                         (Ok tt, mkProcess rt' (proc_log p) (readyWith context))
                     | (Throw e, rt') =>
                         (Ok tt, mkProcess rt' (proc_log p) (Error (message e)))
                     end).
  { unfold handleReset. rewrite bind_unfold. unfold setState at 1, modify at 1.
    rewrite try_catch_unfold, bind_unfold.
    unfold call, zoom, runtimeOfProcess, resetSession. cbn [rget rset proc_runtime].
    destruct (createNewSession (cfg_dataDir config) (cfg_model config) (proc_runtime p))
      as [[context|e] rt']; reflexivity. }
  pose proof (createNewSession_cases (cfg_dataDir config) (cfg_model config)
                (proc_runtime p)) as H.
  cbv zeta in H. destruct H as [_ H].
  split; [|split; [|split]].
  - rewrite Hreset. now destruct (createNewSession _ _ _) as [[context|e] rt'].
  - rewrite Hreset. now destruct (createNewSession _ _ _) as [[context|e] rt'].
  - rewrite Hreset.
    destruct (createNewSession (cfg_dataDir config) (cfg_model config) (proc_runtime p))
      as [[context|e] rt']; cbn [fst snd proc_state proc_runtime] in *.
    + destruct (fsAnswerAt 0 (world (proc_runtime p))) as [|e0 d0]; [|now destruct H].
      destruct (fsAnswerAt 1 (world (proc_runtime p))) as [|e1 d1]; [|now destruct H].
      destruct H as (context' & [= <-] & Hf & _ & Hm & Hmsg & Hu & Ha & _).
      exists (ctx_sessionData context), (ctx_userStores context),
        (ctx_assistantStores context).
      repeat split; assumption.
    + destruct (fsAnswerAt 0 (world (proc_runtime p))) as [|e0 d0].
      * destruct (fsAnswerAt 1 (world (proc_runtime p))) as [|e1 d1].
        -- now destruct H as (context' & [=] & _).
        -- destruct H as [[= ->] H]. now split.
      * destruct H as [[= ->] H]. now split.
  - intros listModels Hl Hr. rewrite Hreset, init_eq. cbv zeta. rewrite Hl, Hr.
    reflexivity.
Qed.

Lemma X23_witness :
  let config := mkAppConfig DEFAULT_MODEL Fixture.dataDir true false in
  let p := mkProcess Fixture.runtime1 [] Loading in
  cfg_listModels config = false /\ cfg_reset config = true
  /\ init config (fun _ => Ok []) p = handleReset config p.
Proof.
  cbv zeta. split; [reflexivity|]. split; [reflexivity|].
  pose proof (X23_handleReset_fresh_session
                (mkAppConfig DEFAULT_MODEL Fixture.dataDir true false)
                (mkProcess Fixture.runtime1 [] Loading)) as H.
  cbv zeta in H. destruct H as (_ & _ & _ & H).
  specialize (H (fun _ => Ok []) eq_refl eq_refl).
  exact H.
Defined.

(** ** The command line *)

Lemma orElse_nonempty (value : option string) (fallback : string) :
  fallback <> "" -> Index.orElse value fallback <> "".
Proof.
  intros H. unfold Index.orElse. destruct value as [v|]; [|exact H].
  destruct (String.eqb_spec v ""); assumption.
Qed.

Lemma parseLoop_spec (args : list string) :
  forall config : App.AppConfig,
    App.cfg_model config <> "" -> App.cfg_dataDir config <> "" ->
    match Index.parseLoop args config with
    | Index.Config c =>
        App.cfg_model c <> "" /\ App.cfg_dataDir c <> ""
        /\ (App.cfg_reset c = true ->
            App.cfg_reset config = true \/ In "--reset" args \/ In "-r" args)
        /\ (App.cfg_listModels c = true ->
            App.cfg_listModels config = true \/ In "--list-models" args \/ In "-l" args)
    | Index.HelpExit => In "--help" args \/ In "-h" args
    end.
Proof.
  cut (forall n (args : list string), (List.length args <= n)%nat ->
       forall config : App.AppConfig,
         App.cfg_model config <> "" -> App.cfg_dataDir config <> "" ->
         match Index.parseLoop args config with
         | Index.Config c =>
             App.cfg_model c <> "" /\ App.cfg_dataDir c <> ""
             /\ (App.cfg_reset c = true ->
                 App.cfg_reset config = true \/ In "--reset" args \/ In "-r" args)
             /\ (App.cfg_listModels c = true ->
                 App.cfg_listModels config = true \/ In "--list-models" args \/ In "-l" args)
         | Index.HelpExit => In "--help" args \/ In "-h" args
         end).
  { intros H. exact (H (List.length args) args (le_n _)). }
  clear args. induction n as [|n IH]; intros args Hlen config Hm Hd.
  { destruct args; [|cbn in Hlen; lia]. cbn. auto. }
  destruct args as [|arg rest]; [cbn; auto|].
  cbn [List.length] in Hlen. apply Nat.succ_le_mono in Hlen.
  cbn [Index.parseLoop].
  destruct (String.eqb arg "--reset" || String.eqb arg "-r") eqn:Hreset.
  { specialize (IH rest Hlen
                  (App.mkAppConfig (App.cfg_model config) (App.cfg_dataDir config) true
                     (App.cfg_listModels config)) Hm Hd).
    destruct (Index.parseLoop rest _) as [c|].
    - destruct IH as (? & ? & _ & Hl). repeat split; try assumption.
      + intros _. apply orb_true_iff in Hreset.
        destruct Hreset as [E|E]; apply String.eqb_eq in E; subst arg; cbn; auto.
      + intros Hc. destruct (Hl Hc) as [|[|]]; cbn in *; auto.
    - destruct IH; cbn; auto. }
  destruct (String.eqb arg "--model" || String.eqb arg "-m").
  { destruct rest as [|value rest']; [cbn; repeat split; auto; intros; auto|].
    cbn [List.length] in Hlen.
    assert (Hlen' : (List.length rest' <= n)%nat) by lia.
    specialize (IH rest' Hlen'
                  (App.mkAppConfig (Index.orElse (Some value) (App.cfg_model config))
                     (App.cfg_dataDir config) (App.cfg_reset config)
                     (App.cfg_listModels config))
                  (orElse_nonempty _ _ Hm) Hd).
    destruct (Index.parseLoop rest' _) as [c|].
    - destruct IH as (? & ? & Hr & Hl). repeat split; try assumption.
      + intros Hc. destruct (Hr Hc) as [|[|]]; cbn in *; auto.
      + intros Hc. destruct (Hl Hc) as [|[|]]; cbn in *; auto.
    - destruct IH; cbn; auto. }
  destruct (String.eqb arg "--list-models" || String.eqb arg "-l") eqn:Hlist.
  { specialize (IH rest Hlen
                  (App.mkAppConfig (App.cfg_model config) (App.cfg_dataDir config)
                     (App.cfg_reset config) true) Hm Hd).
    destruct (Index.parseLoop rest _) as [c|].
    - destruct IH as (? & ? & Hr & _). repeat split; try assumption.
      + intros Hc. destruct (Hr Hc) as [|[|]]; cbn in *; auto.
      + intros _. apply orb_true_iff in Hlist.
        destruct Hlist as [E|E]; apply String.eqb_eq in E; subst arg; cbn; auto.
    - destruct IH; cbn; auto. }
  destruct (String.eqb arg "--data-dir").
  { destruct rest as [|value rest']; [cbn; repeat split; auto; intros; auto|].
    cbn [List.length] in Hlen.
    assert (Hlen' : (List.length rest' <= n)%nat) by lia.
    specialize (IH rest' Hlen'
                  (App.mkAppConfig (App.cfg_model config)
                     (Index.orElse (Some value) (App.cfg_dataDir config))
                     (App.cfg_reset config) (App.cfg_listModels config))
                  Hm (orElse_nonempty _ _ Hd)).
    destruct (Index.parseLoop rest' _) as [c|].
    - destruct IH as (? & ? & Hr & Hl). repeat split; try assumption.
      + intros Hc. destruct (Hr Hc) as [|[|]]; cbn in *; auto.
      + intros Hc. destruct (Hl Hc) as [|[|]]; cbn in *; auto.
    - destruct IH; cbn; auto. }
  destruct (String.eqb arg "--help" || String.eqb arg "-h") eqn:Hhelp.
  { apply orb_true_iff in Hhelp.
    destruct Hhelp as [E|E]; apply String.eqb_eq in E; subst arg; cbn; auto. }
  specialize (IH rest Hlen config Hm Hd).
  destruct (Index.parseLoop rest config) as [c|].
  - destruct IH as (? & ? & Hr & Hl). repeat split; try assumption.
    + intros Hc. destruct (Hr Hc) as [|[|]]; cbn in *; auto.
    + intros Hc. destruct (Hl Hc) as [|[|]]; cbn in *; auto.
  - destruct IH; cbn; auto.
Qed.

(** X24. Whatever the arguments and the environment, a configuration
    returned by [parseArgs] has a model name and a data directory that
    are not empty; its reset flag is set only if [--reset] or [-r] is
    among the arguments, its list flag only if [--list-models] or [-l]
    is; and the process exits with the help text only if [--help] or
    [-h] is among the arguments. *)
Theorem X24_parseArgs_configuration (args : list string)
    (envModel envDataDir : option string) :
  match Index.parseArgs args envModel envDataDir with
  | Index.Config config =>
      App.cfg_model config <> "" /\ App.cfg_dataDir config <> ""
      /\ (App.cfg_reset config = true -> In "--reset" args \/ In "-r" args)
      /\ (App.cfg_listModels config = true -> In "--list-models" args \/ In "-l" args)
  | Index.HelpExit => In "--help" args \/ In "-h" args
  end.
Proof.
  unfold Index.parseArgs.
  match goal with |- context [Index.parseLoop args ?c] =>
    pose proof (parseLoop_spec args c) as H end.
  cbn [App.cfg_model App.cfg_dataDir App.cfg_reset App.cfg_listModels] in H.
  assert (Hm : Index.DEFAULT_MODEL <> "") by discriminate.
  assert (Hd : Index.DEFAULT_DATA_DIR <> "") by discriminate.
  specialize (H (orElse_nonempty _ _ Hm) (orElse_nonempty _ _ Hd)).
  destruct (Index.parseLoop args _) as [c|]; [|exact H].
  destruct H as (? & ? & Hr & Hl). repeat split; try assumption.
  - intros Hc. destruct (Hr Hc) as [|]; [discriminate|assumption].
  - intros Hc. destruct (Hl Hc) as [|]; [discriminate|assumption].
Qed.

Import MessageItem Rendering.

(** ** The message list *)

(** X25. The message list shows a suffix of the messages that is never
    longer than the number of messages that fit, which is at least 5;
    when it reports earlier messages, the count it prints is the number
    of messages left out, which is positive, and otherwise no message
    is left out. *)
Theorem X25_visible_messages_window (rows : option nat) (messages : list ChatMessage) :
  let visible := MessageList.visibleMessages rows messages in
  (5 <= MessageList.maxVisibleMessages rows)%nat
  /\ (List.length visible <= MessageList.maxVisibleMessages rows)%nat
  /\ exists hidden,
       messages = hidden ++ visible
       /\ if MessageList.hasMoreMessages rows messages
          then MessageList.hiddenCount rows messages = Z.of_nat (List.length hidden)
               /\ (0 < List.length hidden)%nat
          else hidden = [].
Proof.
  cbv zeta. unfold MessageList.visibleMessages, MessageList.hasMoreMessages,
    MessageList.hiddenCount.
  set (m := MessageList.maxVisibleMessages rows).
  assert (Hm : (5 <= m)%nat) by (unfold m, MessageList.maxVisibleMessages; lia).
  split; [exact Hm|].
  split; [rewrite length_drop; lia|].
  exists (take (List.length messages - m) messages).
  split; [now rewrite take_drop|].
  destruct (m <? List.length messages)%nat eqn:Hlt.
  - apply Nat.ltb_lt in Hlt. rewrite length_take. split; lia.
  - apply Nat.ltb_ge in Hlt.
    replace (List.length messages - m)%nat with 0%nat by lia. reflexivity.
Qed.

(** ** Grouping the segments of a message *)


Lemma segmentsOf_app (a b : list Group) :
  segmentsOf (a ++ b) = segmentsOf a ++ segmentsOf b.
Proof. unfold segmentsOf. now rewrite List.map_app, List.concat_app. Qed.

Lemma groupLoop_spec (segments : list TextSegment) :
  forall segIndex groups currentGroup groupIndex,
    Forall wellGrouped groups ->
    forallb (fun seg => negb (isCodeblock seg)) currentGroup = true ->
    let '(groups', currentGroup', _) :=
      groupLoop segments segIndex groups currentGroup groupIndex in
    Forall wellGrouped groups'
    /\ forallb (fun seg => negb (isCodeblock seg)) currentGroup' = true
    /\ segmentsOf groups' ++ currentGroup' = segmentsOf groups ++ currentGroup ++ segments.
Proof.
  induction segments as [|seg rest IH]; intros segIndex groups currentGroup groupIndex Hg Hc.
  - cbn [groupLoop]. now rewrite app_nil_r.
  - cbn [groupLoop]. destruct (isCodeblock seg) eqn:Hseg.
    + destruct currentGroup as [|s0 cur]; cbn [List.length Nat.ltb Nat.leb].
      * specialize (IH (S segIndex)
                      (groups ++ [mkGroup [seg]
                                    ("code-" ++ pretty groupIndex ++ "-"
                                       ++ langOrNone (seg_lang seg))])
                      [] (S groupIndex)).
        destruct (groupLoop rest _ _ _ _) as [[groups' cur'] gi'].
        destruct IH as (H1 & H2 & H3).
        { apply Forall_app. split; [exact Hg|]. constructor; [|constructor].
          split; [discriminate|]. left. exists seg. now split. }
        { reflexivity. }
        split; [exact H1|]. split; [exact H2|].
        rewrite H3, segmentsOf_app. unfold segmentsOf at 2. cbn. now rewrite <- !app_assoc.
      * specialize (IH (S segIndex)
                      ((groups ++ [mkGroup (s0 :: cur)
                                     ("text-" ++ pretty groupIndex ++ "-" ++ pretty segIndex)])
                         ++ [mkGroup [seg]
                               ("code-" ++ pretty (S groupIndex) ++ "-"
                                  ++ langOrNone (seg_lang seg))])
                      [] (S (S groupIndex))).
        destruct (groupLoop rest _ _ _ _) as [[groups' cur'] gi'].
        destruct IH as (H1 & H2 & H3).
        { apply Forall_app. split.
          - apply Forall_app. split; [exact Hg|]. constructor; [|constructor].
            split; [discriminate|]. right. exact Hc.
          - constructor; [|constructor].
            split; [discriminate|]. left. exists seg. now split. }
        { reflexivity. }
        split; [exact H1|]. split; [exact H2|].
        rewrite H3, !segmentsOf_app. unfold segmentsOf at 2 3. cbn.
        now rewrite <- !app_assoc, !app_nil_r.
    + specialize (IH (S segIndex) groups (currentGroup ++ [seg]) groupIndex Hg).
      destruct (groupLoop rest _ _ _ _) as [[groups' cur'] gi'].
      destruct IH as (H1 & H2 & H3).
      { rewrite forallb_app, Hc. cbn. now rewrite Hseg. }
      split; [exact H1|]. split; [exact H2|].
      rewrite H3. now rewrite <- !app_assoc.
Qed.

(** X26. The groups made of the segments of a message are a partition
    of them in order: put one after the other they give back the
    segments, no group is empty, and a group is either one code block on
    its own or holds inline segments only. *)
Theorem X26_groupedSegments_partition (segments : list TextSegment) :
  segmentsOf (groupedSegments segments) = segments
  /\ Forall wellGrouped (groupedSegments segments).
Proof.
  unfold groupedSegments.
  pose proof (groupLoop_spec segments 0 [] [] 0 (Forall_nil_2 _) eq_refl) as H.
  destruct (groupLoop segments 0 [] [] 0) as [[groups cur] gi].
  destruct H as (H1 & H2 & H3). cbn in H3.
  destruct cur as [|s0 cur]; cbn [List.length Nat.ltb Nat.leb].
  - rewrite app_nil_r in H3. now split.
  - split.
    + rewrite segmentsOf_app, <- H3. unfold segmentsOf at 2. cbn. now rewrite app_nil_r.
    + apply Forall_app. split; [exact H1|]. constructor; [|constructor].
      split; [discriminate|]. now right.
Qed.

Lemma numeral_dash_inj (s1 s2 r1 r2 : string) :
  hasChar "-" s1 = false -> hasChar "-" s2 = false ->
  String.append s1 (String "-" r1) = String.append s2 (String "-" r2) -> s1 = s2.
Proof.
  revert s2. induction s1 as [|a s1 IH]; intros [|b s2] H1 H2 E;
    rewrite ?append_String, ?append_empty in E.
  - reflexivity.
  - injection E as <- _. cbn in H2. discriminate.
  - injection E as -> _. cbn in H1. discriminate.
  - injection E as -> E. cbn [hasChar] in H1, H2.
    apply orb_false_elim in H1. apply orb_false_elim in H2.
    f_equal. apply (IH s2); tauto.
Qed.

Lemma keyed_inj (g1 g2 : nat) (key : string) : keyed g1 key -> keyed g2 key -> g1 = g2.
Proof.
  intros (k1 & t1 & Hk1 & E1) (k2 & t2 & Hk2 & E2). rewrite E1 in E2. clear E1.
  assert (E : (pretty g1 ++ "-" ++ t1)%string = (pretty g2 ++ "-" ++ t2)%string).
  { destruct Hk1 as [-> | ->], Hk2 as [-> | ->];
      rewrite ?append_String, ?append_empty in E2; now inversion E2. }
  rewrite !append_String, !append_empty in E.
  apply numeral_dash_inj in E; try (now apply (pretty_N_other "-")).
  apply (inj pretty) in E. exact E.
Qed.

Lemma groupLoop_keys (segments : list TextSegment) :
  forall segIndex groups currentGroup groupIndex,
    NoDup (List.map group_key groups) ->
    Forall (fun g => exists i, (i < groupIndex)%nat /\ keyed i (group_key g)) groups ->
    let '(groups', _, groupIndex') :=
      groupLoop segments segIndex groups currentGroup groupIndex in
    NoDup (List.map group_key groups')
    /\ Forall (fun g => exists i, (i < groupIndex')%nat /\ keyed i (group_key g)) groups'.
Proof.
  assert (Hpush : forall groups groupIndex segs kind tail,
             kind = "text-" \/ kind = "code-" ->
             NoDup (List.map group_key groups) ->
             Forall (fun g => exists i, (i < groupIndex)%nat /\ keyed i (group_key g)) groups ->
             NoDup (List.map group_key
                      (groups ++ [mkGroup segs (kind ++ pretty groupIndex ++ "-" ++ tail)]))
             /\ Forall (fun g => exists i, (i < S groupIndex)%nat /\ keyed i (group_key g))
                  (groups ++ [mkGroup segs (kind ++ pretty groupIndex ++ "-" ++ tail)])).
  { intros groups groupIndex segs kind tail Hkind Hnd Hall. split.
    - rewrite List.map_app. cbn [List.map group_key]. apply NoDup_app. split; [exact Hnd|].
      split; [|apply NoDup_singleton].
      intros key Hin Hnew. apply list_elem_of_singleton in Hnew. subst key.
      apply list_elem_of_In, in_map_iff in Hin. destruct Hin as (g & Hkey & Hin).
      rewrite Forall_forall in Hall. apply list_elem_of_In, Hall in Hin.
      destruct Hin as (i & Hlt & Hkeyed). rewrite Hkey in Hkeyed.
      assert (keyed groupIndex (kind ++ pretty groupIndex ++ "-" ++ tail))
        by (now exists kind, tail).
      assert (i = groupIndex) by (eapply keyed_inj; eassumption). lia.
    - apply Forall_app. split.
      + eapply Forall_impl; [exact Hall|]. intros g (i & Hlt & Hk). exists i. split; [lia|exact Hk].
      + constructor; [|constructor]. exists groupIndex. split; [lia|].
        now exists kind, tail. }
  induction segments as [|seg rest IH]; intros segIndex groups currentGroup groupIndex Hnd Hall.
  - cbn [groupLoop]. now split.
  - cbn [groupLoop]. destruct (isCodeblock seg).
    + destruct (0 <? List.length currentGroup)%nat.
      * destruct (Hpush groups groupIndex currentGroup "text-" (pretty segIndex)
                    (or_introl eq_refl) Hnd Hall) as [Hnd1 Hall1].
        destruct (Hpush _ (S groupIndex) [seg] "code-" (langOrNone (seg_lang seg))
                    (or_intror eq_refl) Hnd1 Hall1) as [Hnd2 Hall2].
        exact (IH (S segIndex) _ [] (S (S groupIndex)) Hnd2 Hall2).
      * destruct (Hpush groups groupIndex [seg] "code-" (langOrNone (seg_lang seg))
                    (or_intror eq_refl) Hnd Hall) as [Hnd1 Hall1].
        exact (IH (S segIndex) _ [] (S groupIndex) Hnd1 Hall1).
    + exact (IH (S segIndex) groups (currentGroup ++ [seg]) groupIndex Hnd Hall).
Qed.

(** X27. No two groups of a message get the same key, whatever the
    language tags of the code blocks hold: every key starts with the
    kind and the number of its group, and the numbers only grow. *)
Theorem X27_group_keys_distinct (segments : list TextSegment) :
  NoDup (List.map group_key (groupedSegments segments)).
Proof.
  unfold groupedSegments.
  pose proof (groupLoop_keys segments 0 [] [] 0 (NoDup_nil_2) (Forall_nil_2 _)) as H.
  destruct (groupLoop segments 0 [] [] 0) as [[groups cur] gi].
  destruct H as [Hnd Hall].
  destruct (0 <? List.length cur)%nat; [|exact Hnd].
  rewrite List.map_app. cbn [List.map group_key]. apply NoDup_app. split; [exact Hnd|].
  split; [|apply NoDup_singleton].
  intros key Hin Hnew. apply list_elem_of_singleton in Hnew. subst key.
  apply list_elem_of_In, in_map_iff in Hin. destruct Hin as (g & Hkey & Hin).
  rewrite Forall_forall in Hall. apply list_elem_of_In, Hall in Hin.
  destruct Hin as (i & Hlt & Hkeyed). rewrite Hkey in Hkeyed.
  assert (keyed gi ("text-" ++ pretty gi ++ "-end")) by (exists "text-", "end"; auto).
  assert (i = gi) by (eapply keyed_inj; eassumption). lia.
Qed.

(** ** Wrapping the text of a message *)

Lemma text_space : text " " = [32%N].
Proof. reflexivity. Qed.

Lemma splitSpace_not_nil (s : Text) : splitSpace s <> [].
Proof.
  induction s as [|u s IH]; cbn [splitSpace]; [discriminate|].
  destruct (u =? 32)%N; [discriminate|]. now destruct (splitSpace s).
Qed.

Lemma splitSpace_words (s : Text) : Forall (fun w => 32%N ∉ w) (splitSpace s).
Proof.
  induction s as [|u s IH]; cbn [splitSpace].
  - constructor; [apply not_elem_of_nil|constructor].
  - destruct (N.eqb_spec u 32) as [Hu|Hu].
    + constructor; [apply not_elem_of_nil|exact IH].
    + destruct (splitSpace s) as [|w ws].
      * constructor; [|constructor].
        apply not_elem_of_cons. split; [congruence|apply not_elem_of_nil].
      * inversion IH; subst. constructor; [|assumption].
        apply not_elem_of_cons. split; [congruence|assumption].
Qed.

Lemma splitSpace_word (w : Text) : 32%N ∉ w -> splitSpace w = [w].
Proof.
  induction w as [|u w IH]; [reflexivity|]. cbn [splitSpace]. intros H.
  apply not_elem_of_cons in H. destruct H as [Hu Hw].
  destruct (N.eqb_spec u 32) as [E|_]; [congruence|]. now rewrite (IH Hw).
Qed.

Lemma splitSpace_join (a b : Text) :
  splitSpace (a ++ text " " ++ b) = splitSpace a ++ splitSpace b.
Proof.
  rewrite text_space.
  induction a as [|u a IH]; [reflexivity|].
  cbn [app splitSpace] in *. rewrite IH.
  destruct (u =? 32)%N; [reflexivity|].
  pose proof (splitSpace_not_nil a). now destruct (splitSpace a).
Qed.

Lemma wordsOf_app (a b : list Text) : wordsOf (a ++ b) = wordsOf a ++ wordsOf b.
Proof. unfold wordsOf. now rewrite List.map_app, List.concat_app, List.filter_app. Qed.

Lemma wordsOf_word (w : Text) : 32%N ∉ w -> wordsOf [w] = List.filter truthy [w].
Proof.
  intros H. unfold wordsOf. cbn [List.map List.concat].
  now rewrite splitSpace_word, app_nil_r.
Qed.

Lemma wordsOf_empty : wordsOf (@cons Text (@nil N) (@nil Text)) = [].
Proof. reflexivity. Qed.

Lemma wordsOf_joined (a word : Text) :
  32%N ∉ word ->
  wordsOf [a ++ text " " ++ word] = wordsOf [a] ++ List.filter truthy [word].
Proof.
  intros H. unfold wordsOf. cbn [List.map List.concat].
  now rewrite !app_nil_r, splitSpace_join, List.filter_app, (splitSpace_word word H).
Qed.

Lemma filter_truthy_cons (word : Text) (rest : list Text) :
  List.filter truthy (word :: rest) = List.filter truthy [word] ++ List.filter truthy rest.
Proof. cbn [List.filter]. now destruct (truthy word). Qed.

Lemma wrapLoop_spec (maxWidth : nat) (words : list Text) :
  forall (lines : list Text) (currentLine : Text),
    Forall (fun w => 32%N ∉ w) words ->
    Forall (wrappedLine maxWidth) lines ->
    currentLine = [] \/ wrappedLine maxWidth currentLine ->
    let '(lines', currentLine') := wrapLoop words maxWidth lines currentLine in
    Forall (wrappedLine maxWidth) lines'
    /\ (currentLine' = [] \/ wrappedLine maxWidth currentLine')
    /\ wordsOf (lines' ++ [currentLine'])
       = wordsOf (lines ++ [currentLine]) ++ List.filter truthy words.
Proof.
  induction words as [|word rest IH]; intros lines cur Hwords Hlines Hcur.
  - cbn [wrapLoop List.filter]. now rewrite app_nil_r.
  - inversion Hwords as [|? ? Hword Hrest]; subst. cbn [wrapLoop].
    assert (Hw1 : wordsOf [word] = List.filter truthy [word]) by now apply wordsOf_word.
    rewrite (filter_truthy_cons word rest).
    destruct (List.length (cur ++ text " " ++ word) <=? maxWidth)%nat eqn:Hfit.
    + apply Nat.leb_le in Hfit.
      destruct cur as [|u cur]; cbn [truthy isEmpty negb].
      * specialize (IH lines word Hrest Hlines).
        destruct (wrapLoop rest maxWidth lines word) as [lines' cur'].
        destruct IH as (H1 & H2 & H3).
        { destruct word as [|u word]; [now left|right]. split; [discriminate|].
          left. rewrite text_space in Hfit. cbn [app List.length] in Hfit |- *. lia. }
        split; [exact H1|]. split; [exact H2|].
        rewrite H3, !wordsOf_app, Hw1, wordsOf_empty, app_nil_r. now rewrite <- app_assoc.
      * specialize (IH lines ((u :: cur) ++ text " " ++ word) Hrest Hlines).
        destruct (wrapLoop rest maxWidth lines _) as [lines' cur'].
        destruct IH as (H1 & H2 & H3).
        { right. split; [discriminate|now left]. }
        split; [exact H1|]. split; [exact H2|].
        rewrite H3, !wordsOf_app, (wordsOf_joined _ _ Hword). now rewrite <- !app_assoc.
    + assert (Hnew : word = [] \/ wrappedLine maxWidth word).
      { destruct word as [|u word]; [now left|right]. split; [discriminate|now right]. }
      destruct cur as [|u cur]; cbn [truthy isEmpty negb].
      * specialize (IH lines word Hrest Hlines Hnew).
        destruct (wrapLoop rest maxWidth lines word) as [lines' cur'].
        destruct IH as (H1 & H2 & H3).
        split; [exact H1|]. split; [exact H2|].
        rewrite H3, !wordsOf_app, Hw1, wordsOf_empty, app_nil_r. now rewrite <- app_assoc.
      * specialize (IH (lines ++ [u :: cur]) word Hrest).
        destruct (wrapLoop rest maxWidth _ word) as [lines' cur'].
        destruct IH as (H1 & H2 & H3).
        { apply Forall_app. split; [exact Hlines|]. constructor; [|constructor].
          destruct Hcur as [|]; [discriminate|assumption]. }
        { exact Hnew. }
        split; [exact H1|]. split; [exact H2|].
        rewrite H3, !wordsOf_app, Hw1. now rewrite <- !app_assoc.
Qed.

(** X28. [wrapText] never returns an empty list, and the words of its
    lines are the words of the text, in order.  For a positive width
    the result is the text itself in one line, which happens only when
    the text holds no word, or every line is non-empty and no longer
    than the width, counted in UTF-16 code units as [wrapText] counts,
    unless it is a single word. *)
Theorem X28_wrapText_lines (text : Text) (maxWidth : Z) :
  wrapText text maxWidth <> []
  /\ wordsOf (wrapText text maxWidth) = wordsOf [text]
  /\ ((0 < maxWidth)%Z ->
      wrapText text maxWidth = [text] /\ wordsOf [text] = []
      \/ Forall (wrappedLine (Z.to_nat maxWidth)) (wrapText text maxWidth)).
Proof.
  unfold wrapText.
  destruct (maxWidth <=? 0)%Z eqn:Hw.
  { split; [discriminate|]. split; [reflexivity|]. apply Z.leb_le in Hw. lia. }
  pose proof (wrapLoop_spec (Z.to_nat maxWidth) (splitSpace text) [] []
                (splitSpace_words text) (Forall_nil_2 _) (or_introl eq_refl)) as H.
  destruct (wrapLoop (splitSpace text) (Z.to_nat maxWidth) [] []) as [lines cur].
  destruct H as (H1 & H2 & H3).
  assert (Hall : wordsOf (lines ++ [cur]) = wordsOf [text]).
  { rewrite H3. unfold wordsOf. cbn. now rewrite app_nil_r. }
  assert (Hfinal : wordsOf (if truthy cur then lines ++ [cur] else lines) = wordsOf [text]
                   /\ Forall (wrappedLine (Z.to_nat maxWidth))
                        (if truthy cur then lines ++ [cur] else lines)).
  { destruct cur as [|u cur]; cbn [truthy isEmpty negb].
    - split; [|exact H1]. rewrite <- Hall, wordsOf_app. unfold wordsOf at 3. cbn.
      now rewrite app_nil_r.
    - split; [exact Hall|]. apply Forall_app. split; [exact H1|].
      constructor; [|constructor]. destruct H2 as [|]; [discriminate|assumption]. }
  destruct Hfinal as [Hwords Hlines].
  destruct (if truthy cur then lines ++ [cur] else lines) as [|l ls] eqn:E;
    cbn [List.length Nat.ltb Nat.leb].
  - split; [discriminate|]. split; [reflexivity|]. intros _. left.
    split; [reflexivity|]. now rewrite <- Hwords.
  - split; [discriminate|]. split; [exact Hwords|]. intros _. now right.
Qed.

